(** * simcache: run identification, sweep enumeration and the run store

    A shallow embedding of [src/simcache/core.py], [src/simcache/iterations.py]
    and [src/simcache/store.py], and the properties of the specification
    proved or refuted on it.

    - Python values are embedded as two inductive types: [value] for the
      arbitrary objects handed to [_normalize] and [iter_sweep], and [json]
      for what [_normalize] returns and what the store keeps in its JSON
      files.  A dictionary is the list of its items in insertion order, a set
      the list of its elements in iteration order.  An object of a type the
      code has no case for is a [VOther], given by what the code can ask of
      it.  Floating point numbers, numpy objects and byte strings are outside
      the embedded universe, and so are dictionary keys other than strings,
      integers, booleans and [None]; a Python [str] is a [string] whose
      characters are code points below 256.  Integers are unbounded: the
      limit the interpreter puts on the digits of an integer it prints, and
      its recursion limit, are not embedded.
    - A raised exception is [None] in the pure part ([core.py],
      [iterations.py]) and [Raise e] in the store part.
    - [hashlib.sha256], [json.dumps], [sorted] and [itertools.product] are
      library code; they are embedded from their documented behaviour and
      checked on test vectors.
    - The store is a record of what the root directory holds, on a POSIX
      file system without links that tells upper from lower case and does
      not fail by itself (permissions, space).  The run directories are kept by name:
      the store functions are embedded for run ids that name one entry of
      the runs directory ([plain_name]), and a property that depends on it
      says so.  The array codecs (numpy, zarr, h5py) are opaque but for the
      names of the arrays: a file written by a codec holds the artifact set
      it was given.  A name inside a run directory is a plain file name. *)

From Stdlib Require Import ZArith List String Ascii Bool Lia Permutation Sorted.
From Stdlib Require Import DecimalString.
Import ListNotations.
Set Warnings "-register-all".
Local Open Scope string_scope.
Local Open Scope list_scope.
Local Open Scope Z_scope.

(* ================================================================== *)
(** ** SHA-256 ([hashlib.sha256(...).hexdigest()]) *)
(* ================================================================== *)

Module SHA256.

Definition w32 (x : Z) : Z := x mod 2 ^ 32.
Definition add32 (x y : Z) : Z := w32 (x + y).
Definition rotr (n x : Z) : Z :=
  Z.lor (Z.shiftr x n) (w32 (Z.shiftl x (32 - n))).
Definition shr (n x : Z) : Z := Z.shiftr x n.
Definition not32 (x : Z) : Z := Z.lxor x (2 ^ 32 - 1).

Definition Ch (x y z : Z) : Z := Z.lxor (Z.land x y) (Z.land (not32 x) z).
Definition Maj (x y z : Z) : Z :=
  Z.lxor (Z.lxor (Z.land x y) (Z.land x z)) (Z.land y z).
Definition bsig0 (x : Z) : Z := Z.lxor (Z.lxor (rotr 2 x) (rotr 13 x)) (rotr 22 x).
Definition bsig1 (x : Z) : Z := Z.lxor (Z.lxor (rotr 6 x) (rotr 11 x)) (rotr 25 x).
Definition ssig0 (x : Z) : Z := Z.lxor (Z.lxor (rotr 7 x) (rotr 18 x)) (shr 3 x).
Definition ssig1 (x : Z) : Z := Z.lxor (Z.lxor (rotr 17 x) (rotr 19 x)) (shr 10 x).

(** The round constants are the first 32 bits of the fractional parts of
    the cube roots of the first 64 primes; the initial chaining value is the
    same for the square roots of the first 8. *)
Definition primes : list Z :=
  [ 2; 3; 5; 7; 11; 13; 17; 19; 23; 29; 31; 37; 41; 43; 47; 53;
    59; 61; 67; 71; 73; 79; 83; 89; 97; 101; 103; 107; 109; 113; 127; 131;
    137; 139; 149; 151; 157; 163; 167; 173; 179; 181; 191; 193; 197; 199;
    211; 223; 227; 229; 233; 239; 241; 251; 257; 263; 269; 271; 277; 281;
    283; 293; 307; 311 ].

(** The integer cube root of a number below 2^105, bit by bit. *)
Definition icbrt (n : Z) : Z :=
  fold_left (fun r b => let c := r + 2 ^ Z.of_nat b in
                        if c * c * c <=? n then c else r)
            (rev (seq 0 35)) 0.

Definition frac_cbrt (p : Z) : Z := w32 (icbrt (p * 2 ^ 96)).
Definition frac_sqrt (p : Z) : Z := w32 (Z.sqrt (p * 2 ^ 64)).

Definition K : list Z := Eval vm_compute in map frac_cbrt primes.

(** The eight working words a..h, also the chaining value. *)
Record state := mkState
  { sa : Z; sb : Z; sc : Z; sd : Z; se : Z; sf : Z; sg : Z; sh : Z }.

Definition init : state :=
  Eval vm_compute in
  mkState (frac_sqrt 2) (frac_sqrt 3) (frac_sqrt 5) (frac_sqrt 7)
          (frac_sqrt 11) (frac_sqrt 13) (frac_sqrt 17) (frac_sqrt 19).

(** Padding: 0x80, zeros up to 56 mod 64, then the bit length on 8 bytes,
    big endian. *)
Definition be_bytes (n : nat) (x : Z) : list Z :=
  map (fun i => (Z.shiftr x (8 * Z.of_nat i)) mod 256) (rev (seq 0 n)).

Definition pad (msg : list Z) : list Z :=
  let len := Z.of_nat (List.length msg) in
  let zeros := Z.to_nat ((55 - len) mod 64) in
  msg ++ 0x80 :: repeat 0 zeros ++ be_bytes 8 (8 * len).

Fixpoint be_words (fuel : nat) (bs : list Z) : list Z :=
  match fuel, bs with
  | S f, b0 :: b1 :: b2 :: b3 :: r =>
      (((b0 * 256 + b1) * 256 + b2) * 256 + b3) :: be_words f r
  | _, _ => []
  end.

Fixpoint blocks (fuel : nat) (ws : list Z) : list (list Z) :=
  match fuel, ws with
  | _, [] => []
  | O, _ => []
  | S f, _ => firstn 16 ws :: blocks f (skipn 16 ws)
  end.

(** One round: the message schedule is a sliding window of 16 words whose
    head is W[t]. *)
Definition next_w (win : list Z) : Z :=
  add32 (add32 (add32 (ssig1 (nth 14 win 0)) (nth 9 win 0))
               (ssig0 (nth 1 win 0)))
        (nth 0 win 0).

Definition round (acc : state * list Z) (k : Z) : state * list Z :=
  let '(s, win) := acc in
  let wt := nth 0 win 0 in
  let t1 := add32 (add32 (add32 (add32 (sh s) (bsig1 (se s)))
                                (Ch (se s) (sf s) (sg s))) k) wt in
  let t2 := add32 (bsig0 (sa s)) (Maj (sa s) (sb s) (sc s)) in
  (mkState (add32 t1 t2) (sa s) (sb s) (sc s)
           (add32 (sd s) t1) (se s) (sf s) (sg s),
   tl win ++ [next_w win]).

Definition compress (h : state) (block : list Z) : state :=
  let s := fst (fold_left round K (h, block)) in
  mkState (add32 (sa h) (sa s)) (add32 (sb h) (sb s))
          (add32 (sc h) (sc s)) (add32 (sd h) (sd s))
          (add32 (se h) (se s)) (add32 (sf h) (sf s))
          (add32 (sg h) (sg s)) (add32 (sh h) (sh s)).

Definition digest (msg : list Z) : state :=
  let p := pad msg in
  let ws := be_words (List.length p) p in
  fold_left compress (blocks (List.length ws) ws) init.

Definition hex_digit (d : Z) : ascii :=
  if d <? 10 then ascii_of_nat (Z.to_nat (48 + d))
  else ascii_of_nat (Z.to_nat (87 + d)).

(** ['%08x'] of a 32-bit word. *)
Definition hex8 (x : Z) : string :=
  string_of_list_ascii
    (map (fun i => hex_digit ((Z.shiftr x (4 * Z.of_nat i)) mod 16))
         (rev (seq 0 8))).

Definition hex_of_state (s : state) : string :=
  (hex8 (sa s) ++ hex8 (sb s) ++ hex8 (sc s) ++ hex8 (sd s) ++
   hex8 (se s) ++ hex8 (sf s) ++ hex8 (sg s) ++ hex8 (sh s))%string.

(** [payload.encode("utf-8")]: one byte for a code point below 128, two
    for the others below 256. *)
Definition utf8_char (c : ascii) : list Z :=
  let n := Z.of_nat (nat_of_ascii c) in
  if n <? 128 then [n] else [192 + n / 64; 128 + n mod 64].

Definition encode_utf8 (s : string) : list Z :=
  flat_map utf8_char (list_ascii_of_string s).

Definition hexdigest (payload : string) : string :=
  hex_of_state (digest (encode_utf8 payload)).

End SHA256.

(* ================================================================== *)
(** ** Python values *)
(* ================================================================== *)

(** Dictionary keys: [str], [int], [bool] and [None]. *)
Inductive key : Type :=
| KStr (s : string)
| KInt (z : Z)
| KBool (b : bool)
| KNone.

(** What the code can ask of an object of a type it has no case for (a
    frozenset, a mapping that is not a [dict], a date, ...): [printed] is
    [str(obj)], [truth] is [bool(obj)], [hashes] tells whether [hash(obj)]
    returns.  Equal objects ([==]) carry the same number [same]; they may
    still print differently, as two equal frozensets that iterate in
    different orders do. *)
Record other : Type := mkOther
  { printed : string;
    truth : bool;
    hashes : bool;
    same : nat }.

(** The objects [_normalize] and [iter_sweep] receive.  A [VSet] lists its
    elements in iteration order, a [VDict] its items in insertion order;
    [VPath s] is a [pathlib.Path] whose [str()] is [s].  A [VOther] comes
    with [list(obj)] when the object can be iterated, and with its items
    when it is a mapping (it has [keys()], [get()] and subscripts). *)
Inductive value : Type :=
| VNone
| VBool (b : bool)
| VInt (z : Z)
| VStr (s : string)
| VPath (s : string)
| VList (l : list value)
| VTuple (l : list value)
| VSet (l : list value)
| VDict (d : list (key * value))
| VOther (o : other) (items : option (list value))
         (mapping : option (list (key * value))).

(** What [_normalize] returns and what [json.load] reads: JSON documents.
    The items of a [JObj] are in insertion order. *)
Inductive json : Type :=
| JNull
| JBool (b : bool)
| JInt (z : Z)
| JStr (s : string)
| JList (l : list json)
| JObj (d : list (string * json)).

Definition dquote : ascii := "034"%char.
Definition backslash : ascii := "092"%char.

(** [str(n)] for an [int], without the interpreter's limit on the number
    of digits. *)
Definition str_of_int (z : Z) : string := NilZero.string_of_int (Z.to_int z).

(** [str(key)]. *)
Definition str_of_key (k : key) : string :=
  match k with
  | KStr s => s
  | KInt z => str_of_int z
  | KBool true => "True"
  | KBool false => "False"
  | KNone => "None"
  end.

(** [bool] is a subclass of [int]: [True == 1] and [False == 0]. *)
Definition Z_of_bool (b : bool) : Z := if b then 1 else 0.

(** Key equality as the dictionary sees it ([==] together with [hash]). *)
Definition key_eqb (a b : key) : bool :=
  match a, b with
  | KStr s, KStr t => String.eqb s t
  | KInt x, KInt y => x =? y
  | KInt x, KBool c => x =? Z_of_bool c
  | KBool c, KInt y => Z_of_bool c =? y
  | KBool c, KBool e => Bool.eqb c e
  | KNone, KNone => true
  | _, _ => false
  end.

Definition value_of_key (k : key) : value :=
  match k with
  | KStr s => VStr s
  | KInt z => VInt z
  | KBool b => VBool b
  | KNone => VNone
  end.

(** *** Dictionaries as association lists *)

Section Dict.
Context {K V : Type} (eqb : K -> K -> bool).

(** [d.get(k)] / [k in d]: the first item whose key equals [k]. *)
Fixpoint dict_get (k : K) (d : list (K * V)) : option V :=
  match d with
  | [] => None
  | (k', v) :: r => if eqb k k' then Some v else dict_get k r
  end.

(** [d[k] = v]: overwrite in place when the key is present, append
    otherwise. *)
Fixpoint dict_set (k : K) (v : V) (d : list (K * V)) : list (K * V) :=
  match d with
  | [] => [(k, v)]
  | (k', v') :: r =>
      if eqb k k' then (k', v) :: r else (k', v') :: dict_set k v r
  end.

(** [dict(items)], also a dict comprehension: successive assignments. *)
Definition dict_of_items (items : list (K * V)) : list (K * V) :=
  fold_left (fun acc kv => dict_set (fst kv) (snd kv) acc) items [].

Definition dict_mem (k : K) (d : list (K * V)) : bool :=
  match dict_get k d with Some _ => true | None => false end.
End Dict.

(** *** Sorting

    [sorted] and [list.sort] are stable and use only [<], which may raise
    [TypeError].  The model is the stable insertion sort: each element goes
    in front of the first element it is smaller than, and a comparison that
    raises makes the whole sort raise.  It returns what Python's sort
    returns whenever [<] is defined between the elements and orders them
    consistently, and on any list of two elements, where both make the one
    comparison of the second element with the first. *)

Section Sorting.
Context {A : Type} (lt : A -> A -> option bool).

Fixpoint insort (x : A) (s : list A) : option (list A) :=
  match s with
  | [] => Some [x]
  | y :: r =>
      match lt x y with
      | None => None
      | Some true => Some (x :: y :: r)
      | Some false => option_map (cons y) (insort x r)
      end
  end.

Definition sorted (l : list A) : option (list A) :=
  fold_left (fun acc x => match acc with
                          | Some s => insort x s
                          | None => None
                          end) l (Some []).
End Sorting.

(** The same sort for a comparison that cannot raise. *)
Section SortingTotal.
Context {A : Type} (ltb : A -> A -> bool).

Fixpoint insort_t (x : A) (s : list A) : list A :=
  match s with
  | [] => [x]
  | y :: r => if ltb x y then x :: y :: r else y :: insort_t x r
  end.

Definition sorted_t (l : list A) : list A :=
  fold_left (fun acc x => insort_t x acc) l [].
End SortingTotal.

(** [x < y] holds, without raising. *)
Definition lt_true {A : Type} (lt : A -> A -> option bool) (x y : A) : Prop :=
  lt x y = Some true.

(** The order of two elements by a string key, and its converse negated. *)
Definition by_key {A : Type} (k : A -> string) (a b : A) : bool :=
  String.ltb (k a) (k b).

Definition not_after {A : Type} (k : A -> string) (a b : A) : Prop :=
  String.ltb (k b) (k a) = false.

(** *** Comparison of normalized values *)

Definition num_of (j : json) : option Z :=
  match j with
  | JBool b => Some (Z_of_bool b)
  | JInt z => Some z
  | _ => None
  end.

(** [a == b]; never raises. *)
Fixpoint py_eq (a b : json) {struct a} : bool :=
  match a, b with
  | JNull, JNull => true
  | JBool x, JBool y => Z_of_bool x =? Z_of_bool y
  | JBool x, JInt y => Z_of_bool x =? y
  | JInt x, JBool y => x =? Z_of_bool y
  | JInt x, JInt y => x =? y
  | JStr s, JStr t => String.eqb s t
  | JList l, JList m =>
      (fix go (l m : list json) {struct l} : bool :=
         match l, m with
         | [], [] => true
         | x :: l', y :: m' => py_eq x y && go l' m'
         | _, _ => false
         end) l m
  | JObj d, JObj e =>
      (List.length d =? List.length e)%nat &&
      (fix go (d : list (string * json)) {struct d} : bool :=
         match d with
         | [] => true
         | kv :: d' =>
             match dict_get String.eqb (fst kv) e with
             | Some w => py_eq (snd kv) w
             | None => false
             end && go d'
         end) d
  | _, _ => false
  end.

(** [a < b]: numbers by value, strings by code point, lists by the first
    pair of items that are not [==]; [None] is [TypeError]. *)
Fixpoint py_lt (a b : json) {struct a} : option bool :=
  match a, b with
  | JBool x, JBool y => Some (Z_of_bool x <? Z_of_bool y)
  | JBool x, JInt y => Some (Z_of_bool x <? y)
  | JInt x, JBool y => Some (x <? Z_of_bool y)
  | JInt x, JInt y => Some (x <? y)
  | JStr s, JStr t => Some (String.ltb s t)
  | JList l, JList m =>
      (fix go (l m : list json) {struct l} : option bool :=
         match l, m with
         | [], [] => Some false
         | [], _ :: _ => Some true
         | _ :: _, [] => Some false
         | x :: l', y :: m' => if py_eq x y then go l' m' else py_lt x y
         end) l m
  | _, _ => None
  end.

(** Truth value of a JSON value ([x or default], [if x]). *)
Definition truthy (j : json) : bool :=
  match j with
  | JNull => false
  | JBool b => b
  | JInt z => negb (z =? 0)
  | JStr s => negb (String.eqb s "")
  | JList l => match l with [] => false | _ => true end
  | JObj d => match d with [] => false | _ => true end
  end.

(* ================================================================== *)
(** ** core.py: [_normalize], [hash_spec] *)
(* ================================================================== *)

Fixpoint mapM {A B : Type} (f : A -> option B) (l : list A) : option (list B) :=
  match l with
  | [] => Some []
  | x :: r =>
      match f x, mapM f r with
      | Some y, Some ys => Some (y :: ys)
      | _, _ => None
      end
  end.

Fixpoint _normalize (obj : value) : option json :=
  match obj with
  | VDict d =>
      option_map (fun items => JObj (dict_of_items String.eqb items))
        ((fix items (d : list (key * value)) : option (list (string * json)) :=
            match d with
            | [] => Some []
            | kv :: r =>
                match _normalize (snd kv), items r with
                | Some j, Some js => Some ((str_of_key (fst kv), j) :: js)
                | _, _ => None
                end
            end) d)
  | VList l | VTuple l =>
      option_map JList
        ((fix each (l : list value) : option (list json) :=
            match l with
            | [] => Some []
            | x :: r =>
                match _normalize x, each r with
                | Some j, Some js => Some (j :: js)
                | _, _ => None
                end
            end) l)
  | VSet l =>
      match (fix each (l : list value) : option (list json) :=
               match l with
               | [] => Some []
               | x :: r =>
                   match _normalize x, each r with
                   | Some j, Some js => Some (j :: js)
                   | _, _ => None
                   end
               end) l with
      | Some js => option_map JList (sorted py_lt js)
      | None => None
      end
  | VPath s => Some (JStr s)
  | VStr s => Some (JStr s)
  | VInt z => Some (JInt z)
  | VBool b => Some (JBool b)
  | VNone => Some JNull
  | VOther o _ _ => Some (JStr (printed o))
  end.

(** *** [json.dumps(..., sort_keys=True, separators=(",", ":"))] *)

Definition hex_digit_n (n : nat) : ascii := SHA256.hex_digit (Z.of_nat n).

(** One character of a string literal.  With [ensure_ascii] everything
    outside the printable ASCII range is escaped; without it only the control
    characters, the quote and the backslash are. *)
Definition escape_char (ensure_ascii : bool) (c : ascii) : string :=
  let n := nat_of_ascii c in
  if Ascii.eqb c dquote then String backslash (String dquote "")
  else if Ascii.eqb c backslash then String backslash (String backslash "")
  else if (n =? 8)%nat then String backslash "b"
  else if (n =? 12)%nat then String backslash "f"
  else if (n =? 10)%nat then String backslash "n"
  else if (n =? 13)%nat then String backslash "r"
  else if (n =? 9)%nat then String backslash "t"
  else if ((32 <=? n) && ((n <=? 126) || negb ensure_ascii))%nat then String c ""
  else String backslash
         ("u00" ++ String (hex_digit_n (n / 16))
                     (String (hex_digit_n (n mod 16)) ""))%string.

Fixpoint escape (ensure_ascii : bool) (s : string) : string :=
  match s with
  | EmptyString => ""
  | String c r => (escape_char ensure_ascii c ++ escape ensure_ascii r)%string
  end.

Definition encode_str (ensure_ascii : bool) (s : string) : string :=
  String dquote (escape ensure_ascii s ++ String dquote "")%string.

Definition key_ltb : string * json -> string * json -> bool := by_key fst.

(** [sort_keys=True]: the items of every object ordered by key. *)
Fixpoint sort_keys (j : json) : json :=
  match j with
  | JList l => JList (map sort_keys l)
  | JObj d => JObj (sorted_t key_ltb (map (fun kv => (fst kv, sort_keys (snd kv))) d))
  | _ => j
  end.

(** The compact encoding, items in the order given. *)
Fixpoint encode (ensure_ascii : bool) (j : json) : string :=
  match j with
  | JNull => "null"
  | JBool true => "true"
  | JBool false => "false"
  | JInt z => str_of_int z
  | JStr s => encode_str ensure_ascii s
  | JList l => ("[" ++ String.concat "," (map (encode ensure_ascii) l) ++ "]")%string
  | JObj d =>
      ("{" ++ String.concat ","
                (map (fun kv => encode_str ensure_ascii (fst kv) ++ ":" ++
                                encode ensure_ascii (snd kv)) d)
           ++ "}")%string
  end.

Definition dumps (ensure_ascii : bool) (j : json) : string :=
  encode ensure_ascii (sort_keys j).

(** The canonical payload hashed by [hash_spec]. *)
Definition canonical (spec : value) : option string :=
  option_map (dumps true) (_normalize spec).

Definition hash_spec (spec : value) : option string :=
  match _normalize spec with
  | Some normalized =>
      let payload := dumps true normalized in
      Some (SHA256.hexdigest payload)
  | None => None
  end.

(** [_canonical_json] and [make_run_id]: the identifier of the earlier
    [RunSpec] interface, the first 12 characters of the digest of a
    specification that is JSON already.  [_canonical_json] returns the
    bytes, which [hashlib.sha256] takes as they are. *)
Definition _canonical_json (obj : json) : list Z :=
  SHA256.encode_utf8 (dumps false obj).

Definition make_run_id (spec : json) : string :=
  let h := SHA256.hex_of_state (SHA256.digest (_canonical_json spec)) in
  String.substring 0 12 h.

(* ================================================================== *)
(** ** store.py: [build_spec], [compute_run_id] *)
(* ================================================================== *)

Definition build_spec (params seed code_version env : value) : value :=
  VDict [ (KStr "code_version", code_version);
          (KStr "env", env);
          (KStr "params", params);
          (KStr "seed", seed) ].

(** [collected] is what [core.collect_env()] returns on the host; it is
    used when no [env] is passed. *)
Definition compute_run_id (collected : value)
    (params seed code_version : value) (env : option value) : option string :=
  let env := match env with Some e => e | None => collected end in
  let spec := build_spec params seed code_version env in
  hash_spec spec.

(** *** Semantic equality of run specifications

    The ways the same specification can be written differently: the items
    of a mapping inserted in another order, a tuple where the other has a
    list, a set iterated in another order; and for an object of another
    type, an equal object, however it prints. *)


(** A value that can be a set element: [hash()] accepts it. *)
Fixpoint hashable (v : value) : bool :=
  match v with
  | VNone | VBool _ | VInt _ | VStr _ | VPath _ => true
  | VTuple l => forallb hashable l
  | VList _ | VSet _ | VDict _ => false
  | VOther o _ _ => hashes o
  end.

(** No object inside. *)
Fixpoint objfree (j : json) : bool :=
  match j with
  | JList l => forallb objfree l
  | JObj _ => false
  | _ => true
  end.

Definition strictly (x y : json) : bool :=
  match py_lt x y, py_lt y x with
  | Some true, _ => true
  | _, Some true => true
  | _, _ => false
  end.

(** Any two elements are strictly ordered by [<], one way or the other. *)
Fixpoint strictly_ordered (js : list json) : bool :=
  match js with
  | [] => true
  | x :: r => forallb (strictly x) r && strictly_ordered r
  end.

Fixpoint distinct (l : list string) : bool :=
  match l with
  | [] => true
  | x :: r => negb (existsb (String.eqb x) r) && distinct r
  end.

(** The specifications on which [hash_spec] is insensitive to the way they
    are written: in every mapping the keys stay pairwise distinct once
    coerced to strings, every set holds hashable elements whose normalized
    forms are pairwise strictly ordered by [<], and no object of another
    type is an item of a list, a tuple or a dictionary, or the specification
    itself. *)
Fixpoint well_formed (v : value) : bool :=
  match v with
  | VList l | VTuple l => forallb well_formed l
  | VSet l =>
      forallb hashable l &&
      match mapM _normalize l with
      | Some js => strictly_ordered js
      | None => false
      end
  | VDict d =>
      distinct (map (fun kv => str_of_key (fst kv)) d) &&
      forallb (fun kv => well_formed (snd kv)) d
  | VOther _ _ _ => false
  | _ => true
  end.

(** The list comparisons inside [py_eq] and [py_lt]. *)
Fixpoint eq_items (l m : list json) : bool :=
  match l, m with
  | [], [] => true
  | x :: l', y :: m' => py_eq x y && eq_items l' m'
  | _, _ => false
  end.

Fixpoint lt_items (l m : list json) : option bool :=
  match l, m with
  | [], [] => Some false
  | [], _ :: _ => Some true
  | _ :: _, [] => Some false
  | x :: l', y :: m' => if py_eq x y then lt_items l' m' else py_lt x y
  end.

(* ================================================================== *)
(** ** iterations.py: [expand_grid], [iter_sweep] *)
(* ================================================================== *)

(** [bool(x)] of an arbitrary value. *)
Definition is_true (v : value) : bool :=
  match v with
  | VNone => false
  | VBool b => b
  | VInt z => negb (z =? 0)
  | VStr s => negb (String.eqb s "")
  | VPath _ => true
  | VList l | VTuple l | VSet l => match l with [] => false | _ => true end
  | VDict d => match d with [] => false | _ => true end
  | VOther o _ _ => truth o
  end.

Fixpoint chars (s : string) : list value :=
  match s with
  | EmptyString => []
  | String c r => VStr (String c "") :: chars r
  end.

(** [list(x)]: the items of an iterable; [None] is the [TypeError] raised
    for a value that is not iterable. *)
Definition py_list (v : value) : option (list value) :=
  match v with
  | VList l | VTuple l | VSet l => Some l
  | VStr s => Some (chars s)
  | VDict d => Some (map (fun kv => value_of_key (fst kv)) d)
  | VNone | VBool _ | VInt _ | VPath _ => None
  | VOther _ items _ => items
  end.

(** The items of an object that has [keys()], [get()] and subscripts: a
    [dict], or another mapping. *)
Definition as_mapping (v : value) : option (list (key * value)) :=
  match v with
  | VDict d => Some d
  | VOther _ _ mapping => mapping
  | _ => None
  end.

(** [itertools.product] applied to the pools, as the library documents it:
    [result = [[]]], then for each pool
    [result = [x + [y] for x in result for y in pool]]. *)
Definition product {A : Type} (pools : list (list A)) : list (list A) :=
  fold_left
    (fun result pool => flat_map (fun x => map (fun y => x ++ [y]) pool) result)
    pools [[]].

(** [dict(zip(keys, combo))]. *)
Definition dict_zip (keys : list key) (combo : list value) : list (key * value) :=
  dict_of_items key_eqb (combine keys combo).

Definition expand_grid (params_grid : value) : option (list value) :=
  match as_mapping params_grid with
  | Some d =>
      let keys := map fst d in
      match mapM (fun k => match dict_get key_eqb k d with
                           | Some axis => py_list axis
                           | None => None
                           end) keys with
      | Some values =>
          Some (map (fun combo => VDict (dict_zip keys combo)) (product values))
      | None => None
      end
  | None => None
  end.

(** The generator is modelled by the list of the pairs it yields; every
    exception it can raise is raised before the first pair. *)
Definition iter_sweep (grid : value) : option (list (value * value)) :=
  match as_mapping grid with
  | Some g =>
      let params_grid :=
        match dict_get key_eqb (KStr "params") g with
        | Some p => p
        | None => VDict []
        end in
      match (if is_true params_grid then expand_grid params_grid
             else Some [VDict []]) with
      | None => None
      | Some combinations =>
          match (if dict_mem key_eqb (KStr "seeds") g then
                   match dict_get key_eqb (KStr "seeds") g with
                   | Some s => py_list s
                   | None => None
                   end
                 else if dict_mem key_eqb (KStr "seed") g then
                   match dict_get key_eqb (KStr "seed") g with
                   | Some s => Some [s]
                   | None => None
                   end
                 else Some [VInt 0]) with
          | None => None
          | Some seeds =>
              Some (flat_map (fun params => map (fun seed => (params, seed)) seeds)
                             combinations)
          end
      end
  | None => None
  end.

(* ================================================================== *)
(** ** store.py: the run store *)
(* ================================================================== *)

Inductive exn : Type :=
| ValueError
| RuntimeError
| TypeError
| KeyError
| AttributeError
| FileNotFoundError
| FileExistsError
| JSONDecodeError
| CodecError     (* whatever a codec raises on a file it cannot decode *)
| OSError.       (* a file where a directory is needed, or the reverse *)

Inductive result (A : Type) : Type :=
| Ok (a : A)
| Raise (e : exn).
Arguments Ok {A} a.
Arguments Raise {A} e.

Definition bind {A B : Type} (r : result A) (k : A -> result B) : result B :=
  match r with
  | Ok a => k a
  | Raise e => Raise e
  end.

Notation "x <- r ;; k" := (bind r (fun x => k))
  (at level 61, r at next level, right associativity).

(** A dictionary with string keys and JSON values. *)
Definition pydict : Type := list (string * json).

Definition get (k : string) (d : pydict) : option json := dict_get String.eqb k d.
Definition set (k : string) (v : json) (d : pydict) : pydict := dict_set String.eqb k v d.

(** [d.get(k)]: [None] for a missing key. *)
Definition get_or_null (k : string) (d : pydict) : json :=
  match get k d with Some v => v | None => JNull end.

(** [d.get(k, default)]. *)
Definition get_default (k : string) (default : json) (d : pydict) : json :=
  match get k d with Some v => v | None => default end.

(** [x or default]. *)
Definition or_else (x default : json) : json := if truthy x then x else default.

(** The names of the arrays of an artifact set: [arrays.keys()]. *)
Class Named (A : Type) : Type := keys : A -> list string.

Section Store.

(** The artifact sets, [Dict[str, np.ndarray]], are opaque but for the
    names of their arrays; a file written by a codec holds the artifact set
    it was given. *)
Context {ndarrays : Type} {named : Named ndarrays}.

(** What a name inside a run directory holds.  A text file is [Some j] when
    it parses as the JSON document [j]. *)
Inductive node : Type :=
| TextFile (doc : option json)
| NpzFile (a : ndarrays)
| ZarrGroup (a : ndarrays)      (* a directory *)
| Hdf5File (a : ndarrays).

(** What a name under [root/runs] holds. *)
Inductive entry : Type :=
| RegularFile
| Directory (files : list (string * node)).

(** The store root as the [SimCache] object sees it, with the optional
    libraries the interpreter can import. *)
Record store : Type := mkStore
  { zarr_available : bool;
    h5py_available : bool;
    manifest_file : option (option json);   (* [root/manifest.json] *)
    runs_dir : list (string * entry) }.     (* [root/runs], in [glob] order *)

Definition with_manifest (m : option (option json)) (s : store) : store :=
  mkStore (zarr_available s) (h5py_available s) m (runs_dir s).

Definition with_runs (r : list (string * entry)) (s : store) : store :=
  mkStore (zarr_available s) (h5py_available s) (manifest_file s) r.

Definition files_of (run_id : string) (s : store) : option (list (string * node)) :=
  match dict_get String.eqb run_id (runs_dir s) with
  | Some (Directory fs) => Some fs
  | _ => None
  end.

Definition node_at (run_id name : string) (s : store) : option node :=
  match files_of run_id s with
  | Some fs => dict_get String.eqb name fs
  | None => None
  end.

Definition is_directory (n : node) : bool :=
  match n with ZarrGroup _ => true | _ => false end.

(** What opening a path under [runs/run_id] raises when [runs/run_id] is
    not a directory: [NotADirectoryError], an [OSError], under a plain
    file, and [FileNotFoundError] under nothing. *)
Definition no_directory (run_id : string) (s : store) : exn :=
  match dict_get String.eqb run_id (runs_dir s) with
  | Some RegularFile => OSError
  | _ => FileNotFoundError
  end.

(** Create or replace the regular file [runs/run_id/name]. *)
Definition write_file (run_id name : string) (n : node) (s : store)
  : result unit * store :=
  match files_of run_id s with
  | None => (Raise (no_directory run_id s), s)
  | Some fs =>
      match dict_get String.eqb name fs with
      | Some old =>
          if is_directory old then (Raise OSError, s)
          else (Ok tt, with_runs (dict_set String.eqb run_id
                                    (Directory (dict_set String.eqb name n fs))
                                    (runs_dir s)) s)
      | None =>
          (Ok tt, with_runs (dict_set String.eqb run_id
                               (Directory (dict_set String.eqb name n fs))
                               (runs_dir s)) s)
      end
  end.

(** [(self.runs_dir / run_id).exists()], for a run id that names one entry
    of the runs directory. *)
Definition run_exists (run_id : string) (s : store) : bool :=
  dict_mem String.eqb run_id (runs_dir s).

(** [run_dir.mkdir(parents=True, exist_ok=True)], for a run id that names
    one entry of the runs directory: there is no parent to make and none
    that could be in the way. *)
Definition mkdir_run (run_id : string) (s : store) : result unit * store :=
  match dict_get String.eqb run_id (runs_dir s) with
  | None => (Ok tt, with_runs (runs_dir s ++ [(run_id, Directory [])]) s)
  | Some (Directory _) => (Ok tt, s)
  | Some RegularFile => (Raise FileExistsError, s)
  end.

(** The two kinds of path the store reads and writes JSON at. *)
Inductive path : Type :=
| manifest_path
| run_file (run_id name : string).

(** [json.load] on what a path holds. *)
Definition read_json_node (n : option node) : result json :=
  match n with
  | None => Raise FileNotFoundError
  | Some (TextFile (Some j)) => Ok j
  | Some (TextFile None) => Raise JSONDecodeError
  | Some (ZarrGroup _) => Raise OSError
  | Some _ => Raise JSONDecodeError
  end.

Definition _read_json (p : path) (s : store) : result json :=
  match p with
  | manifest_path =>
      match manifest_file s with
      | None => Raise FileNotFoundError
      | Some (Some j) => Ok j
      | Some None => Raise JSONDecodeError
      end
  | run_file run_id name =>
      match files_of run_id s with
      | None => Raise (no_directory run_id s)
      | Some fs => read_json_node (dict_get String.eqb name fs)
      end
  end.

(** [json.dump(..., indent=2, sort_keys=True)]: the file then parses as the
    payload with every object's keys sorted. *)
Definition written (payload : json) : option json := Some (sort_keys payload).

(** [_write_json(path, payload)]; the parent directory is made first. *)
Definition _write_json (p : path) (payload : json) (s : store)
  : result unit * store :=
  match p with
  | manifest_path => (Ok tt, with_manifest (Some (written payload)) s)
  | run_file run_id name =>
      match mkdir_run run_id s with
      | (Raise e, s') => (Raise e, s')
      | (Ok _, s') => write_file run_id name (TextFile (written payload)) s'
      end
  end.

Definition _load_manifest (s : store) : result json :=
  match manifest_file s with
  | None => Ok (JObj [("runs", JObj [])])
  | Some _ => _read_json manifest_path s
  end.

(** [manifest["runs"][run_id] = entry] on the loaded document. *)
Definition assign_run (manifest : json) (run_id : string) (e : json) : result json :=
  match manifest with
  | JObj m =>
      match get "runs" m with
      | None => Raise KeyError
      | Some (JObj runs) => Ok (JObj (set "runs" (JObj (set run_id e runs)) m))
      | Some _ => Raise TypeError
      end
  | _ => Raise TypeError
  end.

Definition _update_manifest (run_id : string) (metadata : pydict) (s : store)
  : result unit * store :=
  match _load_manifest s with
  | Raise e => (Raise e, s)
  | Ok manifest =>
      let tags := or_else (get_or_null "tags" metadata) (JList []) in
      match assign_run manifest run_id
              (JObj [("timestamp", get_or_null "timestamp" metadata);
                     ("tags", tags)]) with
      | Raise e => (Raise e, s)
      | Ok manifest' => _write_json manifest_path manifest' s
      end
  end.

(** [_save_arrays]; returns the name of the file written inside the run
    directory. *)
Definition _save_arrays (arrays_format : string) (arrays : ndarrays)
    (run_id : string) (s : store) : result string * store :=
  if String.eqb arrays_format "npz" then
    (* [np.savez_compressed(arrays_path, **arrays)]: the names go in as
       keyword arguments of [savez_compressed(file, *args, **kwds)], the
       signature of the numpy documentation, where the name [file] is taken
       by the path already *)
    if existsb (String.eqb "file") (keys arrays) then (Raise TypeError, s)
    else
      match write_file run_id "arrays.npz" (NpzFile arrays) s with
      | (Ok _, s') => (Ok "arrays.npz", s')
      | (Raise e, s') => (Raise e, s')
      end
  else if String.eqb arrays_format "zarr" then
    if negb (zarr_available s) then (Raise RuntimeError, s)
    else
      match files_of run_id s with
      | None => (Raise (no_directory run_id s), s)
      | Some fs =>
          match dict_get String.eqb "arrays.zarr" fs with
          | Some old =>
              if is_directory old then
                (Ok "arrays.zarr",
                 with_runs (dict_set String.eqb run_id
                              (Directory (dict_set String.eqb "arrays.zarr"
                                            (ZarrGroup arrays) fs))
                              (runs_dir s)) s)
              else (Raise OSError, s)       (* [shutil.rmtree] on a file *)
          | None =>
              (Ok "arrays.zarr",
               with_runs (dict_set String.eqb run_id
                            (Directory (dict_set String.eqb "arrays.zarr"
                                          (ZarrGroup arrays) fs))
                            (runs_dir s)) s)
          end
      end
  else if String.eqb arrays_format "hdf5" then
    if negb (h5py_available s) then (Raise RuntimeError, s)
    else
      match write_file run_id "arrays.h5" (Hdf5File arrays) s with
      | (Ok _, s') => (Ok "arrays.h5", s')
      | (Raise e, s') => (Raise e, s')
      end
  else (Raise ValueError, s).

(** [_load_arrays] on what [arrays_path] holds. *)
Definition _load_arrays (arrays_format : string) (at_path : option node)
    (s : store) : result ndarrays :=
  if String.eqb arrays_format "npz" then
    match at_path with
    | None => Raise FileNotFoundError
    | Some (NpzFile a) => Ok a
    | Some (ZarrGroup _) => Raise OSError
    | Some _ => Raise CodecError
    end
  else if String.eqb arrays_format "zarr" then
    if negb (zarr_available s) then Raise RuntimeError
    else
      match at_path with
      | Some (ZarrGroup a) => Ok a
      | _ => Raise CodecError
      end
  else if String.eqb arrays_format "hdf5" then
    if negb (h5py_available s) then Raise RuntimeError
    else
      match at_path with
      | None => Raise FileNotFoundError
      | Some (Hdf5File a) => Ok a
      | Some (ZarrGroup _) => Raise OSError
      | Some _ => Raise CodecError
      end
  else Raise ValueError.

(** [save]; returns the run directory's name. *)
Definition save (run_id : string) (arrays : ndarrays) (metadata : pydict)
    (arrays_format : string) (s : store) : result string * store :=
  match mkdir_run run_id s with
  | (Raise e, s1) => (Raise e, s1)
  | (Ok _, s1) =>
      match _save_arrays arrays_format arrays run_id s1 with
      | (Raise e, s2) => (Raise e, s2)
      | (Ok arrays_path, s2) =>
          let metadata :=
            set "arrays_path" (JStr arrays_path)
              (set "arrays_format" (JStr arrays_format)
                 (set "run_id" (JStr run_id) metadata)) in
          match _write_json (run_file run_id "metadata.json") (JObj metadata) s2 with
          | (Raise e, s3) => (Raise e, s3)
          | (Ok _, s3) =>
              match _update_manifest run_id metadata s3 with
              | (Raise e, s4) => (Raise e, s4)
              | (Ok _, s4) => (Ok run_id, s4)
              end
          end
      end
  end.

Definition info (run_id : string) (s : store) : result json :=
  _read_json (run_file run_id "metadata.json") s.

(** [metadata[k]] on a loaded document. *)
Definition subscript (doc : json) (k : string) : result json :=
  match doc with
  | JObj d => match get k d with Some v => Ok v | None => Raise KeyError end
  | _ => Raise TypeError
  end.

(** [load]: the pair of the arrays and the metadata.  The array file is
    looked up by the name the metadata gives, as a name inside the run
    directory. *)
Definition load (run_id : string) (s : store) : result (ndarrays * json) :=
  metadata <- _read_json (run_file run_id "metadata.json") s ;;
  p <- subscript metadata "arrays_path" ;;
  match p with
  | JStr arrays_path =>
      f <- subscript metadata "arrays_format" ;;
      arrays <- match f with
                | JStr arrays_format =>
                    _load_arrays arrays_format (node_at run_id arrays_path s) s
                | _ => Raise ValueError
                end ;;
      Ok (arrays, metadata)
  | _ => Raise TypeError
  end.

(** [{"run_id": run_id, **entry}]. *)
Definition run_of_entry (run_id : string) (e : json) : result pydict :=
  match e with
  | JObj items =>
      Ok (fold_left (fun acc kv => set (fst kv) (snd kv) acc) items
                    [("run_id", JStr run_id)])
  | _ => Raise TypeError
  end.

Fixpoint mapR {A B : Type} (f : A -> result B) (l : list A) : result (list B) :=
  match l with
  | [] => Ok []
  | x :: r => y <- f x ;; ys <- mapR f r ;; Ok (y :: ys)
  end.

(** The runs listed by the manifest, in the order of its items. *)
Definition manifest_runs (manifest : json) : result (list pydict) :=
  match manifest with
  | JObj m =>
      match get "runs" m with
      | None => Raise KeyError
      | Some (JObj runs) => mapR (fun kv => run_of_entry (fst kv) (snd kv)) runs
      | Some _ => Raise AttributeError
      end
  | _ => Raise TypeError
  end.

(** The record the fallback scan builds for one run directory; the
    [except Exception] branch gives the placeholder. *)
Definition placeholder (name : string) : pydict :=
  [("run_id", JStr name); ("timestamp", JNull); ("tags", JList [])].

Definition scan_run (name : string) (files : list (string * node)) : pydict :=
  match read_json_node (dict_get String.eqb "metadata.json" files) with
  | Ok (JObj metadata) =>
      [("run_id", JStr name);
       ("timestamp", get_or_null "timestamp" metadata);
       ("tags", get_default "tags" (JList []) metadata)]
  | _ => placeholder name
  end.

Definition name_ltb : string * entry -> string * entry -> bool := by_key fst.

Definition fallback_runs (s : store) : list pydict :=
  flat_map (fun ne => match snd ne with
                      | Directory files => [scan_run (fst ne) files]
                      | RegularFile => []
                      end)
           (sorted_t name_ltb (runs_dir s)).

Definition by_timestamp (a b : pydict) : option bool :=
  py_lt (get_default "timestamp" (JStr "") a) (get_default "timestamp" (JStr "") b).

Definition list_runs (s : store) : result (list pydict) :=
  manifest <- _load_manifest s ;;
  runs <- manifest_runs manifest ;;
  match runs with
  | _ :: _ =>
      match sorted by_timestamp runs with
      | Some l => Ok l
      | None => Raise TypeError
      end
  | [] => Ok (fallback_runs s)
  end.

(** [needle in haystack] for two strings. *)
Fixpoint contains (needle haystack : string) : bool :=
  String.prefix needle haystack ||
  match haystack with
  | EmptyString => false
  | String _ r => contains needle r
  end.

(** [tag in x]. *)
Definition tag_in (tag : string) (x : json) : result bool :=
  match x with
  | JList l => Ok (existsb (py_eq (JStr tag)) l)
  | JStr s => Ok (contains tag s)
  | JObj d => Ok (dict_mem String.eqb tag d)
  | _ => Raise TypeError
  end.

Definition carries (tag : string) (run : pydict) : result bool :=
  tag_in tag (or_else (get_or_null "tags" run) (JList [])).

Fixpoint filterR {A : Type} (f : A -> result bool) (l : list A) : result (list A) :=
  match l with
  | [] => Ok []
  | x :: r =>
      b <- f x ;; ys <- filterR f r ;; Ok (if b then x :: ys else ys)
  end.

Definition recency (a b : pydict) : option bool :=
  py_lt (or_else (get_or_null "timestamp" a) (JStr ""))
        (or_else (get_or_null "timestamp" b) (JStr "")).

Definition load_latest (tag : string) (s : store)
  : result (option (ndarrays * json)) :=
  runs <- list_runs s ;;
  candidates <- filterR (carries tag) runs ;;
  match candidates with
  | [] => Ok None
  | c :: cs =>
      match sorted recency candidates with
      | None => Raise TypeError
      | Some l =>
          match get_or_null "run_id" (List.last l c) with
          | JStr run_id => r <- load run_id s ;; Ok (Some r)
          | _ => Raise TypeError
          end
      end
  end.

End Store.

(** The artifact set without arrays. *)
#[global] Instance no_arrays : Named unit := fun _ => [].

(* ================================================================== *)
(** ** Auxiliary definitions for the statements *)
(* ================================================================== *)

(** One item of the dict comprehension in [_normalize]. *)
Definition norm_item (kv : key * value) : option (string * json) :=
  match _normalize (snd kv) with
  | Some j => Some (str_of_key (fst kv), j)
  | None => None
  end.




(** *** Induction over nested values *)

Section JsonInd.
Context (P : json -> Prop).
Hypothesis Hnull : P JNull.
Hypothesis Hbool : forall b, P (JBool b).
Hypothesis Hint : forall z, P (JInt z).
Hypothesis Hstr : forall s, P (JStr s).
Hypothesis Hlist : forall l, Forall P l -> P (JList l).
Hypothesis Hobj : forall d, Forall (fun kv => P (snd kv)) d -> P (JObj d).

Fixpoint json_rect' (j : json) : P j :=
  match j with
  | JNull => Hnull
  | JBool b => Hbool b
  | JInt z => Hint z
  | JStr s => Hstr s
  | JList l =>
      Hlist l ((fix go (l : list json) : Forall P l :=
                  match l with
                  | [] => Forall_nil _
                  | x :: r => Forall_cons x (json_rect' x) (go r)
                  end) l)
  | JObj d =>
      Hobj d ((fix go (d : list (string * json)) : Forall (fun kv => P (snd kv)) d :=
                 match d with
                 | [] => Forall_nil _
                 | kv :: r => Forall_cons kv (json_rect' (snd kv)) (go r)
                 end) d)
  end.
End JsonInd.

Section ValueInd.
Context (P : value -> Prop).
Hypothesis Hnone : P VNone.
Hypothesis Hbool : forall b, P (VBool b).
Hypothesis Hint : forall z, P (VInt z).
Hypothesis Hstr : forall s, P (VStr s).
Hypothesis Hpath : forall s, P (VPath s).
Hypothesis Hlist : forall l, Forall P l -> P (VList l).
Hypothesis Htuple : forall l, Forall P l -> P (VTuple l).
Hypothesis Hset : forall l, Forall P l -> P (VSet l).
Hypothesis Hdict : forall d, Forall (fun kv => P (snd kv)) d -> P (VDict d).
Hypothesis Hother : forall o items mapping, P (VOther o items mapping).

Fixpoint value_rect' (v : value) : P v :=
  let each := fix go (l : list value) : Forall P l :=
                match l with
                | [] => Forall_nil _
                | x :: r => Forall_cons x (value_rect' x) (go r)
                end in
  match v with
  | VNone => Hnone
  | VBool b => Hbool b
  | VInt z => Hint z
  | VStr s => Hstr s
  | VPath s => Hpath s
  | VList l => Hlist l (each l)
  | VTuple l => Htuple l (each l)
  | VSet l => Hset l (each l)
  | VDict d =>
      Hdict d ((fix go (d : list (key * value)) : Forall (fun kv => P (snd kv)) d :=
                  match d with
                  | [] => Forall_nil _
                  | kv :: r => Forall_cons kv (value_rect' (snd kv)) (go r)
                  end) d)
  | VOther o items mapping => Hother o items mapping
  end.
End ValueInd.

(** The comparison of the fields inside [py_eq] on two objects. *)
Fixpoint eq_fields (e d : list (string * json)) : bool :=
  match d with
  | [] => true
  | kv :: d' =>
      match dict_get String.eqb (fst kv) e with
      | Some w => py_eq (snd kv) w
      | None => false
      end && eq_fields e d'
  end.

(** A document as [json.load] returns it: no object has a key twice. *)
Fixpoint wf_json (j : json) : bool :=
  match j with
  | JList l => forallb wf_json l
  | JObj d => distinct (map fst d) && forallb (fun kv => wf_json (snd kv)) d
  | _ => true
  end.

(** A character of [0-9a-f]. *)
Definition is_lower_hex (c : ascii) : bool :=
  let n := nat_of_ascii c in
  ((48 <=? n) && (n <=? 57) || (97 <=? n) && (n <=? 102))%nat.

(** A string between double quotes. *)
Definition q (s : string) : string := String dquote (s ++ String dquote "")%string.

(** [{"b": [1, -2, True, None], 7: "x\y", "a": {3, 1, 2}}], for a test
    vector. *)
Definition spec_vector : value :=
  VDict [(KStr "b", VList [VInt 1; VInt (-2); VBool true; VNone]);
         (KInt 7, VStr (String "x" (String backslash "y")));
         (KStr "a", VSet [VInt 3; VInt 1; VInt 2])].

(** *** Specifications written in two ways *)







(** *** The sweep *)



(** The nested loops of the specification: one loop per axis in
    declaration order, the last axis innermost. *)
Fixpoint nested_loops (axes : list (key * list value)) : list (list (key * value)) :=
  match axes with
  | [] => [[]]
  | (k, vs) :: rest =>
      flat_map (fun v => map (cons (k, v)) (nested_loops rest)) vs
  end.

(** The keys of a dictionary are pairwise different. *)
Fixpoint keys_distinct (ks : list key) : bool :=
  match ks with
  | [] => true
  | k :: r => forallb (fun k' => negb (key_eqb k' k)) r && keys_distinct r
  end.

(** *** The store *)

Section StoreAux.
Context {ndarrays : Type} {named : Named ndarrays}.

(** The names of the run subdirectories, in [glob] order. *)
Definition subdirectories (s : @store ndarrays) : list string :=
  flat_map (fun ne => match snd ne with
                      | Directory _ => [fst ne]
                      | RegularFile => []
                      end) (runs_dir s).

(** The same interpreter: the same optional libraries. *)
Definition same_host (s s' : @store ndarrays) : Prop :=
  zarr_available s' = zarr_available s /\ h5py_available s' = h5py_available s.

(** The entry the manifest holds for a run id. *)
Definition manifest_entry (run_id : string) (s : @store ndarrays) : option json :=
  match _load_manifest s with
  | Ok (JObj m) =>
      match get "runs" m with
      | Some (JObj runs) => get run_id runs
      | _ => None
      end
  | _ => None
  end.
End StoreAux.

(** The sort key [list_runs] gives a run, when it is a string. *)
Definition stamp (r : pydict) : string :=
  match get_default "timestamp" (JStr "") r with JStr t => t | _ => "" end.

(** The metadata [save] writes: the caller's, with the three fields of the
    store. *)
Definition enriched (run_id arrays_format arrays_path : string) (metadata : pydict)
  : pydict :=
  set "arrays_path" (JStr arrays_path)
    (set "arrays_format" (JStr arrays_format)
       (set "run_id" (JStr run_id) metadata)).

(** The sort key [load_latest] gives a run, and the timestamp it stands
    for. *)
Definition timestamp_key (r : pydict) : json :=
  or_else (get_or_null "timestamp" r) (JStr "").

Definition ts (r : pydict) : string :=
  match timestamp_key r with JStr t => t | _ => "" end.

Definition run_id_of (r : pydict) : string :=
  match get "run_id" r with Some (JStr id) => id | _ => "" end.

Definition carries_b (tag : string) (r : pydict) : bool :=
  match carries tag r with Ok true => true | _ => false end.

(** A listed run as the data model has it: a string for run id, a string
    or nothing for timestamp, a collection or nothing for tags. *)
Definition well_typed_run (tag : string) (r : pydict) : bool :=
  match get "run_id" r, timestamp_key r, carries tag r with
  | Some (JStr _), JStr _, Ok _ => true
  | _, _, _ => false
  end.

(** An empty store, and the store after two saves whose metadata has no
    timestamp. *)
Definition empty_store : @store unit := mkStore false false None [].

Definition two_untimed_runs : @store unit :=
  snd (save "b" tt [("seed", JInt 2)] "npz"
         (snd (save "a" tt [("seed", JInt 1)] "npz" empty_store))).

(** The same with both runs tagged x. *)
Definition two_untimed_x_runs : @store unit :=
  snd (save "b" tt [("tags", JList [JStr "x"])] "npz"
         (snd (save "a" tt [("tags", JList [JStr "x"])] "npz" empty_store))).

(** A store with runs A and B tagged x (B the later one) and C untagged. *)
Definition abc_store : @store unit :=
  snd (save "C" tt [("timestamp", JStr "2024-01-03T00:00:00+00:00")] "npz"
    (snd (save "A" tt [("timestamp", JStr "2024-01-01T00:00:00+00:00");
                       ("tags", JList [JStr "x"])] "npz"
      (snd (save "B" tt [("timestamp", JStr "2024-01-02T00:00:00+00:00");
                         ("tags", JList [JStr "x"])] "npz" empty_store))))).

(** A store whose manifest was deleted: two run directories, the second
    with unreadable metadata, and a stray file. *)
Definition no_manifest_store : @store unit :=
  mkStore false false None
    [ ("r2", Directory [("metadata.json", TextFile None)]);
      ("notes.txt", RegularFile);
      ("r1", Directory [("metadata.json",
                         TextFile (Some (JObj [("timestamp", JStr "t1");
                                               ("tags", JList [JStr "x"])])));
                        ("arrays.npz", NpzFile tt)]) ].

(** *** Artifact sets

    A numeric array as far as a round trip is concerned: element type,
    shape, and the elements in row-major order; and an artifact set as the
    [dict] it is, the named arrays in insertion order. *)
Record ndarray : Type := mkArray
  { dtype : string;
    shape : list nat;
    elements : list Z }.

#[global] Instance array_names : Named (list (string * ndarray)) := map fst.

(** [{"file": np.zeros(3)}], and an empty store on a host with h5py. *)
Definition file_array : list (string * ndarray) :=
  [("file", mkArray "float64" [3%nat] [0; 0; 0])].

Definition h5py_store : @store (list (string * ndarray)) :=
  mkStore false true None [].

(* ================================================================== *)
(** ** More of the code: parameter files, results, metadata *)
(* ================================================================== *)

(** *** iterations.py: [load_params_file] *)

(** [c.lower()] for a code point below 256: the letters A-Z, and the
    capital letters of Latin-1 (all of 0xC0-0xDE but the sign at 0xD7). *)
Definition lower_char (c : ascii) : ascii :=
  let n := nat_of_ascii c in
  if ((65 <=? n) && (n <=? 90) ||
      (192 <=? n) && (n <=? 222) && negb (n =? 215))%nat
  then ascii_of_nat (n + 32)
  else c.

Fixpoint lower (s : string) : string :=
  match s with
  | EmptyString => ""
  | String c r => String (lower_char c) (lower r)
  end.

(** [load_params_file(path)].  [suffix] is [path.suffix]; [file] is what
    the path holds: [None] when there is no such file, [Some None] when the
    parser the suffix selects rejects its content, [Some (Some v)] when that
    parser returns [v].  [yaml_installed] tells whether [import yaml]
    succeeds. *)
Definition load_params_file (yaml_installed : bool) (suffix : string)
    (file : option (option value)) : result value :=
  let suffix := lower suffix in
  if String.eqb suffix ".json" then
    match file with
    | None => Raise FileNotFoundError
    | Some None => Raise JSONDecodeError
    | Some (Some v) => Ok (if is_true v then v else VDict [])
    end
  else if String.eqb suffix ".yml" || String.eqb suffix ".yaml" then
    if negb yaml_installed then Raise RuntimeError
    else
      match file with
      | None => Raise FileNotFoundError
      | Some None => Raise CodecError
      | Some (Some v) => Ok (if is_true v then v else VDict [])
      end
  else Raise ValueError.

(** cli.py: [_load_mapping(path)]; [path] is [None] when the option was not
    given. *)
Definition _load_mapping (yaml_installed : bool)
    (suffix_of : string -> string) (files : string -> option (option value))
    (path : option string) : result value :=
  match path with
  | None => Ok (VDict [])
  | Some p =>
      if String.eqb p "" then Ok (VDict [])
      else load_params_file yaml_installed (suffix_of p) (files p)
  end.

(** *** cli.py: [_normalize_result] *)

Definition _normalize_result (r : value)
  : result (list (key * value) * list (key * value)) :=
  let '(arrays, extra) :=
    match r with
    | VTuple [a; e] => (a, e)
    | _ => (r, VDict [])
    end in
  match arrays with
  | VDict a =>
      match extra with
      | VDict e => Ok (a, e)
      | _ => Raise TypeError
      end
  | _ => Raise TypeError
  end.

(** *** store.py: [build_metadata] *)

(** The [tags] argument: [None], one string, or an iterable of strings in
    iteration order. *)
Inductive tags_arg : Type :=
| TagsNone
| TagsStr (s : string)
| TagsIter (l : list string).

(** [sorted(set(tags))].  The set is taken in the order of first
    occurrence; the sort makes any other iteration order give the same
    list. *)
Definition sorted_set (tags : list string) : list string :=
  sorted_t String.ltb (nodup string_dec tags).

(** [metadata.update(extra)]. *)
Definition update (d extra : pydict) : pydict :=
  fold_left (fun acc kv => set (fst kv) (snd kv) acc) extra d.

(** [now] is [datetime.now(timezone.utc).isoformat()]. *)
Definition build_metadata (now : string) (params : json) (seed : Z)
    (code_version : option string) (env : json) (tags : tags_arg)
    (plot_config : option json) (extra : option pydict) : pydict :=
  let tags :=
    match tags with
    | TagsStr s => [s]
    | TagsIter l => l
    | TagsNone => []
    end in
  let metadata :=
    [ ("params", params);
      ("seed", JInt seed);
      ("code_version", match code_version with Some c => JStr c | None => JNull end);
      ("env", env);
      ("timestamp", JStr now);
      ("tags", JList (map JStr (sorted_set tags))) ] in
  let metadata :=
    match plot_config with
    | Some pc => set "plot_config" pc metadata
    | None => metadata
    end in
  match extra with
  | Some (kv :: more) => update metadata (kv :: more)
  | _ => metadata
  end.

(** *** Normal forms *)

(** A JSON document as the Python value [json.load] returns. *)
Fixpoint value_of_json (j : json) : value :=
  match j with
  | JNull => VNone
  | JBool b => VBool b
  | JInt z => VInt z
  | JStr s => VStr s
  | JList l => VList (map value_of_json l)
  | JObj d => VDict (map (fun kv => (KStr (fst kv), value_of_json (snd kv))) d)
  end.

(** Every string and key is ASCII, without the delete character. *)
Definition plain_char (c : ascii) : bool := (nat_of_ascii c <=? 126)%nat.

Fixpoint plain_str (s : string) : bool :=
  match s with
  | EmptyString => true
  | String c r => plain_char c && plain_str r
  end.

Fixpoint plain (j : json) : bool :=
  match j with
  | JStr s => plain_str s
  | JList l => forallb plain l
  | JObj d => forallb (fun kv => plain_str (fst kv) && plain (snd kv)) d
  | _ => true
  end.

(** The product of the lengths of the axes. *)
Definition grid_size (pools : list (list value)) : nat :=
  fold_right (fun p n => (List.length p * n)%nat) 1%nat pools.

(** *** Run ids that are names

    A run id that names one entry of the runs directory: not empty, not
    [.] or [..], without a slash or a NUL character, and of at most 255
    bytes once encoded.  Only then is [runs_dir / run_id] a child of the
    runs directory that [mkdir] can make; another run id names the runs
    directory itself, a path below or outside it, or nothing that can
    exist. *)
Definition name_char (c : ascii) : bool :=
  negb (Ascii.eqb c "/") && negb (Ascii.eqb c "000").

Definition plain_name (run_id : string) : bool :=
  negb (String.eqb run_id "") && negb (String.eqb run_id ".") &&
  negb (String.eqb run_id "..") &&
  forallb name_char (list_ascii_of_string run_id) &&
  (List.length (SHA256.encode_utf8 run_id) <=? 255)%nat.

(** More stores for the examples. *)
Definition store_with_a : @store unit :=
  snd (save "a" tt [("timestamp", JStr "2024-01-01"); ("tags", JList [JStr "x"])]
            "npz" empty_store).

Definition store_a_untimed : @store unit :=
  snd (save "a" tt [("seed", JInt 1)] "npz" empty_store).

Definition file_in_the_way : @store unit :=
  mkStore false false None [("a", RegularFile)].

Section StoreAux2.
Context {ndarrays : Type} {named : Named ndarrays}.

(** Everything but the run directory [run_id] and the manifest is as
    before. *)
Definition untouched (run_id : string) (s s' : @store ndarrays) : Prop :=
  same_host s s' /\
  forall other, other <> run_id ->
    dict_get String.eqb other (runs_dir s') = dict_get String.eqb other (runs_dir s).
End StoreAux2.

(* ================================================================== *)
(** * Properties *)
(* ================================================================== *)

Example sha256_empty :
  SHA256.hexdigest "" =
  "e3b0c44298fc1c149afbf4c8996fb92427ae41e4649b934ca495991b7852b855".
Proof. vm_compute. reflexivity. Qed.

Example sha256_first_constants :
  firstn 2 SHA256.K = [0x428a2f98; 0x71374491] /\ SHA256.sa SHA256.init = 0x6a09e667.
Proof. split; reflexivity. Qed.

Example sha256_abc :
  SHA256.hexdigest "abc" =
  "ba7816bf8f01cfea414140de5dae2223b00361a396177a9cb410ff61f20015ad".
Proof. vm_compute. reflexivity. Qed.

(** The payload and the digest [json.dumps] and [hashlib.sha256] give for
    the normalized [spec_vector]. *)
Example hash_spec_vector :
  canonical spec_vector =
    Some ("{" ++ q "7" ++ ":" ++ q (String "x" (String backslash (String backslash "y")))
          ++ "," ++ q "a" ++ ":[1,2,3]," ++ q "b" ++ ":[1,-2,true,null]}")%string /\
  hash_spec spec_vector =
    Some "6ae02438067bdf08af318bb0b8132ee79d376c40679f5732506f61c744a2f61b".
Proof. split; vm_compute; reflexivity. Qed.

(** ** Strings under [<] *)

Lemma ascii_compare_lt_trans (a b c : ascii) :
  Ascii.compare a b = Lt -> Ascii.compare b c = Lt -> Ascii.compare a c = Lt.
Proof.
  unfold Ascii.compare. rewrite !N.compare_lt_iff. lia.
Qed.

Lemma compare_lt_trans (s t u : string) :
  String.compare s t = Lt -> String.compare t u = Lt -> String.compare s u = Lt.
Proof.
  revert t u. induction s as [|a s IH]; intros [|b t] [|c u]; simpl;
    try discriminate; auto.
  destruct (Ascii.compare a b) eqn:Eab; try discriminate;
  destruct (Ascii.compare b c) eqn:Ebc; try discriminate; intros H1 H2.
  - apply Ascii.compare_eq_iff in Eab, Ebc. subst.
    replace (Ascii.compare c c) with Eq; [eauto|].
    unfold Ascii.compare. now rewrite N.compare_refl.
  - apply Ascii.compare_eq_iff in Eab. subst. now rewrite Ebc.
  - apply Ascii.compare_eq_iff in Ebc. subst. now rewrite Eab.
  - now rewrite (ascii_compare_lt_trans _ _ _ Eab Ebc).
Qed.

Lemma compare_refl (s : string) : String.compare s s = Eq.
Proof.
  induction s as [|a s IH]; simpl; auto.
  unfold Ascii.compare. now rewrite N.compare_refl.
Qed.

Lemma ltb_irrefl (s : string) : String.ltb s s = false.
Proof. unfold String.ltb. now rewrite compare_refl. Qed.

Lemma ltb_trans (s t u : string) :
  String.ltb s t = true -> String.ltb t u = true -> String.ltb s u = true.
Proof.
  unfold String.ltb.
  destruct (String.compare s t) eqn:E1; try discriminate.
  destruct (String.compare t u) eqn:E2; try discriminate.
  now rewrite (compare_lt_trans _ _ _ E1 E2).
Qed.

Lemma ltb_asym (s t : string) : String.ltb s t = true -> String.ltb t s = false.
Proof.
  unfold String.ltb. rewrite (String.compare_antisym t s).
  destruct (String.compare s t); simpl; auto; discriminate.
Qed.

Lemma ltb_total (s t : string) :
  s = t \/ String.ltb s t = true \/ String.ltb t s = true.
Proof.
  unfold String.ltb. rewrite (String.compare_antisym t s).
  destruct (String.compare s t) eqn:E; simpl; auto.
  left. now apply String.compare_eq_iff.
Qed.

(** [not (s < t)] and [not (t < u)] give [not (s < u)]. *)
Lemma ltb_negtrans (s t u : string) :
  String.ltb s t = false -> String.ltb t u = false -> String.ltb s u = false.
Proof.
  intros H1 H2. destruct (String.ltb s u) eqn:E; auto.
  destruct (ltb_total s t) as [->|[H|H]]; [congruence|congruence|].
  destruct (ltb_total t u) as [->|[H'|H']]; [congruence|congruence|].
  pose proof (ltb_trans _ _ _ H' H) as H3.
  apply ltb_asym in H3. congruence.
Qed.

(** ** The insertion sort *)

Section SortFacts.
Context {A : Type}.

Lemma sorted_snoc (lt : A -> A -> option bool) (l : list A) (x : A) :
  sorted lt (l ++ [x]) =
  match sorted lt l with Some s => insort lt x s | None => None end.
Proof. unfold sorted. now rewrite fold_left_app. Qed.

Lemma sorted_t_snoc (ltb : A -> A -> bool) (l : list A) (x : A) :
  sorted_t ltb (l ++ [x]) = insort_t ltb x (sorted_t ltb l).
Proof. unfold sorted_t. now rewrite fold_left_app. Qed.

Lemma insort_total (ltb : A -> A -> bool) (x : A) (s : list A) :
  insort (fun a b => Some (ltb a b)) x s = Some (insort_t ltb x s).
Proof.
  induction s as [|y r IH]; simpl; auto.
  destruct (ltb x y); auto. now rewrite IH.
Qed.

(** A comparison that cannot raise never makes the sort raise. *)
Lemma sorted_total (ltb : A -> A -> bool) (l : list A) :
  sorted (fun a b => Some (ltb a b)) l = Some (sorted_t ltb l).
Proof.
  induction l as [|x l IH] using rev_ind; auto.
  now rewrite sorted_snoc, sorted_t_snoc, IH, insort_total.
Qed.

Lemma insort_perm (lt : A -> A -> option bool) (x : A) (s r : list A) :
  insort lt x s = Some r -> Permutation (x :: s) r.
Proof.
  revert r. induction s as [|y s IH]; simpl; intros r H.
  - injection H as <-. auto.
  - destruct (lt x y) as [[|]|]; try discriminate.
    + injection H as <-. auto.
    + destruct (insort lt x s) as [r'|]; try discriminate.
      injection H as <-. rewrite perm_swap. auto.
Qed.

Lemma sorted_perm (lt : A -> A -> option bool) (l r : list A) :
  sorted lt l = Some r -> Permutation l r.
Proof.
  revert r. induction l as [|x l IH] using rev_ind; intros r H.
  - injection H as <-. auto.
  - rewrite sorted_snoc in H. destruct (sorted lt l) as [s|]; try discriminate.
    apply insort_perm in H. rewrite <- H, <- Permutation_cons_append.
    auto.
Qed.

Lemma sorted_t_perm (ltb : A -> A -> bool) (l : list A) :
  Permutation l (sorted_t ltb l).
Proof. apply (sorted_perm (fun a b => Some (ltb a b))), sorted_total. Qed.

(** *** The sort of a strictly ordered list does not depend on its order *)

Section Strict.
Context (lt : A -> A -> option bool) (dom : A -> Prop).
Hypothesis asym :
  forall x y, dom x -> dom y -> lt_true lt x y -> lt y x = Some false.
Hypothesis trans :
  forall x y z, dom x -> dom y -> dom z ->
                lt_true lt x y -> lt_true lt y z -> lt_true lt x z.

Lemma insort_strict (x : A) (s : list A) :
  dom x -> Forall dom s -> StronglySorted (lt_true lt) s ->
  Forall (fun y => (lt_true lt) x y \/ (lt_true lt) y x) s ->
  exists r, insort lt x s = Some r /\ StronglySorted (lt_true lt) r.
Proof.
  intros Hx Hs Hsorted Hcmp. induction s as [|y s IH]; simpl.
  - eexists; split; eauto. repeat constructor.
  - inversion Hs as [|? ? Hy Hs']; subst.
    inversion Hsorted as [|? ? Hss Hys]; subst.
    inversion Hcmp as [|? ? Hxy Hcmp']; subst.
    destruct Hxy as [Hxy|Hyx].
    + unfold lt_true in Hxy. rewrite Hxy. eexists; split; eauto.
      constructor; auto. constructor; auto.
      rewrite Forall_forall in *. intros z Hz. eapply (trans x y z); auto.
    + rewrite (asym _ _ Hy Hx Hyx).
      destruct (IH Hs' Hss Hcmp') as (r & Hr & Hsr). rewrite Hr. simpl.
      eexists; split; eauto. constructor; auto.
      apply insort_perm in Hr.
      eapply Permutation_Forall; [exact Hr|]. constructor; auto.
Qed.

Lemma sorted_strict (l : list A) :
  Forall dom l -> ForallOrdPairs (fun x y => (lt_true lt) x y \/ (lt_true lt) y x) l ->
  exists r, sorted lt l = Some r /\ StronglySorted (lt_true lt) r.
Proof.
  induction l as [|x l IH] using rev_ind; intros Hd Hp.
  - exists []. split; auto. constructor.
  - apply Forall_app in Hd as [Hd Hx]. inversion Hx; subst.
    assert (Hl : ForallOrdPairs (fun x y => (lt_true lt) x y \/ (lt_true lt) y x) l /\
                 Forall (fun y => (lt_true lt) x y \/ (lt_true lt) y x) l).
    { clear - Hp. induction l as [|y l IHl]; simpl in *.
      - split; constructor.
      - inversion Hp as [|? ? Hy Hp']; subst. destruct (IHl Hp') as [H1 H2].
        split; constructor; auto.
        + apply Forall_app in Hy as [Hy _]. exact Hy.
        + apply Forall_app in Hy as [_ Hy]. inversion Hy; subst. tauto. }
    destruct Hl as [Hl Hxl].
    destruct (IH Hd Hl) as (s & Hs & Hss).
    rewrite sorted_snoc, Hs.
    apply insort_strict; auto.
    eapply Permutation_Forall; [apply (sorted_perm _ _ _ Hs)|]; auto.
    eapply Permutation_Forall; [apply (sorted_perm _ _ _ Hs)|]; auto.
Qed.




End Strict.
End SortFacts.

(** ** [==] and [<] on values without objects *)

Lemma py_eq_list (l m : list json) : py_eq (JList l) (JList m) = eq_items l m.
Proof.
  reflexivity.
Qed.

Lemma py_lt_list (l m : list json) : py_lt (JList l) (JList m) = lt_items l m.
Proof.
  reflexivity.
Qed.

Ltac zb :=
  repeat match goal with
         | H : (_ =? _) = true |- _ => apply Z.eqb_eq in H
         | H : (_ =? _) = false |- _ => apply Z.eqb_neq in H
         | H : (_ <? _) = true |- _ => apply Z.ltb_lt in H
         | H : (_ <? _) = false |- _ => apply Z.ltb_ge in H
         | |- (_ =? _) = true => apply Z.eqb_eq
         | |- (_ =? _) = false => apply Z.eqb_neq
         | |- (_ <? _) = true => apply Z.ltb_lt
         | |- (_ <? _) = false => apply Z.ltb_ge
         end.

Lemma py_eq_sym (a : json) :
  objfree a = true -> forall b, py_eq a b = py_eq b a.
Proof.
  induction a as [|x|x|s|l IH|d IH] using json_rect'; intros Ha b;
    try discriminate; destruct b as [|y|y|t|m|e];
    rewrite ?py_eq_list; simpl; auto using Z.eqb_sym, String.eqb_sym.
  simpl in Ha. revert m.
  induction l as [|x l IHl]; intros [|y m]; simpl; auto.
  inversion IH; subst. apply andb_true_iff in Ha as [Hx Hl].
  rewrite (H1 Hx y). f_equal. auto.
Qed.

Lemma py_eq_objfree (a : json) :
  objfree a = true -> forall b, py_eq a b = true -> objfree b = true.
Proof.
  induction a as [|x|x|s|l IH|d IH] using json_rect'; intros Ha b Hab;
    try discriminate; destruct b as [|y|y|t|m|e]; try discriminate; auto.
  rewrite py_eq_list in Hab. simpl in *. revert m Hab.
  induction l as [|x l IHl]; intros [|y m] Hab; try discriminate; auto.
  simpl in *. apply andb_true_iff in Hab as [Hxy Hlm].
  apply andb_true_iff in Ha as [Hx Hl]. inversion IH; subst.
  apply andb_true_iff. split; eauto.
Qed.

(** Equal values are interchangeable on either side of [==] and [<]. *)
Lemma py_eq_congr (a : json) :
  objfree a = true -> forall b, py_eq a b = true ->
  forall c, py_eq a c = py_eq b c /\ py_lt a c = py_lt b c /\ py_lt c a = py_lt c b.
Proof.
  induction a as [|x|x|s|l IH|d IH] using json_rect'; intros Ha b Hab c;
    try discriminate; destruct b as [|y|y|t|m|e]; try discriminate.
  - auto.
  - simpl in Hab. zb. destruct x, y; try discriminate; auto.
  - simpl in Hab. zb. subst y. destruct c; simpl; auto.
  - simpl in Hab. zb. subst x. destruct c; simpl; auto.
  - simpl in Hab. zb. subst. auto.
  - simpl in Hab. apply String.eqb_eq in Hab. subst. auto.
  - pose proof (py_eq_objfree _ Ha _ Hab) as Hb.
    rewrite py_eq_list in Hab. simpl in Ha, Hb.
    destruct c as [| | | |n|]; try (simpl; auto; fail).
    rewrite !py_eq_list, !py_lt_list.
    revert m Hab Hb n. induction l as [|x l IHl]; intros [|y m] Hab Hb n;
      try discriminate; auto.
    simpl in Hab. apply andb_true_iff in Hab as [Hxy Hlm].
    simpl in Ha. apply andb_true_iff in Ha as [Hx Hl].
    simpl in Hb. apply andb_true_iff in Hb as [Hy Hm].
    inversion IH as [|? ? IHx IHr]; subst.
    destruct n as [|z n]; simpl; auto.
    destruct (IHx Hx y Hxy z) as (E1 & E2 & E3).
    destruct (IHl IHr Hl m Hlm Hm n) as (F1 & F2 & F3).
    rewrite <- (py_eq_sym x Hx z), <- (py_eq_sym y Hy z).
    rewrite <- E1, <- E2, <- E3, <- F1, <- F2, <- F3. auto.
Qed.

Lemma py_lt_asym (a : json) :
  objfree a = true -> forall b, py_lt a b = Some true -> py_lt b a = Some false.
Proof.
  induction a as [|x|x|s|l IH|d IH] using json_rect'; intros Ha b Hab;
    try discriminate; destruct b as [|y|y|t|m|e]; try discriminate;
    rewrite ?py_lt_list in *;
    simpl in Hab |- *; try (injection Hab as Hab; f_equal; zb; lia).
  - injection Hab as Hab. f_equal. now apply ltb_asym.
  - simpl in Ha. revert m Hab.
    induction l as [|x l IHl]; intros [|y m] Hab; try discriminate; auto.
    simpl in *. apply andb_true_iff in Ha as [Hx Hl].
    inversion IH as [|? ? IHx IHr]; subst.
    rewrite <- (py_eq_sym x Hx y). destruct (py_eq x y); auto.
Qed.

Lemma py_lt_trans (a : json) :
  objfree a = true -> forall b c, objfree b = true ->
  py_lt a b = Some true -> py_lt b c = Some true -> py_lt a c = Some true.
Proof.
  induction a as [|x|x|s|l IH|d IH] using json_rect'; intros Ha b c Hb Hab Hbc;
    try discriminate; destruct b as [|y|y|t|m|e]; try discriminate;
    destruct c as [|z|z|u|n|f]; try discriminate;
    rewrite ?py_lt_list in *;
    simpl in Hab, Hbc |- *;
    try (injection Hab as Hab; injection Hbc as Hbc; f_equal; zb; lia).
  - injection Hab as Hab; injection Hbc as Hbc; f_equal. eapply ltb_trans; eauto.
  - simpl in Ha, Hb. revert m n Hb Hab Hbc.
    induction l as [|x l IHl]; intros [|y m] [|z n] Hb Hab Hbc;
      try discriminate; auto.
    simpl in *. apply andb_true_iff in Ha as [Hx Hl].
    apply andb_true_iff in Hb as [Hy Hm].
    inversion IH as [|? ? IHx IHr]; subst.
    destruct (py_eq x y) eqn:Exy.
    + destruct (py_eq_congr x Hx y Exy z) as (E1 & E2 & _).
      rewrite E1, E2. destruct (py_eq y z) eqn:Eyz; eauto.
    + destruct (py_eq y z) eqn:Eyz.
      * destruct (py_eq_congr y Hy z Eyz x) as (E1 & _ & E3).
        rewrite (py_eq_sym x Hx z), <- E1, <- (py_eq_sym x Hx y), Exy, <- E3.
        auto.
      * destruct (py_eq x z) eqn:Exz.
        -- destruct (py_eq_congr x Hx z Exz y) as (_ & E2 & _).
           rewrite E2 in Hab. apply (py_lt_asym y Hy) in Hbc. congruence.
        -- eauto.
Qed.

(** ** [_normalize] *)

Lemma normalize_list (l : list value) :
  _normalize (VList l) = option_map JList (mapM _normalize l).
Proof.
  simpl. f_equal. induction l as [|x l IH]; simpl; auto. now rewrite IH.
Qed.

Lemma normalize_tuple (l : list value) :
  _normalize (VTuple l) = option_map JList (mapM _normalize l).
Proof.
  simpl. f_equal. induction l as [|x l IH]; simpl; auto. now rewrite IH.
Qed.

Lemma normalize_set (l : list value) :
  _normalize (VSet l) =
  match mapM _normalize l with
  | Some js => option_map JList (sorted py_lt js)
  | None => None
  end.
Proof.
  simpl.
  match goal with
  | |- match ?e with _ => _ end = _ => replace e with (mapM _normalize l)
  end; auto.
  induction l as [|x l IH]; simpl; auto. now rewrite IH.
Qed.

Lemma normalize_dict (d : list (key * value)) :
  _normalize (VDict d) =
  option_map (fun items => JObj (dict_of_items String.eqb items)) (mapM norm_item d).
Proof.
  simpl. f_equal. induction d as [|kv d IH]; simpl; auto.
  rewrite IH. unfold norm_item. destruct (_normalize (snd kv)); auto.
Qed.

Lemma mapM_Some {A B : Type} (f : A -> option B) (l : list A) (r : list B) :
  mapM f l = Some r <-> Forall2 (fun x y => f x = Some y) l r.
Proof.
  revert r. induction l as [|x l IH]; intros r; simpl.
  - split; intros H; [injection H as <-; constructor|inversion H; auto].
  - split.
    + destruct (f x) eqn:E; try discriminate.
      destruct (mapM f l) eqn:E'; try discriminate.
      intros H; injection H as <-. constructor; auto. now apply IH.
    + intros H. inversion H as [|? y ? r' Hx Hl]; subst.
      rewrite Hx. apply IH in Hl. now rewrite Hl.
Qed.





(** A hashable value normalizes, to a value without objects. *)
Lemma normalize_hashable (v : value) :
  hashable v = true -> exists j, _normalize v = Some j /\ objfree j = true.
Proof.
  induction v as [|b|z|s|s|l IH|l IH|l IH|d IH|o i m] using value_rect';
    intros H; try discriminate; try (eexists; split; [reflexivity|reflexivity]).
  rewrite normalize_tuple. simpl in H.
  assert (exists js, mapM _normalize l = Some js /\ forallb objfree js = true)
    as (js & -> & Hjs).
  { induction l as [|x l IHl]; simpl in *; eauto.
    apply andb_true_iff in H as [Hx Hl]. inversion IH as [|? ? IHx IHr]; subst.
    destruct (IHx Hx) as (j & -> & Hj). destruct (IHl IHr Hl) as (js & -> & Hjs).
    eexists; split; eauto. simpl. now rewrite Hj, Hjs. }
  exists (JList js). split; [reflexivity|exact Hjs].
Qed.

Lemma mapM_hashable (l : list value) (js : list json) :
  forallb hashable l = true -> mapM _normalize l = Some js ->
  Forall (fun j => objfree j = true) js.
Proof.
  revert js. induction l as [|x l IH]; simpl; intros js H E.
  - injection E as <-. constructor.
  - apply andb_true_iff in H as [Hx Hl].
    destruct (normalize_hashable x Hx) as (j & Ej & Hj). rewrite Ej in E.
    destruct (mapM _normalize l) eqn:E'; try discriminate. injection E as <-.
    constructor; auto.
Qed.

Lemma strictly_ordered_pairs (js : list json) :
  strictly_ordered js = true ->
  ForallOrdPairs (fun x y => py_lt x y = Some true \/ py_lt y x = Some true) js.
Proof.
  induction js as [|x js IH]; simpl; intros H; constructor.
  - apply andb_true_iff in H as [H _]. rewrite forallb_forall in H.
    apply Forall_forall. intros y Hy. specialize (H y Hy). unfold strictly in H.
    destruct (py_lt x y) as [[|]|]; auto;
      destruct (py_lt y x) as [[|]|]; auto; discriminate.
  - apply andb_true_iff in H as [_ H]. auto.
Qed.


(** ** Dictionaries with distinct keys *)

Lemma distinct_NoDup (l : list string) : distinct l = true <-> NoDup l.
Proof.
  induction l as [|x l IH]; simpl.
  - split; auto. constructor.
  - rewrite andb_true_iff, negb_true_iff, IH. split.
    + intros [Hx Hl]. constructor; auto. intros Hin.
      assert (existsb (String.eqb x) l = true); [|congruence].
      apply existsb_exists. exists x. split; auto. apply String.eqb_refl.
    + intros H. inversion H as [|? ? Hx Hl]; subst. split; auto.
      destruct (existsb (String.eqb x) l) eqn:E; auto.
      apply existsb_exists in E as (y & Hy & Exy).
      apply String.eqb_eq in Exy. subst. contradiction.
Qed.

Lemma dict_set_fresh {V : Type} (k : string) (v : V) (d : list (string * V)) :
  ~ In k (map fst d) -> dict_set String.eqb k v d = d ++ [(k, v)].
Proof.
  induction d as [|[k' v'] d IH]; simpl; intros H; auto.
  destruct (String.eqb_spec k k') as [->|Hne]; [tauto|].
  rewrite IH; auto.
Qed.

Lemma dict_of_items_distinct {V : Type} (items : list (string * V)) :
  NoDup (map fst items) -> dict_of_items String.eqb items = items.
Proof.
  unfold dict_of_items.
  enough (H : forall acc, NoDup (map fst (acc ++ items)) ->
            fold_left (fun acc kv => dict_set String.eqb (fst kv) (snd kv) acc)
                      items acc = acc ++ items) by (intros; now apply (H [])).
  induction items as [|[k v] items IH]; simpl; intros acc Hnd.
  - now rewrite app_nil_r.
  - rewrite dict_set_fresh.
    + rewrite IH; rewrite <- app_assoc; auto.
    + rewrite map_app in Hnd. simpl in Hnd.
      apply NoDup_remove_2 in Hnd. rewrite in_app_iff in Hnd. tauto.
Qed.



(** ** Determinism of [hash_spec] *)







Lemma mapM_total {A B : Type} (f : A -> option B) (l : list A) :
  Forall (fun x => exists y, f x = Some y) l -> exists r, mapM f l = Some r.
Proof.
  induction 1 as [|x l [y Hy] _ [r Hr]]; simpl; eauto.
  rewrite Hy, Hr. eauto.
Qed.

(** A well-formed specification normalizes: no sort inside raises. *)
Lemma normalize_total (a : value) :
  well_formed a = true -> exists j, _normalize a = Some j.
Proof.
  induction a as [|x|x|s|s|l IH|l IH|l IH|d IH|o i m] using value_rect';
    intros Hwf; try (eexists; reflexivity).
  - rewrite normalize_list. simpl in Hwf.
    rewrite forallb_forall, <- Forall_forall in Hwf.
    destruct (mapM_total _normalize l) as [r ->]; [|simpl; eauto].
    eapply Forall_impl; [|apply (Forall_and IH Hwf)]. intros x [H1 H2]. auto.
  - rewrite normalize_tuple. simpl in Hwf.
    rewrite forallb_forall, <- Forall_forall in Hwf.
    destruct (mapM_total _normalize l) as [r ->]; [|simpl; eauto].
    eapply Forall_impl; [|apply (Forall_and IH Hwf)]. intros x [H1 H2]. auto.
  - rewrite normalize_set. simpl in Hwf. apply andb_true_iff in Hwf as [Hh Hs].
    destruct (mapM _normalize l) as [js|] eqn:E; [|discriminate].
    destruct (sorted_strict py_lt (fun j => objfree j = true)) with (l := js)
      as (r & -> & _); simpl; eauto.
    + intros x y Hx _. apply py_lt_asym; auto.
    + intros x y z Hx Hy _. apply py_lt_trans; auto.
    + eapply mapM_hashable; eauto.
    + now apply strictly_ordered_pairs.
  - rewrite normalize_dict. simpl in Hwf. apply andb_true_iff in Hwf as [_ Hv].
    rewrite forallb_forall, <- Forall_forall in Hv.
    destruct (mapM_total norm_item d) as [r ->]; [|simpl; eauto].
    eapply Forall_impl; [|apply (Forall_and IH Hv)]. intros kv [H1 H2].
    unfold norm_item. destruct (H1 H2) as [j ->]. eauto.
Qed.






(** ** The run identifier *)

Lemma length_append (s t : string) :
  String.length (s ++ t) = (String.length s + String.length t)%nat.
Proof. induction s as [|c s IH]; simpl; auto. Qed.

Lemma chars_append (s t : string) :
  list_ascii_of_string (s ++ t) =
  (list_ascii_of_string s ++ list_ascii_of_string t)%list.
Proof. induction s as [|c s IH]; simpl; auto. now rewrite IH. Qed.

Lemma hex_digit_lower (d : Z) :
  0 <= d < 16 -> is_lower_hex (SHA256.hex_digit d) = true.
Proof.
  intros H.
  assert (d = 0 \/ d = 1 \/ d = 2 \/ d = 3 \/ d = 4 \/ d = 5 \/ d = 6 \/ d = 7 \/
          d = 8 \/ d = 9 \/ d = 10 \/ d = 11 \/ d = 12 \/ d = 13 \/ d = 14 \/
          d = 15) as Hd by lia.
  repeat (destruct Hd as [->|Hd]; [reflexivity|]). subst. reflexivity.
Qed.

Lemma hex8_length (x : Z) : String.length (SHA256.hex8 x) = 8%nat.
Proof. reflexivity. Qed.

Lemma hex8_lower (x : Z) :
  Forall (fun c => is_lower_hex c = true) (list_ascii_of_string (SHA256.hex8 x)).
Proof.
  unfold SHA256.hex8. rewrite list_ascii_of_string_of_list_ascii.
  apply Forall_map, Forall_forall. intros i _.
  apply hex_digit_lower, Z.mod_pos_bound. lia.
Qed.

(** [hexdigest()] is 64 characters of [0-9a-f], whatever was hashed. *)
Lemma hexdigest_shape (payload : string) :
  String.length (SHA256.hexdigest payload) = 64%nat /\
  Forall (fun c => is_lower_hex c = true)
         (list_ascii_of_string (SHA256.hexdigest payload)).
Proof.
  unfold SHA256.hexdigest, SHA256.hex_of_state. split.
  - rewrite !length_append, !hex8_length. reflexivity.
  - rewrite !chars_append. repeat (apply Forall_app; split); apply hex8_lower.
Qed.

Lemma substring_length (n : nat) (s : string) :
  (n <= String.length s)%nat -> String.length (String.substring 0 n s) = n.
Proof.
  revert s. induction n as [|n IH]; intros [|c s] H; simpl in *; auto; try lia.
  rewrite IH; auto. lia.
Qed.

(** The 12 character identifier is [make_run_id]'s. *)
Lemma make_run_id_length (spec : json) : String.length (make_run_id spec) = 12%nat.
Proof.
  unfold make_run_id, _canonical_json. apply substring_length.
  pose proof (proj1 (hexdigest_shape (dumps false spec))) as H.
  unfold SHA256.hexdigest in H. rewrite H. lia.
Qed.

(** C2 (amended).  The identifier [compute_run_id] returns is the whole
    SHA-256 digest: 64 characters, each of [0-9a-f]; and it does return one
    for every well-formed specification.  Nothing on this path truncates the
    digest; the 12 character prefix is [make_run_id]'s, which the store does
    not call. *)
Theorem compute_run_id_full_digest
    (collected params seed code_version : value) (env : option value) :
  (well_formed (build_spec params seed code_version
                  (match env with Some e => e | None => collected end)) = true ->
   exists id, compute_run_id collected params seed code_version env = Some id) /\
  (forall id,
     compute_run_id collected params seed code_version env = Some id ->
     String.length id = 64%nat /\
     Forall (fun c => is_lower_hex c = true) (list_ascii_of_string id)).
Proof.
  unfold compute_run_id, hash_spec. split.
  - intros Hwf. destruct (normalize_total _ Hwf) as [j ->]. eauto.
  - intros id. destruct (_normalize _); intros H; [|discriminate].
    injection H as <-. apply hexdigest_shape.
Qed.

Lemma compute_run_id_full_digest_witness :
  compute_run_id (VDict []) (VDict [(KStr "steps", VInt 5)]) (VInt 3) VNone None =
    Some "d48946ea073284b483befd0b93a2ce1527c6a4101fd86c1e37d101dc47c6af4a" /\
  String.length
    "d48946ea073284b483befd0b93a2ce1527c6a4101fd86c1e37d101dc47c6af4a" = 64%nat /\
  Forall (fun c => is_lower_hex c = true)
    (list_ascii_of_string
       "d48946ea073284b483befd0b93a2ce1527c6a4101fd86c1e37d101dc47c6af4a").
Proof.
  split; [vm_compute; reflexivity|].
  apply (proj2 (compute_run_id_full_digest (VDict [])
                  (VDict [(KStr "steps", VInt 5)]) (VInt 3) VNone None)).
  vm_compute. reflexivity.
Defined.

(** C2, as stated, fails: for [params={"steps": 5}], [seed=3], no code
    version and an empty environment the identifier has 64 characters, not
    12. *)
Lemma compute_run_id_not_truncated :
  compute_run_id (VDict []) (VDict [(KStr "steps", VInt 5)]) (VInt 3) VNone
                 (Some (VDict [])) =
    Some "d48946ea073284b483befd0b93a2ce1527c6a4101fd86c1e37d101dc47c6af4a" /\
  String.length
    "d48946ea073284b483befd0b93a2ce1527c6a4101fd86c1e37d101dc47c6af4a" <> 12%nat.
Proof. split; [vm_compute; reflexivity|vm_compute; discriminate]. Qed.

(** ** The sweep enumerator *)

Lemma flat_map_map_in {A B C : Type} (f : B -> list C) (g : A -> B) (l : list A) :
  flat_map f (map g l) = flat_map (fun x => f (g x)) l.
Proof. induction l as [|x l IH]; simpl; auto. now rewrite IH. Qed.

Lemma map_flat_map_out {A B C : Type} (g : B -> C) (f : A -> list B) (l : list A) :
  map g (flat_map f l) = flat_map (fun x => map g (f x)) l.
Proof. induction l as [|x l IH]; simpl; auto. now rewrite map_app, IH. Qed.

Lemma product_from {A : Type} (pools : list (list A)) (acc : list (list A)) :
  fold_left
    (fun result pool => flat_map (fun x => map (fun y => x ++ [y]) pool) result)
    pools acc =
  flat_map (fun a => map (app a) (product pools)) acc.
Proof.
  revert acc. induction pools as [|p ps IH]; intros acc.
  - unfold product. simpl. induction acc as [|a acc IHa]; simpl; auto.
    now rewrite app_nil_r, <- IHa.
  - simpl. rewrite IH. unfold product at 2. simpl. rewrite IH, app_nil_r.
    induction acc as [|a acc IHa]; simpl; auto.
    rewrite flat_map_app, IHa. f_equal.
    rewrite !flat_map_map_in, map_flat_map_out.
    apply flat_map_ext. intros y. rewrite map_map. apply map_ext.
    intros c. now rewrite <- app_assoc.
Qed.

(** The first pool is the outermost loop. *)
Lemma product_cons {A : Type} (p : list A) (ps : list (list A)) :
  product (p :: ps) = flat_map (fun x => map (cons x) (product ps)) p.
Proof.
  unfold product at 1. simpl. rewrite product_from, app_nil_r.
  rewrite flat_map_map_in. reflexivity.
Qed.

Section DictFresh.
Context {K V : Type} (eqb : K -> K -> bool).

Lemma dict_set_new (k : K) (v : V) (d : list (K * V)) :
  Forall (fun kv => eqb k (fst kv) = false) d ->
  dict_set eqb k v d = d ++ [(k, v)].
Proof.
  induction 1 as [|[k' v'] d Hk _ IH]; simpl in *; auto.
  now rewrite Hk, IH.
Qed.

Lemma dict_of_items_new (items : list (K * V)) :
  ForallOrdPairs (fun a b => eqb (fst b) (fst a) = false) items ->
  dict_of_items eqb items = items.
Proof.
  unfold dict_of_items.
  enough (H : forall acc,
            ForallOrdPairs (fun a b => eqb (fst b) (fst a) = false) (acc ++ items) ->
            fold_left (fun acc kv => dict_set eqb (fst kv) (snd kv) acc) items acc =
            acc ++ items) by (intros; now apply (H [])).
  induction items as [|[k v] items IH]; simpl; intros acc Hp.
  - now rewrite app_nil_r.
  - rewrite dict_set_new.
    + rewrite IH; rewrite <- app_assoc; auto.
    + clear IH. induction acc as [|a acc IHa]; simpl in *; constructor;
        inversion Hp as [|? ? Ha Hp']; subst; auto.
      apply Forall_app in Ha as [_ Ha]. now inversion Ha.
Qed.

Lemma dict_get_here (k : K) (v : V) (pre post : list (K * V)) :
  eqb k k = true -> Forall (fun kv => eqb k (fst kv) = false) pre ->
  dict_get eqb k (pre ++ (k, v) :: post) = Some v.
Proof.
  intros Hr. induction 1 as [|[k' v'] pre Hk _ IH]; simpl in *.
  - now rewrite Hr.
  - now rewrite Hk.
Qed.
End DictFresh.

Lemma key_eqb_refl (k : key) : key_eqb k k = true.
Proof.
  destruct k as [s|z|[|]|]; simpl; auto using String.eqb_refl, Z.eqb_refl.
Qed.

Lemma keys_distinct_pairs (ks : list key) :
  keys_distinct ks = true ->
  ForallOrdPairs (fun a b => key_eqb b a = false) ks.
Proof.
  induction ks as [|k ks IH]; simpl; intros H; constructor.
  - apply andb_true_iff in H as [H _]. rewrite forallb_forall in H.
    apply Forall_forall. intros k' Hk'. apply negb_true_iff. auto.
  - apply andb_true_iff in H as [_ H]. auto.
Qed.

Lemma ordpairs_app_l {A : Type} (P : A -> A -> Prop) (l l' : list A) :
  ForallOrdPairs P (l ++ l') -> ForallOrdPairs P l.
Proof.
  induction l as [|x l IH]; simpl; intros H; constructor;
    inversion H as [|? ? Hx H']; subst; auto.
  apply Forall_app in Hx. tauto.
Qed.

(** With distinct keys [dict(zip(keys, combo))] is the zip itself. *)
Lemma dict_zip_distinct (keys : list key) (combo : list value) :
  keys_distinct keys = true -> dict_zip keys combo = combine keys combo.
Proof.
  intros H. apply keys_distinct_pairs in H. unfold dict_zip.
  apply dict_of_items_new. revert combo.
  induction H as [|k ks Hk _ IH]; intros [|v c]; simpl; try constructor; auto.
  apply Forall_forall. intros [k' v'] Hin. simpl.
  apply in_combine_l in Hin. rewrite Forall_forall in Hk. auto.
Qed.

Lemma grid_axes (d : list (key * value)) :
  keys_distinct (map fst d) = true ->
  mapM (fun k => match dict_get key_eqb k d with
                 | Some axis => py_list axis
                 | None => None
                 end) (map fst d) =
  mapM (fun kv => py_list (snd kv)) d.
Proof.
  intros H. apply keys_distinct_pairs in H.
  enough (G : forall pre post, d = pre ++ post ->
            mapM (fun k => match dict_get key_eqb k d with
                           | Some axis => py_list axis
                           | None => None
                           end) (map fst post) =
            mapM (fun kv => py_list (snd kv)) post) by (apply (G [] d); auto).
  intros pre post. revert pre. induction post as [|[k v] post IH]; intros pre E; auto.
  simpl. rewrite (IH (pre ++ [(k, v)])); [|now rewrite <- app_assoc].
  subst d. rewrite dict_get_here; auto using key_eqb_refl.
  clear - H. rewrite map_app in H. simpl in H.
  induction pre as [|[k' v'] pre IHp]; simpl in *; constructor;
    inversion H as [|? ? Hk H']; subst; auto.
  apply Forall_app in Hk as [_ Hk]. inversion Hk; subst.
  simpl. destruct k, k'; simpl in *; auto;
    rewrite ?String.eqb_sym, ?Z.eqb_sym; auto.
Qed.

Lemma zip_product (keys : list key) (pools : list (list value)) :
  List.length keys = List.length pools ->
  map (combine keys) (product pools) = nested_loops (combine keys pools).
Proof.
  revert pools. induction keys as [|k ks IH]; intros [|p ps] E; try discriminate; auto.
  simpl in E. injection E as E. rewrite product_cons. simpl.
  rewrite <- (IH ps E). clear. induction p as [|x p IHp]; simpl; auto.
  rewrite map_app, IHp. f_equal. rewrite !map_map. reflexivity.
Qed.

Lemma mapM_length {A B : Type} (f : A -> option B) (l : list A) (r : list B) :
  mapM f l = Some r -> List.length r = List.length l.
Proof.
  intros H. apply mapM_Some in H. symmetry. eapply Forall2_length; eauto.
Qed.

(** [expand_grid] runs the nested loops over the axes in declaration
    order. *)
Lemma expand_grid_nested (d : list (key * value)) (pools : list (list value)) :
  keys_distinct (map fst d) = true ->
  mapM (fun kv => py_list (snd kv)) d = Some pools ->
  expand_grid (VDict d) =
  Some (map VDict (nested_loops (combine (map fst d) pools))).
Proof.
  intros Hk Hp. unfold expand_grid. cbn [as_mapping]. rewrite grid_axes, Hp; auto. f_equal.
  rewrite <- zip_product.
  - rewrite map_map. apply map_ext. intros c. now rewrite dict_zip_distinct.
  - rewrite length_map. symmetry. eapply mapM_length; eauto.
Qed.



(** C10.  A grid with no ["params"] key, or with an empty params mapping,
    and with neither ["seeds"] nor ["seed"], yields the single pair of the
    empty parameter mapping and seed 0. *)
Theorem iter_sweep_default (g : list (key * value)) :
  dict_get key_eqb (KStr "params") g = None \/
  dict_get key_eqb (KStr "params") g = Some (VDict []) ->
  dict_mem key_eqb (KStr "seeds") g = false ->
  dict_mem key_eqb (KStr "seed") g = false ->
  iter_sweep (VDict g) = Some [(VDict [], VInt 0)].
Proof.
  intros [Hp|Hp] Hs1 Hs2; unfold iter_sweep; cbn [as_mapping]; rewrite Hp, Hs1, Hs2; reflexivity.
Qed.

Lemma iter_sweep_default_witness :
  iter_sweep (VDict [(KStr "tags", VList [VStr "demo"])]) = Some [(VDict [], VInt 0)] /\
  iter_sweep (VDict [(KStr "params", VDict [])]) = Some [(VDict [], VInt 0)].
Proof.
  split.
  - apply (iter_sweep_default [(KStr "tags", VList [VStr "demo"])]);
      [left; reflexivity|reflexivity|reflexivity].
  - apply (iter_sweep_default [(KStr "params", VDict [])]);
      [right; reflexivity|reflexivity|reflexivity].
Defined.

(** ** Sorting by a string key *)

Section KeySort.
Context {A : Type} (k : A -> string).

Lemma insort_t_in (x y : A) (s : list A) :
  In y (insort_t (by_key k) x s) <-> y = x \/ In y s.
Proof.
  induction s as [|z s IH]; simpl.
  - intuition.
  - destruct ((by_key k) x z); simpl; rewrite ?IH; intuition.
Qed.

Lemma insort_t_sorted (x : A) (s : list A) :
  StronglySorted (not_after k) s -> StronglySorted (not_after k) (insort_t (by_key k) x s).
Proof.
  induction 1 as [|y s Hs IH Hy]; simpl.
  - repeat constructor.
  - destruct ((by_key k) x y) eqn:E.
    + constructor; [constructor; auto|]. constructor.
      * unfold not_after. apply ltb_asym. exact E.
      * eapply Forall_impl; [|exact Hy]. intros z Hz. unfold not_after, by_key in *.
        destruct (String.ltb (k z) (k x)) eqn:E'; auto.
        rewrite (ltb_trans _ _ _ E' E) in Hz. discriminate.
    + constructor; auto. apply Forall_forall. intros z Hz.
      apply insort_t_in in Hz as [->|Hz]; [exact E|].
      rewrite Forall_forall in Hy. auto.
Qed.

Lemma sorted_t_sorted (l : list A) : StronglySorted (not_after k) (sorted_t (by_key k) l).
Proof.
  induction l as [|x l IH] using rev_ind; [constructor|].
  rewrite sorted_t_snoc. now apply insort_t_sorted.
Qed.

Lemma insort_t_end (x : A) (s : list A) :
  Forall (fun y => (by_key k) x y = false) s -> insort_t (by_key k) x s = s ++ [x].
Proof. induction 1 as [|y s Hy _ IH]; simpl; auto. now rewrite Hy, IH. Qed.

Lemma sorted_snoc_inv (l : list A) (x : A) :
  StronglySorted (not_after k) (l ++ [x]) ->
  StronglySorted (not_after k) l /\ Forall (fun y => (by_key k) x y = false) l.
Proof.
  induction l as [|y l IH]; simpl; intros H.
  - split; constructor.
  - inversion H as [|? ? Hs Hy]; subst. destruct (IH Hs) as [H1 H2].
    apply Forall_app in Hy as [Hy Hx]. inversion Hx; subst.
    split; constructor; auto.
Qed.

Lemma sorted_t_fixed (l : list A) : StronglySorted (not_after k) l -> sorted_t (by_key k) l = l.
Proof.
  induction l as [|x l IH] using rev_ind; auto. intros H.
  apply sorted_snoc_inv in H as [Hl Hx].
  now rewrite sorted_t_snoc, IH, insort_t_end.
Qed.

(** Sorting twice is sorting once. *)
Lemma sorted_t_idem (l : list A) :
  sorted_t (by_key k) (sorted_t (by_key k) l) = sorted_t (by_key k) l.
Proof. apply sorted_t_fixed, sorted_t_sorted. Qed.

Lemma insort_t_nonempty (x : A) (s : list A) : insort_t (by_key k) x s <> [].
Proof. destruct s as [|y s]; simpl; [|destruct ((by_key k) x y)]; discriminate. Qed.

Lemma insort_t_last (x d : A) (s : list A) :
  s <> [] -> (by_key k) x (last s d) = true -> last (insort_t (by_key k) x s) d = last s d.
Proof.
  induction s as [|y s IH]; [congruence|]. intros _ H.
  destruct s as [|z s].
  - simpl in *. now rewrite H.
  - change (insort_t (by_key k) x (y :: z :: s))
      with (if (by_key k) x y then x :: y :: z :: s else y :: insort_t (by_key k) x (z :: s)).
    destruct ((by_key k) x y); [reflexivity|].
    change (last (y :: z :: s) d) with (last (z :: s) d) in *.
    rewrite <- IH; [|discriminate|exact H].
    pose proof (insort_t_nonempty x (z :: s)) as Hne.
    destruct (insort_t (by_key k) x (z :: s)); [congruence|reflexivity].
Qed.

(** The last element of the sorted list: no earlier element is greater,
    every later one is smaller. *)
Lemma sorted_t_last (l : list A) (d : A) :
  l <> [] ->
  exists pre best post,
    l = pre ++ best :: post /\
    last (sorted_t (by_key k) l) d = best /\
    Forall (fun c => String.ltb (k best) (k c) = false) pre /\
    Forall (fun c => String.ltb (k c) (k best) = true) post.
Proof.
  induction l as [|x l IH] using rev_ind; [congruence|]. intros _.
  destruct l as [|y l'] eqn:El.
  - exists [], x, []. repeat split; constructor.
  - rewrite <- El in *. destruct IH as (pre & best & post & E & Hl & Hpre & Hpost);
      [subst; discriminate|].
    rewrite sorted_t_snoc. destruct ((by_key k) x best) eqn:Ex.
    + exists pre, best, (post ++ [x]). repeat split; auto.
      * rewrite E, <- app_assoc. reflexivity.
      * rewrite insort_t_last; auto; [|now rewrite Hl].
        intros Hnil. pose proof (sorted_t_perm (by_key k) l) as Hp.
        rewrite Hnil in Hp. apply Permutation_sym, Permutation_nil in Hp.
        subst. discriminate.
      * apply Forall_app. split; auto.
    + exists l, x, []. repeat split; auto.
      * rewrite insort_t_end; [apply last_last|].
        eapply Permutation_Forall; [apply sorted_t_perm|].
        rewrite E. apply Forall_app. split; [|constructor].
        -- eapply Forall_impl; [|exact Hpre]. intros c Hc. unfold by_key in *.
           eapply ltb_negtrans; eauto.
        -- exact Ex.
        -- eapply Forall_impl; [|exact Hpost]. intros c Hc. unfold by_key in *.
           destruct (String.ltb (k x) (k c)) eqn:Exc; auto.
           rewrite (ltb_trans _ _ _ Exc Hc) in Ex. discriminate.
      * rewrite E. apply Forall_app. split; [|constructor].
        -- eapply Forall_impl; [|exact Hpre]. intros c Hc.
           eapply ltb_negtrans; eauto.
        -- exact Ex.
        -- eapply Forall_impl; [|exact Hpost]. intros c Hc.
           destruct (String.ltb (k x) (k c)) eqn:Exc; auto.
           unfold by_key in Ex. rewrite (ltb_trans _ _ _ Exc Hc) in Ex. discriminate.
Qed.

Lemma insort_t_map (f : A -> A) (x : A) (s : list A) :
  (forall a, k (f a) = k a) ->
  map f (insort_t (by_key k) x s) = insort_t (by_key k) (f x) (map f s).
Proof.
  intros Hf. induction s as [|y s IH]; simpl; auto.
  unfold by_key at 1 3. rewrite !Hf. fold ((by_key k) x y).
  destruct ((by_key k) x y); simpl; auto. now rewrite IH.
Qed.

Lemma sorted_t_map (f : A -> A) (l : list A) :
  (forall a, k (f a) = k a) ->
  map f (sorted_t (by_key k) l) = sorted_t (by_key k) (map f l).
Proof.
  intros Hf. induction l as [|x l IH] using rev_ind; auto.
  rewrite map_app. simpl. rewrite !sorted_t_snoc, insort_t_map, IH; auto.
Qed.
End KeySort.

Section SortExt.
Context {A : Type}.

Lemma insort_ext (lt lt' : A -> A -> option bool) (x : A) (s : list A) :
  Forall (fun y => lt x y = lt' x y) s -> insort lt x s = insort lt' x s.
Proof. induction 1 as [|y s Hy _ IH]; simpl; auto. now rewrite Hy, IH. Qed.

(** The sort only looks at the comparisons between the elements it is
    given. *)
Lemma sorted_ext (lt lt' : A -> A -> option bool) (l : list A) :
  (forall x y, In x l -> In y l -> lt x y = lt' x y) ->
  sorted lt l = sorted lt' l.
Proof.
  induction l as [|x l IH] using rev_ind; auto. intros H.
  rewrite !sorted_snoc, <- IH.
  - destruct (sorted lt l) as [s|] eqn:E; auto.
    apply insort_ext, Forall_forall. intros y Hy. apply H.
    + apply in_or_app. right. now left.
    + apply in_or_app. left.
      eapply Permutation_in; [apply Permutation_sym, (sorted_perm _ _ _ E)|exact Hy].
  - intros a b Ha Hb. apply H; apply in_or_app; auto.
Qed.
End SortExt.

(** ** Dictionaries with string keys *)

Section StrDict.
Context {V : Type}.
Implicit Types (d : list (string * V)).

Lemma get_set_same (key : string) (v : V) d :
  dict_get String.eqb key (dict_set String.eqb key v d) = Some v.
Proof.
  induction d as [|[k' v'] d IH]; simpl.
  - now rewrite String.eqb_refl.
  - destruct (String.eqb key k') eqn:E; simpl; now rewrite E.
Qed.

Lemma get_set_other (key key' : string) (v : V) d :
  key' <> key ->
  dict_get String.eqb key' (dict_set String.eqb key v d) = dict_get String.eqb key' d.
Proof.
  intros Hne. induction d as [|[k' v'] d IH]; simpl.
  - apply String.eqb_neq in Hne. now rewrite Hne.
  - destruct (String.eqb key k') eqn:E; simpl.
    + apply String.eqb_eq in E. subst k'.
      apply String.eqb_neq in Hne. now rewrite Hne.
    + now rewrite IH.
Qed.

Lemma get_app (key : string) d d' :
  dict_get String.eqb key (d ++ d') =
  match dict_get String.eqb key d with
  | Some v => Some v
  | None => dict_get String.eqb key d'
  end.
Proof.
  induction d as [|[k' v'] d IH]; simpl; auto.
  destruct (String.eqb key k'); auto.
Qed.

Lemma get_insort (key : string) (x : string * V) d :
  StronglySorted (not_after fst) d ->
  dict_get String.eqb key (insort_t (by_key fst) x d) =
  dict_get String.eqb key (d ++ [x]).
Proof.
  induction 1 as [|y d Hd IH Hy]; simpl; auto.
  destruct (by_key fst x y) eqn:E; unfold by_key in E.
  - destruct x as [kx vx], y as [ky vy]. simpl in *.
    destruct (String.eqb_spec key kx) as [->|Hx].
    + destruct (String.eqb_spec kx ky) as [->|Hxy];
        [now rewrite ltb_irrefl in E|].
      rewrite get_app. simpl. rewrite String.eqb_refl.
      destruct (dict_get String.eqb kx d) eqn:G; auto.
      exfalso. clear - G Hy E. induction d as [|[kz vz] d IHd]; [discriminate|].
      inversion Hy as [|? ? Hz Hy']; subst. simpl in *.
      destruct (String.eqb_spec kx kz) as [->|Hn]; auto.
      unfold not_after in Hz. simpl in Hz. pose proof (ltb_asym _ _ E). congruence.
    + destruct (String.eqb key ky); auto. rewrite get_app. simpl.
      apply String.eqb_neq in Hx. rewrite Hx.
      now destruct (dict_get String.eqb key d).
  - destruct y as [ky vy]. simpl. destruct (String.eqb key ky); auto.
Qed.

(** The first item with a given key is the same after the stable sort. *)
Lemma get_sorted (key : string) d :
  dict_get String.eqb key (sorted_t (by_key fst) d) =
  dict_get String.eqb key d.
Proof.
  induction d as [|x d IH] using rev_ind; auto.
  rewrite sorted_t_snoc, get_insort; [|apply (sorted_t_sorted fst)].
  now rewrite !get_app, IH.
Qed.
End StrDict.

Lemma get_map_values {V W : Type} (f : V -> W) (key : string) (d : list (string * V)) :
  dict_get String.eqb key (map (fun kv => (fst kv, f (snd kv))) d) =
  option_map f (dict_get String.eqb key d).
Proof.
  induction d as [|[k' v'] d IH]; simpl; auto.
  destruct (String.eqb key k'); auto.
Qed.

(** Keys that are sorted stay as they are. *)
Lemma sort_keys_idem (j : json) : sort_keys (sort_keys j) = sort_keys j.
Proof.
  induction j as [|b|z|s|l IH|d IH] using json_rect'; simpl; auto.
  - f_equal. rewrite map_map. apply map_ext_Forall. exact IH.
  - f_equal. unfold key_ltb.
    rewrite (sorted_t_map fst (fun kv => (fst kv, sort_keys (snd kv)))); auto.
    rewrite (sorted_t_idem fst). f_equal. rewrite map_map.
    apply map_ext_Forall. eapply Forall_impl; [|exact IH].
    intros [k' v'] H. simpl in *. now rewrite H.
Qed.

Lemma py_eq_obj (d e : list (string * json)) :
  py_eq (JObj d) (JObj e) =
  ((List.length d =? List.length e)%nat && eq_fields e d)%bool.
Proof.
  cbn [py_eq]. f_equal. induction d as [|kv d IH]; simpl; auto.
  now rewrite IH.
Qed.

Lemma get_in_distinct {V : Type} (key : string) (v : V) (d : list (string * V)) :
  NoDup (map fst d) -> In (key, v) d -> dict_get String.eqb key d = Some v.
Proof.
  induction d as [|[k' v'] d IH]; simpl; intros Hnd H; [contradiction|].
  destruct H as [H|H].
  - injection H as -> ->. now rewrite String.eqb_refl.
  - inversion Hnd as [|? ? Hk Hd]; subst.
    destruct (String.eqb_spec key k') as [->|Hne]; auto.
    exfalso. apply Hk. change k' with (fst (k', v)). now apply in_map.
Qed.

(** Sorting the keys gives a document that is [==] to the original. *)
Lemma sort_keys_py_eq (j : json) : wf_json j = true -> py_eq j (sort_keys j) = true.
Proof.
  induction j as [|b|z|s|l IH|d IH] using json_rect'; intros Hwf;
    try reflexivity.
  - simpl. now rewrite Z.eqb_refl.
  - simpl. now rewrite Z.eqb_refl.
  - simpl. apply String.eqb_refl.
  - cbn [sort_keys]. rewrite py_eq_list. simpl in Hwf.
    induction l as [|x l IHl]; simpl in *; auto.
    apply andb_true_iff in Hwf as [Hx Hl]. inversion IH; subst.
    apply andb_true_iff. split; auto.
  - cbn [sort_keys]. rewrite py_eq_obj. simpl in Hwf.
    apply andb_true_iff in Hwf as [Hk Hv]. apply distinct_NoDup in Hk.
    apply andb_true_iff. split.
    + apply Nat.eqb_eq.
      rewrite <- (Permutation_length (sorted_t_perm key_ltb _)).
      now rewrite length_map.
    + assert (G : forall d', incl d' d ->
                eq_fields (sorted_t key_ltb
                             (map (fun kv => (fst kv, sort_keys (snd kv))) d)) d'
                = true).
      { induction d' as [|[k' v'] d' IHd]; intros Hincl; simpl; auto.
        assert (Hin : In (k', v') d) by (apply Hincl; now left).
        unfold key_ltb. rewrite (@get_sorted json), get_map_values.
        rewrite (get_in_distinct _ _ _ Hk Hin). simpl.
        apply andb_true_iff. split.
        - rewrite Forall_forall in IH. apply (IH _ Hin).
          rewrite forallb_forall in Hv. apply (Hv _ Hin).
        - apply IHd. intros x Hx. apply Hincl. now right. }
      apply G, incl_refl.
Qed.

(** ** The run store *)

Section StoreFacts.
Context {ndarrays : Type} {named : Named ndarrays}.
Implicit Types (s : @store ndarrays).

(** C8.  An encoding name other than npz, zarr and hdf5 makes [_save_arrays]
    and [_load_arrays] raise [ValueError] at once: the store is left as it
    was, whatever it holds, and nothing at the path is looked at.  So [save]
    raises it with the run directory made and nothing written inside, and
    [load] raises it on metadata that records such a name. *)
Theorem unsupported_format_raises (arrays_format : string) :
  arrays_format <> "npz" -> arrays_format <> "zarr" -> arrays_format <> "hdf5" ->
  (forall arrays run_id s,
     _save_arrays arrays_format arrays run_id s = (Raise ValueError, s)) /\
  (forall at_path s,
     _load_arrays arrays_format at_path s = Raise ValueError) /\
  (forall run_id arrays metadata s s1,
     mkdir_run run_id s = (Ok tt, s1) ->
     save run_id arrays metadata arrays_format s = (Raise ValueError, s1)) /\
  (forall run_id s m arrays_path,
     _read_json (run_file run_id "metadata.json") s = Ok (JObj m) ->
     get "arrays_path" m = Some (JStr arrays_path) ->
     get "arrays_format" m = Some (JStr arrays_format) ->
     load run_id s = Raise ValueError).
Proof.
  intros H1 H2 H3. apply String.eqb_neq in H1, H2, H3.
  assert (Hs : forall arrays run_id s,
             _save_arrays arrays_format arrays run_id s = (Raise ValueError, s))
    by (intros; unfold _save_arrays; now rewrite H1, H2, H3).
  assert (Hl : forall at_path s,
             _load_arrays arrays_format at_path s = Raise ValueError)
    by (intros; unfold _load_arrays; now rewrite H1, H2, H3).
  repeat split; auto.
  - intros run_id arrays metadata s s1 Hm. unfold save. now rewrite Hm, Hs.
  - intros run_id s m p Hr Hp Hf. unfold load. rewrite Hr. cbn [bind subscript].
    rewrite Hp. cbn [bind]. rewrite Hf. cbn [bind]. now rewrite Hl.
Qed.

(** *** The manifest *)

Lemma read_json_at run_id name (n : @node ndarrays) s :
  node_at run_id name s = Some n ->
  _read_json (run_file run_id name) s = read_json_node (Some n).
Proof.
  unfold _read_json, node_at. destruct (files_of run_id s) as [fs|];
    [now intros ->|discriminate].
Qed.

Lemma write_file_manifest run_id name (n : @node ndarrays) s r s' :
  write_file run_id name n s = (r, s') -> manifest_file s' = manifest_file s.
Proof.
  unfold write_file. destruct (files_of run_id s) as [fs|].
  - destruct (dict_get String.eqb name fs) as [old|].
    + destruct (is_directory old); intros H; injection H as <- <-; reflexivity.
    + intros H; injection H as <- <-; reflexivity.
  - intros H; injection H as <- <-; reflexivity.
Qed.

Lemma mkdir_run_manifest run_id s r s' :
  mkdir_run run_id s = (r, s') -> manifest_file s' = manifest_file s.
Proof.
  unfold mkdir_run. destruct (dict_get String.eqb run_id (runs_dir s)) as [[|fs]|];
    intros H; injection H as <- <-; reflexivity.
Qed.

Lemma save_arrays_manifest fmt (arrays : ndarrays) run_id s r s' :
  _save_arrays fmt arrays run_id s = (r, s') -> manifest_file s' = manifest_file s.
Proof.
  unfold _save_arrays.
  destruct (String.eqb fmt "npz").
  { destruct (existsb (String.eqb "file") (keys arrays));
      [intros H; injection H as <- <-; auto|].
    destruct (write_file _ _ _ s) as [[u|e] s1] eqn:E; intros H;
      injection H as <- <-; eapply write_file_manifest; eauto. }
  destruct (String.eqb fmt "zarr").
  { destruct (negb (zarr_available s)); [intros H; injection H as <- <-; auto|].
    destruct (files_of run_id s) as [fs|]; [|intros H; injection H as <- <-; auto].
    destruct (dict_get String.eqb "arrays.zarr" fs) as [old|];
      [destruct (is_directory old)|]; intros H; injection H as <- <-; auto. }
  destruct (String.eqb fmt "hdf5").
  { destruct (negb (h5py_available s)); [intros H; injection H as <- <-; auto|].
    destruct (write_file _ _ _ s) as [[u|e] s1] eqn:E; intros H;
      injection H as <- <-; eapply write_file_manifest; eauto. }
  intros H; injection H as <- <-; auto.
Qed.

Lemma manifest_entry_ext s s' other :
  manifest_file s' = manifest_file s ->
  manifest_entry other s' = manifest_entry other s.
Proof. unfold manifest_entry, _load_manifest, _read_json. now intros ->. Qed.

(** [_update_manifest] rewrites the whole index and changes one entry. *)
Lemma update_manifest_frame run_id metadata s s' other :
  _update_manifest run_id metadata s = (Ok tt, s') -> other <> run_id ->
  manifest_entry other s' = option_map sort_keys (manifest_entry other s).
Proof.
  unfold _update_manifest, manifest_entry. intros H Hne.
  destruct (_load_manifest s) as [manifest|e]; [|discriminate].
  unfold assign_run in H.
  destruct manifest as [| | | | |m]; try discriminate.
  destruct (get "runs" m) as [[| | | | |runs]|] eqn:Eruns; try discriminate.
  injection H as <-. unfold _load_manifest, _read_json, with_manifest, written.
  cbn [manifest_file sort_keys].
  unfold get, set, key_ltb in *.
  rewrite (@get_sorted json), get_map_values, get_set_same.
  cbn [option_map sort_keys snd fst].
  now rewrite (@get_sorted json), get_map_values, get_set_other.
Qed.

Lemma update_manifest_entry run_id metadata s s' :
  _update_manifest run_id metadata s = (Ok tt, s') ->
  manifest_entry run_id s' =
  Some (sort_keys
          (JObj [("timestamp", get_or_null "timestamp" metadata);
                 ("tags", or_else (get_or_null "tags" metadata) (JList []))])).
Proof.
  unfold _update_manifest, manifest_entry. intros H.
  destruct (_load_manifest s) as [manifest|e]; [|discriminate].
  unfold assign_run in H.
  destruct manifest as [| | | | |m]; try discriminate.
  destruct (get "runs" m) as [[| | | | |runs]|] eqn:Eruns; try discriminate.
  injection H as <-. unfold _load_manifest, _read_json, with_manifest, written.
  cbn [manifest_file sort_keys].
  unfold get, set, key_ltb in *.
  rewrite (@get_sorted json), get_map_values, get_set_same.
  cbn [option_map sort_keys snd fst].
  now rewrite (@get_sorted json), get_map_values, get_set_same.
Qed.

Lemma files_of_put run_id name (n : @node ndarrays) fs s :
  files_of run_id
    (with_runs (dict_set String.eqb run_id
                  (Directory (dict_set String.eqb name n fs)) (runs_dir s)) s) =
  Some (dict_set String.eqb name n fs).
Proof. unfold files_of, with_runs. cbn [runs_dir]. now rewrite get_set_same. Qed.

Lemma write_file_files run_id name (n : @node ndarrays) s s' :
  write_file run_id name n s = (Ok tt, s') -> exists fs, files_of run_id s' = Some fs.
Proof.
  unfold write_file. destruct (files_of run_id s) as [fs|]; [|discriminate].
  destruct (dict_get String.eqb name fs) as [old|];
    [destruct (is_directory old); [discriminate|]|];
    intros H; injection H as <-; rewrite files_of_put; eauto.
Qed.

Lemma save_arrays_files fmt (arrays : ndarrays) run_id s s' p :
  _save_arrays fmt arrays run_id s = (Ok p, s') ->
  exists fs, files_of run_id s' = Some fs.
Proof.
  unfold _save_arrays.
  destruct (String.eqb fmt "npz").
  { destruct (existsb (String.eqb "file") (keys arrays)); [discriminate|].
    destruct (write_file _ _ _ s) as [[[]|e] s1] eqn:E; [|discriminate].
    intros H. injection H as _ <-. eapply write_file_files; eauto. }
  destruct (String.eqb fmt "zarr").
  { destruct (negb (zarr_available s)); [discriminate|].
    destruct (files_of run_id s) as [fs|]; [|discriminate].
    destruct (dict_get String.eqb "arrays.zarr" fs) as [old|];
      [destruct (is_directory old); [|discriminate]|];
      intros H; injection H as _ <-; rewrite files_of_put; eauto. }
  destruct (String.eqb fmt "hdf5"); [|discriminate].
  destruct (negb (h5py_available s)); [discriminate|].
  destruct (write_file _ _ _ s) as [[[]|e] s1] eqn:E; [|discriminate].
  intros H. injection H as _ <-. eapply write_file_files; eauto.
Qed.

(** In a run directory that exists, [_write_json] writes the file. *)
Lemma write_json_run run_id name payload s fs :
  files_of run_id s = Some fs ->
  _write_json (run_file run_id name) payload s =
  write_file run_id name (TextFile (written payload)) s.
Proof.
  unfold _write_json, mkdir_run, files_of.
  destruct (dict_get String.eqb run_id (runs_dir s)) as [[|fs']|]; try discriminate.
  reflexivity.
Qed.

Lemma save_inv run_id (arrays : ndarrays) metadata arrays_format s s' dir :
  save run_id arrays metadata arrays_format s = (Ok dir, s') ->
  exists s1 s2 s3 arrays_path,
    mkdir_run run_id s = (Ok tt, s1) /\
    _save_arrays arrays_format arrays run_id s1 = (Ok arrays_path, s2) /\
    write_file run_id "metadata.json"
      (TextFile (written (JObj (enriched run_id arrays_format arrays_path metadata))))
      s2 = (Ok tt, s3) /\
    _update_manifest run_id (enriched run_id arrays_format arrays_path metadata) s3 =
      (Ok tt, s').
Proof.
  unfold save. fold (enriched run_id arrays_format).
  destruct (mkdir_run run_id s) as [[[]|e1] s1] eqn:E1; [|discriminate].
  destruct (_save_arrays arrays_format arrays run_id s1) as [[p|e2] s2] eqn:E2;
    [|discriminate].
  fold (enriched run_id arrays_format p metadata).
  destruct (save_arrays_files _ _ _ _ _ _ E2) as [fs Hfs].
  rewrite (write_json_run _ _ _ _ _ Hfs).
  destruct (write_file run_id "metadata.json" _ s2) as [[[]|e3] s3] eqn:E3;
    [|discriminate].
  destruct (_update_manifest run_id _ s3) as [[[]|e4] s4] eqn:E4; [|discriminate].
  intros H. injection H as _ <-. exists s1, s2, s3, p. auto.
Qed.

Lemma enriched_get (key run_id fmt p : string) (metadata : pydict) :
  key <> "run_id" -> key <> "arrays_format" -> key <> "arrays_path" ->
  get_or_null key (enriched run_id fmt p metadata) = get_or_null key metadata.
Proof.
  intros H1 H2 H3. unfold get_or_null, enriched, get, set.
  now rewrite !get_set_other.
Qed.

(** C9.  A save that succeeds sets the manifest entry of its own run id to
    the timestamp and the tags of the metadata, and leaves the entry of
    every other run id as it was: the same document, written back with its
    keys sorted as [_write_json] writes every document -- for an entry read
    by [json.load] a document [==] to the one before; a run id that had no
    entry still has none. *)
Theorem save_manifest_frame run_id (arrays : ndarrays) metadata arrays_format
    s s' dir :
  save run_id arrays metadata arrays_format s = (Ok dir, s') ->
  manifest_entry run_id s' =
    Some (JObj [("tags", sort_keys (or_else (get_or_null "tags" metadata) (JList [])));
                ("timestamp", sort_keys (get_or_null "timestamp" metadata))]) /\
  forall other, other <> run_id ->
    manifest_entry other s' = option_map sort_keys (manifest_entry other s) /\
    (forall e, manifest_entry other s = Some e -> wf_json e = true ->
       exists e', manifest_entry other s' = Some e' /\ py_eq e e' = true).
Proof.
  intros H. destruct (save_inv _ _ _ _ _ _ _ H) as (s1 & s2 & s3 & p & E1 & E2 & E3 & E4).
  split.
  - rewrite (update_manifest_entry _ _ _ _ E4).
    rewrite !enriched_get by discriminate. reflexivity.
  - intros other Hne.
    assert (E : manifest_entry other s' =
                option_map sort_keys (manifest_entry other s)).
    { rewrite (update_manifest_frame _ _ _ _ other E4 Hne). f_equal.
      rewrite (manifest_entry_ext s2 s3), (manifest_entry_ext s1 s2),
        (manifest_entry_ext s s1); auto.
      - eapply mkdir_run_manifest; eauto.
      - eapply save_arrays_manifest; eauto.
      - eapply write_file_manifest; eauto. }
    split; auto. intros e He Hwf. rewrite E, He. simpl.
    eexists; split; eauto. now apply sort_keys_py_eq.
Qed.

(** *** Listing *)

Lemma flat_map_perm {A B : Type} (f : A -> list B) (l l' : list A) :
  Permutation l l' -> Permutation (flat_map f l) (flat_map f l').
Proof.
  induction 1; simpl; auto.
  - now apply Permutation_app_head.
  - rewrite !app_assoc. apply Permutation_app_tail, Permutation_app_comm.
  - eapply Permutation_trans; eauto.
Qed.

Lemma scan_run_id name (files : list (string * @node ndarrays)) :
  run_id_of (scan_run name files) = name.
Proof.
  unfold scan_run.
  destruct (read_json_node _) as [[| | | | |m]|e]; reflexivity.
Qed.

Lemma fallback_run_ids s :
  Permutation (map run_id_of (fallback_runs s)) (subdirectories s).
Proof.
  unfold fallback_runs, subdirectories.
  rewrite map_flat_map_out.
  eapply Permutation_trans;
    [apply flat_map_perm, Permutation_sym, (sorted_t_perm name_ltb)|].
  induction (runs_dir s) as [|[name [|files]] l IH]; simpl; auto.
  rewrite scan_run_id. auto.
Qed.

(** X1.  With at least one entry, each holding a string timestamp or none,
    the listing is the entries in ascending order of timestamp, an entry
    without the key first. *)
Lemma list_runs_sorted s manifest (runs : list pydict) :
  _load_manifest s = Ok manifest -> manifest_runs manifest = Ok runs ->
  runs <> [] ->
  Forall (fun r => exists t, get_default "timestamp" (JStr "") r = JStr t) runs ->
  list_runs s = Ok (sorted_t (by_key stamp) runs) /\
  StronglySorted (not_after stamp) (sorted_t (by_key stamp) runs) /\
  Permutation runs (sorted_t (by_key stamp) runs).
Proof.
  intros Hm Hr Hne Ht. split; [|split].
  - unfold list_runs. rewrite Hm. cbn [bind]. rewrite Hr. cbn [bind].
    destruct runs as [|r rs]; [congruence|].
    assert (E : sorted by_timestamp (r :: rs) =
                Some (sorted_t (by_key stamp) (r :: rs))).
    { rewrite <- sorted_total. apply sorted_ext. intros x y Hx Hy.
      rewrite Forall_forall in Ht.
      destruct (Ht x Hx) as [tx Ex]. destruct (Ht y Hy) as [ty Ey].
      unfold by_timestamp, by_key, stamp. now rewrite Ex, Ey. }
    now rewrite E.
  - apply sorted_t_sorted.
  - apply sorted_t_perm.
Qed.

(** C6.  With the manifest file absent, or holding no entry, [list_runs]
    returns the fallback listing: exactly one entry per run subdirectory,
    and the placeholder with a null timestamp and no tags for a run whose
    metadata cannot be read. *)
Theorem list_runs_fallback s :
  manifest_file s = None \/
  (exists m, manifest_file s = Some (Some (JObj m)) /\ get "runs" m = Some (JObj [])) ->
  list_runs s = Ok (fallback_runs s) /\
  Permutation (map run_id_of (fallback_runs s)) (subdirectories s) /\
  (forall name files e,
     In (name, Directory files) (runs_dir s) ->
     read_json_node (dict_get String.eqb "metadata.json" files) = Raise e ->
     In [("run_id", JStr name); ("timestamp", JNull); ("tags", JList [])]
        (fallback_runs s)).
Proof.
  intros H. split; [|split].
  - unfold list_runs, _load_manifest, _read_json.
    destruct H as [->|(m & -> & Hm)]; cbn [bind manifest_runs]; [reflexivity|].
    now rewrite Hm.
  - apply fallback_run_ids.
  - intros name files e Hin Hread. unfold fallback_runs.
    apply in_flat_map. exists (name, Directory files). split.
    + eapply Permutation_in; [apply (sorted_t_perm name_ltb)|exact Hin].
    + simpl. left. unfold scan_run. now rewrite Hread.
Qed.
End StoreFacts.

Lemma list_runs_fallback_witness :
  list_runs no_manifest_store =
    Ok [ [("run_id", JStr "r1"); ("timestamp", JStr "t1"); ("tags", JList [JStr "x"])];
         [("run_id", JStr "r2"); ("timestamp", JNull); ("tags", JList [])] ] /\
  Permutation (map run_id_of (fallback_runs no_manifest_store)) ["r2"; "r1"].
Proof.
  destruct (list_runs_fallback no_manifest_store (or_introl eq_refl)) as (H1 & H2 & _).
  split; [exact H1|exact H2].
Defined.

Lemma unsupported_format_raises_witness :
  _save_arrays "csv" tt "a" empty_store = (Raise ValueError, empty_store) /\
  _load_arrays "csv" (Some (NpzFile tt)) empty_store = Raise ValueError /\
  save "a" tt [] "csv" empty_store =
    (Raise ValueError, mkStore false false None [("a", Directory [])]).
Proof.
  assert (H : "csv" <> "npz" /\ "csv" <> "zarr" /\ "csv" <> "hdf5")
    by (repeat split; discriminate).
  destruct H as (H1 & H2 & H3).
  destruct (@unsupported_format_raises unit _ "csv" H1 H2 H3) as (Hs & Hl & Hsave & _).
  split; [apply Hs|]. split; [apply Hl|]. apply Hsave. reflexivity.
Defined.

Lemma save_manifest_frame_witness :
  manifest_entry "b" two_untimed_runs =
    Some (JObj [("tags", JList []); ("timestamp", JNull)]) /\
  manifest_entry "a" two_untimed_runs =
    option_map sort_keys
      (manifest_entry "a" (snd (save "a" tt [("seed", JInt 1)] "npz" empty_store))).
Proof.
  assert (E : save "b" tt [("seed", JInt 2)] "npz"
                (snd (save "a" tt [("seed", JInt 1)] "npz" empty_store)) =
              (Ok "b", two_untimed_runs)) by reflexivity.
  destruct (save_manifest_frame "b" tt [("seed", JInt 2)] "npz"
              (snd (save "a" tt [("seed", JInt 1)] "npz" empty_store))
              two_untimed_runs "b" E) as [Hown Hframe].
  split; [exact Hown|].
  apply (proj1 (Hframe "a" ltac:(discriminate))).
Defined.

(** C5: the code against the claim.  Two saves whose metadata has no
    timestamp leave a manifest with two [null] timestamps, and [list_runs]
    raises [TypeError] on it instead of listing the two runs.  One entry with
    a [null] timestamp and one with a string timestamp raise as well. *)
Theorem list_runs_null_timestamp :
  manifest_file two_untimed_runs =
    Some (Some (JObj [("runs",
      JObj [("a", JObj [("tags", JList []); ("timestamp", JNull)]);
            ("b", JObj [("tags", JList []); ("timestamp", JNull)])])])) /\
  list_runs two_untimed_runs = Raise TypeError /\
  list_runs
    (snd (save "c" tt [("timestamp", JStr "2024-01-01T00:00:00+00:00")] "npz"
            (snd (save "a" tt [("seed", JInt 1)] "npz" empty_store)))) =
    Raise TypeError.
Proof. repeat split; vm_compute; reflexivity. Qed.

(** *** Saving, then loading *)

Section SaveLoad.
Context {ndarrays : Type} {named : Named ndarrays}.
Implicit Types (s : @store ndarrays).

Lemma node_at_put run_id name (n : @node ndarrays) fs s :
  node_at run_id name
    (with_runs (dict_set String.eqb run_id
                  (Directory (dict_set String.eqb name n fs)) (runs_dir s)) s) =
  Some n.
Proof.
  unfold node_at, files_of, with_runs. cbn [runs_dir].
  now rewrite get_set_same, get_set_same.
Qed.

Lemma node_at_put_other run_id name name' (n : @node ndarrays) fs s :
  files_of run_id s = Some fs -> name' <> name ->
  node_at run_id name'
    (with_runs (dict_set String.eqb run_id
                  (Directory (dict_set String.eqb name n fs)) (runs_dir s)) s) =
  node_at run_id name' s.
Proof.
  intros Hfs Hne. unfold node_at, files_of in *. cbn [with_runs runs_dir].
  rewrite get_set_same, get_set_other; auto.
  destruct (dict_get String.eqb run_id (runs_dir s)) as [[|fs']|]; try discriminate.
  now injection Hfs as ->.
Qed.

Lemma write_file_ok run_id name (n : @node ndarrays) s s' :
  write_file run_id name n s = (Ok tt, s') ->
  node_at run_id name s' = Some n /\
  (forall name', name' <> name -> node_at run_id name' s' = node_at run_id name' s) /\
  same_host s s'.
Proof.
  unfold write_file. destruct (files_of run_id s) as [fs|] eqn:Efs; [|discriminate].
  assert (G : forall t, (Ok tt, with_runs (dict_set String.eqb run_id
                          (Directory (dict_set String.eqb name n fs)) (runs_dir s)) s)
                        = (Ok tt, t) ->
              node_at run_id name t = Some n /\
              (forall name', name' <> name ->
                 node_at run_id name' t = node_at run_id name' s) /\
              same_host s t).
  { intros t H. injection H as <-. split; [apply node_at_put|]. split.
    - intros name' Hne. now apply node_at_put_other.
    - split; reflexivity. }
  destruct (dict_get String.eqb name fs) as [old|]; [|apply G].
  destruct (is_directory old); [discriminate|apply G].
Qed.

(** What [_save_arrays] wrote is what [_load_arrays] reads back, under the
    same format name. *)
Lemma save_arrays_ok fmt (arrays : ndarrays) run_id s s' p :
  _save_arrays fmt arrays run_id s = (Ok p, s') ->
  p <> "metadata.json" /\ same_host s s' /\
  forall t, same_host s' t -> node_at run_id p t = node_at run_id p s' ->
            _load_arrays fmt (node_at run_id p t) t = Ok arrays.
Proof.
  unfold _save_arrays, _load_arrays.
  destruct (String.eqb fmt "npz") eqn:E1.
  { destruct (existsb (String.eqb "file") (keys arrays)); [discriminate|].
    destruct (write_file _ _ _ s) as [[[]|e] s1] eqn:E; [|discriminate].
    intros H. injection H as <- <-.
    destruct (write_file_ok _ _ _ _ _ E) as (Hn & _ & Hh).
    split; [discriminate|]. split; auto. intros t _ ->. now rewrite Hn. }
  destruct (String.eqb fmt "zarr") eqn:E2.
  { destruct (zarr_available s) eqn:Ez; [|discriminate]. cbn [negb].
    destruct (files_of run_id s) as [fs|] eqn:Efs; [|discriminate].
    assert (G : forall u, (Ok "arrays.zarr",
                 with_runs (dict_set String.eqb run_id
                   (Directory (dict_set String.eqb "arrays.zarr"
                                 (ZarrGroup arrays) fs)) (runs_dir s)) s)
                 = (Ok p, u) ->
               p <> "metadata.json" /\ same_host s u /\
               forall t, same_host u t -> node_at run_id p t = node_at run_id p u ->
                 (if negb (zarr_available t) then Raise RuntimeError
                  else match node_at run_id p t with
                       | Some (ZarrGroup a) => Ok a
                       | _ => Raise CodecError
                       end) = Ok arrays).
    { intros u H. injection H as <- <-. split; [discriminate|].
      split; [split; reflexivity|]. intros t [Hz _] ->.
      cbn [with_runs zarr_available] in Hz. rewrite Hz, Ez. cbn [negb].
      now rewrite node_at_put. }
    destruct (dict_get String.eqb "arrays.zarr" fs) as [old|]; [|apply G].
    destruct (is_directory old); [apply G|discriminate]. }
  destruct (String.eqb fmt "hdf5") eqn:E3; [|discriminate].
  destruct (h5py_available s) eqn:Eh; [|discriminate]. cbn [negb].
  destruct (write_file _ _ _ s) as [[[]|e] s1] eqn:E; [|discriminate].
  intros H. injection H as <- <-.
  destruct (write_file_ok _ _ _ _ _ E) as (Hn & _ & Hh).
  split; [discriminate|]. split; auto. intros t [_ Hh'] ->.
  destruct Hh as [_ Hh]. rewrite Hh', Hh, Eh. cbn [negb]. now rewrite Hn.
Qed.

Lemma update_manifest_runs run_id metadata s s' :
  _update_manifest run_id metadata s = (Ok tt, s') ->
  runs_dir s' = runs_dir s /\ same_host s s'.
Proof.
  unfold _update_manifest. destruct (_load_manifest s) as [m|e]; [|discriminate].
  destruct (assign_run m run_id _) as [m'|e]; [|discriminate].
  intros H. injection H as <-. repeat split.
Qed.

Lemma get_sorted_keys (key : string) (d : pydict) :
  get key (sorted_t key_ltb (map (fun kv => (fst kv, sort_keys (snd kv))) d)) =
  option_map sort_keys (get key d).
Proof. unfold get, key_ltb. now rewrite (@get_sorted json), get_map_values. Qed.

(** X2.  After a save that succeeds, [load] returns the arrays that were saved
    and the metadata as it was written: the caller's, with the run id, the
    format and the file name added.  The codecs are taken to read back what
    they wrote. *)
Lemma load_after_save run_id (arrays : ndarrays) metadata arrays_format s s' dir :
  save run_id arrays metadata arrays_format s = (Ok dir, s') ->
  exists arrays_path,
    load run_id s' =
    Ok (arrays,
        sort_keys (JObj (enriched run_id arrays_format arrays_path metadata))).
Proof.
  intros H. destruct (save_inv _ _ _ _ _ _ _ H) as (s1 & s2 & s3 & p & E1 & E2 & E3 & E4).
  exists p.
  destruct (save_arrays_ok _ _ _ _ _ _ E2) as (Hp & Hh2 & Hload).
  destruct (write_file_ok _ _ _ _ _ E3) as (Hmeta & Hother & Hh3).
  destruct (update_manifest_runs _ _ _ _ E4) as (Hruns & Hh4).
  assert (Hnode : forall name, node_at run_id name s' = node_at run_id name s3).
  { intros name. unfold node_at, files_of. now rewrite Hruns. }
  unfold load. rewrite (read_json_at _ _ _ _ (eq_trans (Hnode _) Hmeta)).
  cbn [read_json_node written bind].
  cbn [sort_keys subscript]. rewrite !get_sorted_keys.
  unfold enriched at 1, set, get. rewrite get_set_same. cbn [option_map sort_keys bind].
  unfold enriched at 1, set. rewrite get_set_other by discriminate.
  rewrite get_set_same. cbn [option_map sort_keys bind].
  rewrite Hload; auto.
  - destruct Hh3 as [A1 A2], Hh4 as [B1 B2]. split; congruence.
  - rewrite Hnode. auto.
Qed.
End SaveLoad.

(** *** The latest run with a tag *)


Lemma filterR_total {A : Type} (f : A -> result bool) (l : list A) :
  Forall (fun x => exists b, f x = Ok b) l ->
  filterR f l = Ok (filter (fun x => match f x with Ok true => true | _ => false end) l).
Proof.
  induction 1 as [|x l [b Hx] _ IH]; simpl; auto.
  rewrite Hx, IH. simpl. now destruct b.
Qed.

Lemma well_typed_run_inv (tag : string) (r : pydict) :
  well_typed_run tag r = true ->
  (exists id, get "run_id" r = Some (JStr id)) /\
  timestamp_key r = JStr (ts r) /\
  (exists b, carries tag r = Ok b).
Proof.
  unfold well_typed_run, ts.
  destruct (get "run_id" r) as [[| | |id| |]|]; try discriminate.
  destruct (timestamp_key r) as [| | |t| |]; try discriminate.
  destruct (carries tag r) as [b|e]; try discriminate. eauto.
Qed.

Section Latest.
Context {ndarrays : Type} {named : Named ndarrays}.
Implicit Types (s : @store ndarrays).

(** X27.  When [list_runs] returns, and returns well-typed runs: if no
    listed run carries the tag, [load_latest] returns [None] without raising;
    otherwise it returns what [load] returns, or raises what [load] raises,
    for one carrying run, [best], such that no carrying run has a greater
    timestamp and every carrying run listed after [best] has a strictly
    smaller one -- among equal timestamps the one listed last is taken.  A
    run carries the tag as the code tests it, with [tag in tags]: an item of
    a list of tags, a part of a string, a key of a mapping. *)
Theorem load_latest_spec (tag : string) s (runs : list pydict) :
  list_runs s = Ok runs ->
  forallb (well_typed_run tag) runs = true ->
  (filter (carries_b tag) runs = [] -> load_latest tag s = Ok None) /\
  (filter (carries_b tag) runs <> [] ->
   exists pre best post,
     filter (carries_b tag) runs = pre ++ best :: post /\
     Forall (fun c => String.ltb (ts best) (ts c) = false) pre /\
     Forall (fun c => String.ltb (ts c) (ts best) = true) post /\
     load_latest tag s = (r <- load (run_id_of best) s ;; Ok (Some r))).
Proof.
  intros Hl Hwt. rewrite forallb_forall in Hwt.
  assert (Hf : filterR (carries tag) runs = Ok (filter (carries_b tag) runs)).
  { apply filterR_total, Forall_forall. intros r Hr.
    now destruct (well_typed_run_inv tag r (Hwt r Hr)) as (_ & _ & H). }
  unfold load_latest. rewrite Hl. cbn [bind]. rewrite Hf. cbn [bind].
  split; [now intros ->|]. intros Hne.
  set (cands := filter (carries_b tag) runs) in *.
  assert (Hc : forall r, In r cands -> well_typed_run tag r = true).
  { intros r Hr. apply Hwt. unfold cands in Hr. now apply filter_In in Hr. }
  assert (Hs : sorted recency cands =
               Some (sorted_t (by_key ts) cands)).
  { rewrite <- sorted_total. apply sorted_ext. intros x y Hx Hy.
    destruct (well_typed_run_inv tag x (Hc x Hx)) as (_ & Ex & _).
    destruct (well_typed_run_inv tag y (Hc y Hy)) as (_ & Ey & _).
    unfold recency. fold (timestamp_key x) (timestamp_key y).
    now rewrite Ex, Ey. }
  destruct cands as [|c cs] eqn:Ec; [congruence|]. rewrite Hs.
  destruct (sorted_t_last ts (c :: cs) c Hne)
    as (pre & best & post & E & Hlast & Hpre & Hpost).
  exists pre, best, post. repeat split; auto.
  rewrite Hlast.
  assert (Hb : In best (c :: cs)) by (rewrite E; apply in_elt).
  destruct (well_typed_run_inv tag best (Hc best Hb)) as ((id & Hid) & _ & _).
  unfold get_or_null, run_id_of. now rewrite Hid.
Qed.
End Latest.

Lemma load_latest_spec_witness :
  load_latest "y" abc_store = Ok None /\
  exists pre best post,
    filter (carries_b "x")
      [ [("run_id", JStr "A"); ("tags", JList [JStr "x"]);
         ("timestamp", JStr "2024-01-01T00:00:00+00:00")];
        [("run_id", JStr "B"); ("tags", JList [JStr "x"]);
         ("timestamp", JStr "2024-01-02T00:00:00+00:00")];
        [("run_id", JStr "C"); ("tags", JList []);
         ("timestamp", JStr "2024-01-03T00:00:00+00:00")] ] = pre ++ best :: post /\
    Forall (fun c => String.ltb (ts best) (ts c) = false) pre /\
    Forall (fun c => String.ltb (ts c) (ts best) = true) post /\
    load_latest "x" abc_store = (r <- load (run_id_of best) abc_store ;; Ok (Some r)).
Proof.
  split.
  - apply (proj1 (load_latest_spec "y" abc_store _ eq_refl eq_refl)). reflexivity.
  - apply (proj2 (load_latest_spec "x" abc_store _ eq_refl eq_refl)). discriminate.
Defined.

(** Runs A and B carry the tag x, B with the later timestamp, and C carries
    none: the latest x is B, and there is no latest y. *)
Example load_latest_abc :
  load_latest "x" abc_store =
    Ok (Some (tt, JObj [("arrays_format", JStr "npz");
                        ("arrays_path", JStr "arrays.npz");
                        ("run_id", JStr "B");
                        ("tags", JList [JStr "x"]);
                        ("timestamp", JStr "2024-01-02T00:00:00+00:00")])) /\
  load_latest "y" abc_store = Ok None.
Proof. split; vm_compute; reflexivity. Qed.

(** C7: the code against the claim.  After two saves whose metadata has no
    timestamp no listed run carries the tag y, and [load_latest] raises
    [TypeError] on it instead of returning [None]: it goes through
    [list_runs], which cannot sort two [null] timestamps.  When the two runs
    are tagged x, [load_latest] raises for x as well instead of loading one
    of them, although each loads, and although its own sort takes a missing
    timestamp for the empty string. *)
Theorem load_latest_null_timestamp :
  manifest_file two_untimed_runs =
    Some (Some (JObj [("runs",
      JObj [("a", JObj [("tags", JList []); ("timestamp", JNull)]);
            ("b", JObj [("tags", JList []); ("timestamp", JNull)])])])) /\
  load_latest "y" two_untimed_runs = Raise TypeError /\
  manifest_file two_untimed_x_runs =
    Some (Some (JObj [("runs",
      JObj [("a", JObj [("tags", JList [JStr "x"]); ("timestamp", JNull)]);
            ("b", JObj [("tags", JList [JStr "x"]); ("timestamp", JNull)])])])) /\
  load_latest "x" two_untimed_x_runs = Raise TypeError /\
  (exists a b, load "a" two_untimed_x_runs = Ok a /\
               load "b" two_untimed_x_runs = Ok b).
Proof.
  repeat split; try (vm_compute; reflexivity).
  do 2 eexists. split; vm_compute; reflexivity.
Qed.

(** ** The arrays of a run *)

Section KeywordClash.
Context {ndarrays : Type} {named : Named ndarrays}.
Implicit Types (s : @store ndarrays).

Lemma existsb_file (names : list string) :
  In "file" names -> existsb (String.eqb "file") names = true.
Proof.
  intros H. apply existsb_exists. exists "file". split; [exact H|reflexivity].
Qed.

(** An artifact set with an array named [file] is not written as npz:
    [_save_arrays] raises [TypeError] before it writes anything, and so does
    [save], which leaves the run directory it made empty. *)
Lemma save_arrays_file_name (arrays : ndarrays) run_id s :
  In "file" (keys arrays) ->
  _save_arrays "npz" arrays run_id s = (Raise TypeError, s) /\
  forall metadata s1,
    mkdir_run run_id s = (Ok tt, s1) ->
    save run_id arrays metadata "npz" s = (Raise TypeError, s1).
Proof.
  intros H. apply existsb_file in H.
  assert (G : forall t, _save_arrays "npz" arrays run_id t = (Raise TypeError, t))
    by (intros t; unfold _save_arrays; now rewrite String.eqb_refl, H).
  split; [apply G|]. intros metadata s1 E. unfold save. now rewrite E, G.
Qed.
End KeywordClash.

(** C3: the code against the claim.  The npz branch hands the arrays to
    [np.savez_compressed(arrays_path, **arrays)], their names as keyword
    arguments, and the function's own first parameter is named [file]: for
    the artifact set [{"file": np.zeros(3)}] the save raises [TypeError] and
    stores nothing, so that there is nothing to load, where the claim has
    the set read back.  The hdf5 branch, which passes the names as values,
    stores the same set and reads it back. *)
Theorem save_arrays_keyword_clash :
  save "r" file_array [] "npz" h5py_store =
    (Raise TypeError, mkStore false true None [("r", Directory [])]) /\
  load "r" (snd (save "r" file_array [] "npz" h5py_store)) =
    Raise FileNotFoundError /\
  (forall (arrays : list (string * ndarray)) run_id s,
     In "file" (map fst arrays) ->
     _save_arrays "npz" arrays run_id s = (Raise TypeError, s)) /\
  fst (save "r" file_array [] "hdf5" h5py_store) = Ok "r" /\
  load "r" (snd (save "r" file_array [] "hdf5" h5py_store)) =
    Ok (file_array, JObj [("arrays_format", JStr "hdf5");
                          ("arrays_path", JStr "arrays.h5");
                          ("run_id", JStr "r")]).
Proof.
  split; [vm_compute; reflexivity|]. split; [vm_compute; reflexivity|].
  split; [|split; vm_compute; reflexivity].
  intros arrays run_id s H.
  apply (proj1 (save_arrays_file_name arrays run_id s H)).
Qed.

(* ================================================================== *)
(** * Further properties of the code *)
(* ================================================================== *)

(** ** The run store: what a save touches *)

Section SaveFrame.
Context {ndarrays : Type} {named : Named ndarrays}.
Implicit Types (s : @store ndarrays).

Lemma untouched_refl run_id s : untouched run_id s s.
Proof. repeat split. Qed.

Lemma untouched_trans run_id s1 s2 s3 :
  untouched run_id s1 s2 -> untouched run_id s2 s3 -> untouched run_id s1 s3.
Proof.
  intros [[A1 A2] A3] [[B1 B2] B3]. repeat split; try congruence.
  intros other Hne. rewrite B3, A3; auto.
Qed.

Lemma untouched_put run_id (e : @entry ndarrays) s :
  untouched run_id s (with_runs (dict_set String.eqb run_id e (runs_dir s)) s).
Proof.
  repeat split. intros other Hne. cbn [with_runs runs_dir].
  now apply get_set_other.
Qed.

Lemma mkdir_run_untouched run_id s r s' :
  mkdir_run run_id s = (r, s') -> untouched run_id s s'.
Proof.
  unfold mkdir_run.
  destruct (dict_get String.eqb run_id (runs_dir s)) as [[|fs]|];
    intros H; injection H as <- <-; try apply untouched_refl.
  repeat split. intros other Hne. cbn [with_runs runs_dir].
  rewrite get_app. destruct (dict_get String.eqb other (runs_dir s)); auto.
  simpl. apply String.eqb_neq in Hne. now rewrite Hne.
Qed.

Lemma write_file_untouched run_id name (n : @node ndarrays) s r s' :
  write_file run_id name n s = (r, s') -> untouched run_id s s'.
Proof.
  unfold write_file. destruct (files_of run_id s) as [fs|].
  - destruct (dict_get String.eqb name fs) as [old|];
      [destruct (is_directory old)|]; intros H; injection H as <- <-;
      auto using untouched_refl, untouched_put.
  - intros H; injection H as <- <-. apply untouched_refl.
Qed.

Lemma save_arrays_untouched fmt (arrays : ndarrays) run_id s r s' :
  _save_arrays fmt arrays run_id s = (r, s') -> untouched run_id s s'.
Proof.
  unfold _save_arrays.
  destruct (String.eqb fmt "npz").
  { destruct (existsb (String.eqb "file") (keys arrays));
      [intros H; injection H as <- <-; apply untouched_refl|].
    destruct (write_file _ _ _ s) as [[u|e] s1] eqn:E; intros H;
      injection H as <- <-; eapply write_file_untouched; eauto. }
  destruct (String.eqb fmt "zarr").
  { destruct (negb (zarr_available s));
      [intros H; injection H as <- <-; apply untouched_refl|].
    destruct (files_of run_id s) as [fs|];
      [|intros H; injection H as <- <-; apply untouched_refl].
    destruct (dict_get String.eqb "arrays.zarr" fs) as [old|];
      [destruct (is_directory old)|]; intros H; injection H as <- <-;
      auto using untouched_refl, untouched_put. }
  destruct (String.eqb fmt "hdf5").
  { destruct (negb (h5py_available s));
      [intros H; injection H as <- <-; apply untouched_refl|].
    destruct (write_file _ _ _ s) as [[u|e] s1] eqn:E; intros H;
      injection H as <- <-; eapply write_file_untouched; eauto. }
  intros H; injection H as <- <-. apply untouched_refl.
Qed.

Lemma write_json_untouched run_id name payload s r s' :
  _write_json (run_file run_id name) payload s = (r, s') -> untouched run_id s s'.
Proof.
  unfold _write_json.
  destruct (mkdir_run run_id s) as [[u|e] s1] eqn:E1.
  - intros H. eapply untouched_trans.
    + eapply mkdir_run_untouched; eauto.
    + eapply write_file_untouched; eauto.
  - intros H. injection H as <- <-. eapply mkdir_run_untouched; eauto.
Qed.

Lemma update_manifest_untouched run_id metadata s r s' :
  _update_manifest run_id metadata s = (r, s') -> untouched run_id s s'.
Proof.
  unfold _update_manifest. destruct (_load_manifest s) as [m|e];
    [|intros H; injection H as <- <-; apply untouched_refl].
  destruct (assign_run m run_id _) as [m'|e];
    intros H; injection H as <- <-; repeat split.
Qed.

Lemma save_untouched run_id (arrays : ndarrays) metadata fmt s r s' :
  save run_id arrays metadata fmt s = (r, s') -> untouched run_id s s'.
Proof.
  unfold save.
  destruct (mkdir_run run_id s) as [[u1|e1] s1] eqn:E1;
    [|intros H; injection H as <- <-; eapply mkdir_run_untouched; eauto].
  apply mkdir_run_untouched in E1.
  destruct (_save_arrays fmt arrays run_id s1) as [[p|e2] s2] eqn:E2;
    apply save_arrays_untouched in E2;
    [|intros H; injection H as <- <-; eapply untouched_trans; eauto].
  destruct (_write_json _ _ s2) as [[u3|e3] s3] eqn:E3;
    apply write_json_untouched in E3;
    [|intros H; injection H as <- <-; eauto using untouched_trans].
  destruct (_update_manifest run_id _ s3) as [[u4|e4] s4] eqn:E4;
    apply update_manifest_untouched in E4;
    intros H; injection H as <- <-; eauto using untouched_trans.
Qed.

Lemma load_untouched run_id other s s' :
  untouched run_id s s' -> other <> run_id -> load other s' = load other s.
Proof.
  intros [[Hz Hh] Hd] Hne.
  assert (Hn : forall name, node_at other name s' = node_at other name s)
    by (intros name; unfold node_at, files_of; now rewrite Hd).
  assert (Hr : forall name, _read_json (run_file other name) s' =
                            _read_json (run_file other name) s)
    by (intros name; unfold _read_json, no_directory, files_of; now rewrite Hd).
  unfold load. rewrite Hr.
  destruct (_read_json _ s) as [metadata|e]; auto. cbn [bind].
  destruct (subscript metadata "arrays_path") as [[| | |p| |]|e]; auto. cbn [bind].
  destruct (subscript metadata "arrays_format") as [[| | |f| |]|e]; auto. cbn [bind].
  rewrite Hn. unfold _load_arrays. now rewrite Hz, Hh.
Qed.

(** X3.  For run ids that are names of entries of the runs directory:
    whatever becomes of a save -- success or an exception at any step --
    every other run is as it was.  It exists or not as before, its
    directory holds what it held, its metadata reads as before, and loading
    it gives what it gave before when its metadata names the array file by
    a plain name, as the metadata written by [save] does. *)
Theorem save_keeps_other_runs run_id (arrays : ndarrays) metadata fmt s r s' other :
  plain_name run_id = true -> plain_name other = true ->
  save run_id arrays metadata fmt s = (r, s') -> other <> run_id ->
  run_exists other s' = run_exists other s /\
  info other s' = info other s /\
  (forall name, node_at other name s' = node_at other name s) /\
  ((forall m p, info other s = Ok (JObj m) ->
                get "arrays_path" m = Some (JStr p) -> plain_name p = true) ->
   load other s' = load other s).
Proof.
  intros _ _ H Hne. pose proof (save_untouched _ _ _ _ _ _ _ H) as Hu.
  split; [|split; [|split]].
  - unfold run_exists, dict_mem. destruct Hu as [_ Hd]. now rewrite Hd.
  - destruct Hu as [_ Hd]. unfold info, _read_json, no_directory, files_of.
    now rewrite Hd.
  - destruct Hu as [_ Hd]. intros name. unfold node_at, files_of.
    now rewrite Hd.
  - intros _. eapply load_untouched; eauto.
Qed.

Lemma mkdir_run_exists run_id s r s' :
  mkdir_run run_id s = (r, s') -> run_exists run_id s' = true.
Proof.
  unfold mkdir_run, run_exists, dict_mem.
  destruct (dict_get String.eqb run_id (runs_dir s)) as [[|fs]|] eqn:E;
    intros H; injection H as <- <-; try now rewrite E.
  cbn [with_runs runs_dir]. rewrite get_app, E. simpl.
  now rewrite String.eqb_refl.
Qed.

Lemma exists_kept_put run_id (e : @entry ndarrays) s :
  run_exists run_id (with_runs (dict_set String.eqb run_id e (runs_dir s)) s) = true.
Proof.
  unfold run_exists, dict_mem. cbn [with_runs runs_dir]. now rewrite get_set_same.
Qed.

Lemma write_file_exists run_id name (n : @node ndarrays) s r s' :
  write_file run_id name n s = (r, s') ->
  run_exists run_id s = true -> run_exists run_id s' = true.
Proof.
  unfold write_file. destruct (files_of run_id s) as [fs|].
  - destruct (dict_get String.eqb name fs) as [old|];
      [destruct (is_directory old)|]; intros H; injection H as <- <-;
      auto using exists_kept_put.
  - intros H; injection H as <- <-; auto.
Qed.

Lemma save_arrays_exists fmt (arrays : ndarrays) run_id s r s' :
  _save_arrays fmt arrays run_id s = (r, s') ->
  run_exists run_id s = true -> run_exists run_id s' = true.
Proof.
  unfold _save_arrays.
  destruct (String.eqb fmt "npz").
  { destruct (existsb (String.eqb "file") (keys arrays));
      [intros H; injection H as <- <-; auto|].
    destruct (write_file _ _ _ s) as [[u|e] s1] eqn:E; intros H;
      injection H as <- <-; eapply write_file_exists; eauto. }
  destruct (String.eqb fmt "zarr").
  { destruct (negb (zarr_available s)); [intros H; injection H as <- <-; auto|].
    destruct (files_of run_id s) as [fs|]; [|intros H; injection H as <- <-; auto].
    destruct (dict_get String.eqb "arrays.zarr" fs) as [old|];
      [destruct (is_directory old)|]; intros H; injection H as <- <-;
      auto using exists_kept_put. }
  destruct (String.eqb fmt "hdf5").
  { destruct (negb (h5py_available s)); [intros H; injection H as <- <-; auto|].
    destruct (write_file _ _ _ s) as [[u|e] s1] eqn:E; intros H;
      injection H as <- <-; eapply write_file_exists; eauto. }
  intros H; injection H as <- <-; auto.
Qed.

Lemma write_json_exists run_id name payload s r s' :
  _write_json (run_file run_id name) payload s = (r, s') ->
  run_exists run_id s' = true.
Proof.
  unfold _write_json.
  destruct (mkdir_run run_id s) as [[u|e] s1] eqn:E1;
    pose proof (mkdir_run_exists _ _ _ _ E1) as X.
  - intros H. eapply write_file_exists; eauto.
  - intros H. injection H as <- <-. exact X.
Qed.

Lemma update_manifest_runs_dir run_id metadata s r s' :
  _update_manifest run_id metadata s = (r, s') -> runs_dir s' = runs_dir s.
Proof.
  unfold _update_manifest. destruct (_load_manifest s) as [m|e];
    [|intros H; injection H as <- <-; reflexivity].
  destruct (assign_run m run_id _) as [m'|e];
    intros H; injection H as <- <-; reflexivity.
Qed.

(** X4.  For a run id that is the name of an entry of the runs directory:
    once [save] was called the run exists, whether the save returned or
    raised at any step.  An unsupported format, a missing codec library or
    a manifest that cannot be read leave the run directory behind, and the
    [mkdir] of such a name only fails on a file that is already there (the
    file system taken not to fail by itself).  A save that returns, returns
    the run's directory. *)
Theorem save_then_exists run_id (arrays : ndarrays) metadata fmt s r s' :
  plain_name run_id = true ->
  save run_id arrays metadata fmt s = (r, s') ->
  run_exists run_id s' = true /\ (forall dir, r = Ok dir -> dir = run_id).
Proof.
  intros _. unfold save.
  destruct (mkdir_run run_id s) as [[[]|e1] s1] eqn:E1;
    pose proof (mkdir_run_exists _ _ _ _ E1) as X1;
    [|intros H; injection H as <- <-; split; [auto|discriminate]].
  destruct (_save_arrays fmt arrays run_id s1) as [[p|e2] s2] eqn:E2;
    pose proof (save_arrays_exists _ _ _ _ _ _ E2 X1) as X2;
    [|intros H; injection H as <- <-; split; [auto|discriminate]].
  destruct (_write_json _ _ s2) as [[u3|e3] s3] eqn:E3;
    pose proof (write_json_exists _ _ _ _ _ _ E3) as X3;
    [|intros H; injection H as <- <-; split; [auto|discriminate]].
  destruct (_update_manifest run_id _ s3) as [[u4|e4] s4] eqn:E4;
    apply update_manifest_runs_dir in E4;
    intros H; injection H as <- <-;
    (split; [unfold run_exists in *; now rewrite E4|]);
    intros dir Hd; congruence.
Qed.
End SaveFrame.

Lemma save_keeps_other_runs_witness :
  run_exists "a" two_untimed_runs = run_exists "a" store_a_untimed /\
  info "a" two_untimed_runs = info "a" store_a_untimed /\
  (forall name, node_at "a" name two_untimed_runs = node_at "a" name store_a_untimed) /\
  load "a" two_untimed_runs = load "a" store_a_untimed.
Proof.
  assert (E : save "b" tt [("seed", JInt 2)] "npz" store_a_untimed =
              (Ok "b", two_untimed_runs)) by reflexivity.
  destruct (save_keeps_other_runs "b" tt [("seed", JInt 2)] "npz" store_a_untimed
              (Ok "b") two_untimed_runs "a" eq_refl eq_refl E
              ltac:(discriminate)) as (H1 & H2 & H3 & H4).
  split; [exact H1|]. split; [exact H2|]. split; [exact H3|].
  apply H4. intros m p Hm Hp.
  injection Hm as <-. injection Hp as <-. reflexivity.
Defined.

Lemma save_then_exists_witness :
  run_exists "a" (snd (save "a" tt [] "csv" empty_store)) = true /\
  (forall dir, fst (save "a" tt [] "csv" empty_store) = Ok dir -> dir = "a").
Proof.
  apply (save_then_exists "a" tt [] "csv" empty_store
           (fst (save "a" tt [] "csv" empty_store))
           (snd (save "a" tt [] "csv" empty_store))); reflexivity.
Defined.

(** ** The run store: what a save leaves *)

Section SaveFacts.
Context {ndarrays : Type} {named : Named ndarrays}.
Implicit Types (s : @store ndarrays).

(** The metadata file after a save that returned. *)
(** The file the arrays go to is fixed by the format. *)
Lemma save_arrays_name fmt (arrays : ndarrays) run_id s s' p :
  _save_arrays fmt arrays run_id s = (Ok p, s') ->
  (fmt = "npz" /\ p = "arrays.npz") \/ (fmt = "zarr" /\ p = "arrays.zarr") \/
  (fmt = "hdf5" /\ p = "arrays.h5").
Proof.
  unfold _save_arrays.
  destruct (String.eqb_spec fmt "npz") as [->|_].
  { destruct (existsb (String.eqb "file") (keys arrays)); [discriminate|].
    destruct (write_file _ _ _ s) as [[[]|e] s1]; [|discriminate].
    intros H. injection H as <- _. auto. }
  destruct (String.eqb_spec fmt "zarr") as [->|_].
  { destruct (negb (zarr_available s)); [discriminate|].
    destruct (files_of run_id s) as [fs|]; [|discriminate].
    destruct (dict_get String.eqb "arrays.zarr" fs) as [old|];
      [destruct (is_directory old); [|discriminate]|];
      intros H; injection H as <- _; auto. }
  destruct (String.eqb_spec fmt "hdf5") as [->|_]; [|discriminate].
  destruct (negb (h5py_available s)); [discriminate|].
  destruct (write_file _ _ _ s) as [[[]|e] s1]; [|discriminate].
  intros H. injection H as <- _. auto.
Qed.

Lemma saved_metadata_doc run_id (arrays : ndarrays) metadata fmt s s' dir :
  save run_id arrays metadata fmt s = (Ok dir, s') ->
  exists p,
    _read_json (run_file run_id "metadata.json") s' =
      Ok (sort_keys (JObj (enriched run_id fmt p metadata))) /\
    p <> "metadata.json" /\
    ((fmt = "npz" /\ p = "arrays.npz") \/ (fmt = "zarr" /\ p = "arrays.zarr") \/
     (fmt = "hdf5" /\ p = "arrays.h5")).
Proof.
  intros H. destruct (save_inv _ _ _ _ _ _ _ H) as (s1 & s2 & s3 & p & E1 & E2 & E3 & E4).
  exists p. destruct (save_arrays_ok _ _ _ _ _ _ E2) as (Hp & _ & _).
  destruct (write_file_ok _ _ _ _ _ E3) as (Hmeta & _ & _).
  destruct (update_manifest_runs _ _ _ _ E4) as (Hruns & _).
  assert (Hm' : node_at run_id "metadata.json" s' =
                Some (TextFile (written (JObj (enriched run_id fmt p metadata)))))
    by (unfold node_at, files_of in *; now rewrite Hruns).
  split; [now rewrite (read_json_at _ _ _ _ Hm')|]. split; auto.
  eapply save_arrays_name; eauto.
Qed.

(** X5.  The metadata a save stores carries the run id, the format and the
    array file name of the save itself ([arrays.npz], [arrays.zarr] or
    [arrays.h5] by the format), whatever the caller's metadata said under
    these three keys; every other field is the caller's. *)
Theorem saved_metadata_fields run_id (arrays : ndarrays) metadata fmt s s' dir :
  save run_id arrays metadata fmt s = (Ok dir, s') ->
  exists m p,
    info run_id s' = Ok (JObj m) /\
    get "run_id" m = Some (JStr run_id) /\
    get "arrays_format" m = Some (JStr fmt) /\
    get "arrays_path" m = Some (JStr p) /\
    ((fmt = "npz" /\ p = "arrays.npz") \/ (fmt = "zarr" /\ p = "arrays.zarr") \/
     (fmt = "hdf5" /\ p = "arrays.h5")) /\
    forall k, k <> "run_id" -> k <> "arrays_format" -> k <> "arrays_path" ->
              get k m = option_map sort_keys (get k metadata).
Proof.
  intros H. destruct (saved_metadata_doc _ _ _ _ _ _ _ H) as (p & Hdoc & _ & Hp).
  eexists. exists p. unfold info. rewrite Hdoc. cbn [sort_keys].
  split; [reflexivity|]. rewrite !get_sorted_keys. unfold enriched, get, set.
  split; [|split; [|split; [|split; [exact Hp|]]]].
  - rewrite !get_set_other by discriminate. now rewrite get_set_same.
  - rewrite get_set_other by discriminate. now rewrite get_set_same.
  - now rewrite get_set_same.
  - intros k H1 H2 H3. rewrite get_sorted_keys. unfold get.
    now rewrite !get_set_other.
Qed.

(** *** A saved run is listed *)

Lemma get_In {V : Type} (k : string) (v : V) (d : list (string * V)) :
  dict_get String.eqb k d = Some v -> In (k, v) d.
Proof.
  induction d as [|[k' v'] d IH]; simpl; [discriminate|].
  destruct (String.eqb_spec k k') as [->|Hne]; intros H; auto.
  injection H as ->. now left.
Qed.

Lemma mapR_In {A B : Type} (f : A -> result B) (l : list A) (rs : list B) (x : A) :
  mapR f l = Ok rs -> In x l -> exists y, f x = Ok y /\ In y rs.
Proof.
  revert rs. induction l as [|a l IH]; intros rs H Hin; [contradiction|].
  simpl in H. destruct (f a) as [b|e] eqn:Ea; [|discriminate]. cbn [bind] in H.
  destruct (mapR f l) as [bs|e] eqn:El; [|discriminate]. cbn [bind] in H.
  injection H as <-. destruct Hin as [->|Hin].
  - exists b. split; auto. now left.
  - destruct (IH _ eq_refl Hin) as (y & Hy & Hy'). exists y. split; auto. now right.
Qed.

(** X6.  After a save that returned, every listing that succeeds shows the run,
    with the timestamp and the tags of its metadata. *)
Theorem saved_run_is_listed run_id (arrays : ndarrays) metadata fmt s s' dir runs :
  save run_id arrays metadata fmt s = (Ok dir, s') ->
  list_runs s' = Ok runs ->
  In [ ("run_id", JStr run_id);
       ("tags", sort_keys (or_else (get_or_null "tags" metadata) (JList [])));
       ("timestamp", sort_keys (get_or_null "timestamp" metadata)) ] runs.
Proof.
  intros H Hl.
  destruct (save_inv _ _ _ _ _ _ _ H) as (s1 & s2 & s3 & p & E1 & E2 & E3 & E4).
  pose proof (update_manifest_entry _ _ _ _ E4) as He.
  rewrite !enriched_get in He by discriminate.
  unfold manifest_entry in He. unfold list_runs in Hl.
  destruct (_load_manifest s') as [[| | | | |m]|e]; try discriminate.
  cbn [bind manifest_runs] in Hl.
  destruct (get "runs" m) as [[| | | | |rs]|]; try discriminate.
  apply get_In in He.
  destruct (mapR _ rs) as [l|e] eqn:El; [|discriminate]. cbn [bind] in Hl.
  destruct (mapR_In _ _ _ _ El He) as (y & Hy & Hin).
  simpl in Hy. injection Hy as <-.
  destruct l as [|r l']; [contradiction|].
  destruct (sorted by_timestamp (r :: l')) as [sl|] eqn:Es; [|discriminate].
  injection Hl as <-.
  eapply Permutation_in; [apply (sorted_perm _ _ _ Es)|exact Hin].
Qed.

(** *** A codec library that is missing *)

(** X8.  Without the zarr package a zarr save raises [RuntimeError] with the run
    directory made and nothing written in it, and a load of a run recorded
    as zarr raises [RuntimeError] before the arrays are looked at; the same
    for hdf5 without h5py. *)
Theorem missing_library_raises (fmt : string) s :
  (fmt = "zarr" /\ zarr_available s = false) \/
  (fmt = "hdf5" /\ h5py_available s = false) ->
  (forall arrays run_id,
     _save_arrays fmt arrays run_id s = (Raise RuntimeError, s)) /\
  (forall at_path, _load_arrays fmt at_path s = Raise RuntimeError) /\
  (forall run_id arrays metadata s1,
     mkdir_run run_id s = (Ok tt, s1) ->
     save run_id arrays metadata fmt s = (Raise RuntimeError, s1)) /\
  (forall run_id m p,
     _read_json (run_file run_id "metadata.json") s = Ok (JObj m) ->
     get "arrays_path" m = Some (JStr p) ->
     get "arrays_format" m = Some (JStr fmt) ->
     load run_id s = Raise RuntimeError).
Proof.
  intros Hfmt.
  assert (Hs : forall arrays run_id t, same_host s t ->
             _save_arrays fmt arrays run_id t = (Raise RuntimeError, t)).
  { intros arrays run_id t [Hz Hh]. unfold _save_arrays.
    destruct Hfmt as [[-> E]|[-> E]]; simpl String.eqb; cbv iota.
    - rewrite Hz, E. reflexivity.
    - rewrite Hh, E. reflexivity. }
  assert (Hl : forall at_path, _load_arrays fmt at_path s = Raise RuntimeError).
  { intros at_path. unfold _load_arrays.
    destruct Hfmt as [[-> E]|[-> E]]; simpl String.eqb; cbv iota;
      rewrite E; reflexivity. }
  repeat split; auto.
  - intros arrays run_id. apply Hs. split; reflexivity.
  - intros run_id arrays metadata s1 Hm. unfold save. rewrite Hm, Hs; auto.
    unfold mkdir_run in Hm.
    destruct (dict_get String.eqb run_id (runs_dir s)) as [[|fs]|];
      try discriminate; injection Hm as <-; split; reflexivity.
  - intros run_id m p Hr Hp Hf. unfold load. rewrite Hr. cbn [bind subscript].
    rewrite Hp. cbn [bind]. rewrite Hf. cbn [bind]. now rewrite Hl.
Qed.

(** *** Runs that are not there *)

(** X9.  For a run id that is the name of an entry of the runs directory:
    when nothing has that name the run does not exist, and [load] and [info]
    raise [FileNotFoundError] on it; so they do on a run directory whose
    metadata file is gone.  When a plain file has that name [save] raises
    [FileExistsError] and leaves the store as it was. *)
Theorem missing_run_raises run_id s :
  plain_name run_id = true ->
  (dict_get String.eqb run_id (runs_dir s) = None ->
   run_exists run_id s = false /\
   load run_id s = Raise FileNotFoundError /\
   info run_id s = Raise FileNotFoundError) /\
  (forall files,
     dict_get String.eqb run_id (runs_dir s) = Some (Directory files) ->
     dict_get String.eqb "metadata.json" files = None ->
     load run_id s = Raise FileNotFoundError /\
     info run_id s = Raise FileNotFoundError) /\
  (dict_get String.eqb run_id (runs_dir s) = Some RegularFile ->
   forall arrays metadata fmt,
     save run_id arrays metadata fmt s = (Raise FileExistsError, s)).
Proof.
  intros _. split; [|split].
  - intros E.
    unfold run_exists, dict_mem, load, info, _read_json, no_directory, files_of.
    rewrite E. auto.
  - intros files E Em. unfold load, info, _read_json, files_of.
    rewrite E, Em. auto.
  - intros E arrays metadata fmt. unfold save, mkdir_run. now rewrite E.
Qed.
End SaveFacts.

Lemma saved_metadata_fields_witness :
  exists m p,
    info "a" store_with_a = Ok (JObj m) /\
    get "run_id" m = Some (JStr "a") /\
    get "arrays_format" m = Some (JStr "npz") /\
    get "arrays_path" m = Some (JStr p) /\
    (("npz" = "npz" /\ p = "arrays.npz") \/ ("npz" = "zarr" /\ p = "arrays.zarr") \/
     ("npz" = "hdf5" /\ p = "arrays.h5")) /\
    forall k, k <> "run_id" -> k <> "arrays_format" -> k <> "arrays_path" ->
              get k m =
              option_map sort_keys
                (get k [("timestamp", JStr "2024-01-01"); ("tags", JList [JStr "x"])]).
Proof.
  apply (saved_metadata_fields "a" tt
           [("timestamp", JStr "2024-01-01"); ("tags", JList [JStr "x"])]
           "npz" empty_store store_with_a "a").
  reflexivity.
Defined.

Lemma saved_run_is_listed_witness :
  list_runs store_with_a =
    Ok [[("run_id", JStr "a"); ("tags", JList [JStr "x"]);
         ("timestamp", JStr "2024-01-01")]] /\
  In [("run_id", JStr "a"); ("tags", JList [JStr "x"]);
      ("timestamp", JStr "2024-01-01")]
     [[("run_id", JStr "a"); ("tags", JList [JStr "x"]);
       ("timestamp", JStr "2024-01-01")]].
Proof.
  split; [reflexivity|].
  apply (saved_run_is_listed "a" tt
           [("timestamp", JStr "2024-01-01"); ("tags", JList [JStr "x"])]
           "npz" empty_store store_with_a "a"); reflexivity.
Defined.

Lemma missing_library_raises_witness :
  _save_arrays "zarr" tt "a" empty_store = (Raise RuntimeError, empty_store) /\
  _load_arrays "zarr" (Some (ZarrGroup tt)) empty_store = Raise RuntimeError /\
  save "a" tt [] "zarr" empty_store =
    (Raise RuntimeError, mkStore false false None [("a", Directory [])]).
Proof.
  destruct (missing_library_raises "zarr" empty_store
              (or_introl (conj eq_refl eq_refl))) as (Hs & Hl & Hsave & _).
  split; [apply Hs|]. split; [apply Hl|]. apply Hsave. reflexivity.
Defined.

Lemma missing_run_raises_witness :
  load "a" empty_store = Raise FileNotFoundError /\
  save "a" tt [] "npz" file_in_the_way = (Raise FileExistsError, file_in_the_way).
Proof.
  split.
  - apply (proj1 (missing_run_raises "a" empty_store eq_refl)). reflexivity.
  - apply (proj2 (proj2 (missing_run_raises "a" file_in_the_way eq_refl))).
    reflexivity.
Defined.

Lemma load_after_save_witness :
  exists arrays_path,
    load "a" store_with_a =
    Ok (tt, sort_keys (JObj (enriched "a" "npz" arrays_path
                               [("timestamp", JStr "2024-01-01");
                                ("tags", JList [JStr "x"])]))).
Proof.
  apply (load_after_save "a" tt
           [("timestamp", JStr "2024-01-01"); ("tags", JList [JStr "x"])]
           "npz" empty_store store_with_a "a").
  reflexivity.
Defined.

Lemma list_runs_sorted_witness :
  list_runs abc_store =
    Ok (sorted_t (by_key stamp)
          [ [("run_id", JStr "A"); ("tags", JList [JStr "x"]);
             ("timestamp", JStr "2024-01-01T00:00:00+00:00")];
            [("run_id", JStr "B"); ("tags", JList [JStr "x"]);
             ("timestamp", JStr "2024-01-02T00:00:00+00:00")];
            [("run_id", JStr "C"); ("tags", JList []);
             ("timestamp", JStr "2024-01-03T00:00:00+00:00")] ]).
Proof.
  refine (proj1 (list_runs_sorted abc_store _ _ eq_refl eq_refl _ _)).
  - discriminate.
  - repeat constructor; eexists; reflexivity.
Defined.

(** ** The run store: saving again *)

Lemma dict_set_same {V : Type} (k : string) (v : V) (d : list (string * V)) :
  dict_get String.eqb k d = Some v -> dict_set String.eqb k v d = d.
Proof.
  induction d as [|[k' v'] d IH]; simpl; [discriminate|].
  destruct (String.eqb_spec k k') as [->|Hne]; intros H.
  - now injection H as ->.
  - now rewrite IH.
Qed.

Lemma map_sort_keys_set (k : string) (v : json) (d : pydict) :
  map (fun kv => (fst kv, sort_keys (snd kv))) (dict_set String.eqb k v d) =
  dict_set String.eqb k (sort_keys v) (map (fun kv => (fst kv, sort_keys (snd kv))) d).
Proof.
  induction d as [|[k' v'] d IH]; simpl; auto.
  destruct (String.eqb k k'); simpl; auto. now rewrite IH.
Qed.

(** In a document that [_write_json] wrote, overwriting a field by a value
    that sorts to the one there changes nothing once written again. *)
Lemma sort_keys_set_written (k : string) (v v0 : json) (d : pydict) :
  StronglySorted (not_after fst) d ->
  Forall (fun kv => sort_keys (snd kv) = snd kv) d ->
  get k d = Some v0 -> sort_keys v = v0 ->
  sort_keys (JObj (set k v d)) = JObj d.
Proof.
  intros Hs Hf Hg Hv. cbn [sort_keys]. unfold set. rewrite map_sort_keys_set, Hv.
  assert (E : map (fun kv => (fst kv, sort_keys (snd kv))) d = d).
  { clear - Hf. induction Hf as [|[k' v'] d H _ IH]; simpl in *; auto.
    now rewrite H, IH. }
  rewrite E, dict_set_same by exact Hg.
  unfold key_ltb. now rewrite (sorted_t_fixed fst).
Qed.

Lemma written_normal (d : pydict) :
  StronglySorted (not_after fst)
    (sorted_t key_ltb (map (fun kv => (fst kv, sort_keys (snd kv))) d)) /\
  Forall (fun kv => sort_keys (snd kv) = snd kv)
    (sorted_t key_ltb (map (fun kv => (fst kv, sort_keys (snd kv))) d)).
Proof.
  split; [apply (sorted_t_sorted fst)|].
  eapply Permutation_Forall; [apply (sorted_t_perm key_ltb)|].
  apply Forall_map, Forall_forall. intros kv _. simpl. apply sort_keys_idem.
Qed.

Section SaveAgain.
Context {ndarrays : Type} {named : Named ndarrays}.
Implicit Types (s : @store ndarrays).

Lemma with_runs_same s : with_runs (runs_dir s) s = s.
Proof. now destruct s. Qed.

Lemma with_manifest_same s : with_manifest (manifest_file s) s = s.
Proof. now destruct s. Qed.

Lemma put_again run_id name (n : @node ndarrays) fs s :
  files_of run_id s = Some fs -> dict_get String.eqb name fs = Some n ->
  with_runs (dict_set String.eqb run_id
               (Directory (dict_set String.eqb name n fs)) (runs_dir s)) s = s.
Proof.
  intros Hf Hn. rewrite (dict_set_same name n fs Hn).
  rewrite dict_set_same; [apply with_runs_same|].
  unfold files_of in Hf.
  destruct (dict_get String.eqb run_id (runs_dir s)) as [[|fs']|]; try discriminate.
  now injection Hf as ->.
Qed.

Lemma node_at_inv run_id name (n : @node ndarrays) s :
  node_at run_id name s = Some n ->
  exists fs, files_of run_id s = Some fs /\ dict_get String.eqb name fs = Some n.
Proof.
  unfold node_at. destruct (files_of run_id s) as [fs|]; [eauto|discriminate].
Qed.

Lemma write_file_again run_id name (n : @node ndarrays) s :
  node_at run_id name s = Some n -> is_directory n = false ->
  write_file run_id name n s = (Ok tt, s).
Proof.
  intros Hn Hd. destruct (node_at_inv _ _ _ _ Hn) as (fs & Hf & Hg).
  unfold write_file. rewrite Hf, Hg, Hd. now rewrite (put_again _ _ _ _ _ Hf Hg).
Qed.

Lemma save_arrays_again fmt (arrays : ndarrays) run_id s s' p :
  _save_arrays fmt arrays run_id s = (Ok p, s') ->
  forall t, same_host s t -> node_at run_id p t = node_at run_id p s' ->
            _save_arrays fmt arrays run_id t = (Ok p, t).
Proof.
  unfold _save_arrays.
  destruct (String.eqb fmt "npz") eqn:E1.
  { destruct (existsb (String.eqb "file") (keys arrays)); [discriminate|].
    destruct (write_file _ _ _ s) as [[[]|e] s1] eqn:E; [|discriminate].
    intros H. injection H as <- <-. intros t _ Hn.
    destruct (write_file_ok _ _ _ _ _ E) as (Hs1 & _ & _). rewrite Hs1 in Hn.
    now rewrite write_file_again. }
  destruct (String.eqb fmt "zarr") eqn:E2.
  { destruct (zarr_available s) eqn:Ez; [|discriminate]. cbn [negb].
    destruct (files_of run_id s) as [fs|] eqn:Efs; [|discriminate].
    assert (G : forall u, (Ok "arrays.zarr",
                 with_runs (dict_set String.eqb run_id
                   (Directory (dict_set String.eqb "arrays.zarr"
                                 (ZarrGroup arrays) fs)) (runs_dir s)) s)
                 = (Ok p, u) ->
               forall t, same_host s t -> node_at run_id p t = node_at run_id p u ->
                 (if negb (zarr_available t) then (Raise RuntimeError, t)
                  else match files_of run_id t with
                       | None => (Raise (no_directory run_id t), t)
                       | Some fs =>
                           match dict_get String.eqb "arrays.zarr" fs with
                           | Some old =>
                               if is_directory old then
                                 (Ok "arrays.zarr",
                                  with_runs (dict_set String.eqb run_id
                                    (Directory (dict_set String.eqb "arrays.zarr"
                                                  (ZarrGroup arrays) fs))
                                    (runs_dir t)) t)
                               else (Raise OSError, t)
                           | None =>
                               (Ok "arrays.zarr",
                                with_runs (dict_set String.eqb run_id
                                  (Directory (dict_set String.eqb "arrays.zarr"
                                                (ZarrGroup arrays) fs))
                                  (runs_dir t)) t)
                           end
                       end) = (Ok p, t)).
    { intros u H. injection H as <- <-. intros t [Hz _] Hn.
      rewrite node_at_put in Hn. rewrite Hz, Ez. cbn [negb].
      destruct (node_at_inv _ _ _ _ Hn) as (ft & Hf & Hg).
      rewrite Hf, Hg. cbn [is_directory].
      now rewrite (put_again _ _ _ _ _ Hf Hg). }
    destruct (dict_get String.eqb "arrays.zarr" fs) as [old|]; [|apply G].
    destruct (is_directory old); [apply G|discriminate]. }
  destruct (String.eqb fmt "hdf5") eqn:E3; [|discriminate].
  destruct (h5py_available s) eqn:Eh; [|discriminate]. cbn [negb].
  destruct (write_file _ _ _ s) as [[[]|e] s1] eqn:E; [|discriminate].
  intros H. injection H as <- <-. intros t [_ Hh] Hn.
  destruct (write_file_ok _ _ _ _ _ E) as (Hs1 & _ & _). rewrite Hs1 in Hn.
  rewrite Hh, Eh. cbn [negb]. now rewrite write_file_again.
Qed.

Lemma assign_run_again run_id (e : json) (m runs : pydict) :
  get "runs" m = Some (JObj runs) ->
  exists m1 y,
    sort_keys (JObj (set "runs" (JObj (set run_id e runs)) m)) = JObj m1 /\
    assign_run (JObj m1) run_id e = Ok y /\ sort_keys y = JObj m1.
Proof.
  intros Hruns.
  set (runs1 := sorted_t key_ltb
                  (map (fun kv => (fst kv, sort_keys (snd kv))) (set run_id e runs))).
  set (m1 := sorted_t key_ltb
               (map (fun kv => (fst kv, sort_keys (snd kv)))
                    (set "runs" (JObj (set run_id e runs)) m))).
  assert (Hg : get "runs" m1 = Some (JObj runs1)).
  { unfold m1. rewrite get_sorted_keys. unfold get, set.
    now rewrite get_set_same. }
  exists m1, (JObj (set "runs" (JObj (set run_id e runs1)) m1)).
  split; [reflexivity|]. split.
  { cbn [assign_run]. now rewrite Hg. }
  assert (Hinner : sort_keys (JObj (set run_id e runs1)) = JObj runs1).
  { destruct (written_normal (set run_id e runs)) as [A B].
    apply sort_keys_set_written with (v0 := sort_keys e); auto.
    unfold runs1. rewrite get_sorted_keys. unfold get, set.
    now rewrite get_set_same. }
  destruct (written_normal (set "runs" (JObj (set run_id e runs)) m)) as [A B].
  apply sort_keys_set_written with (v0 := JObj runs1); auto.
Qed.

Lemma update_manifest_again run_id metadata s s' :
  _update_manifest run_id metadata s = (Ok tt, s') ->
  _update_manifest run_id metadata s' = (Ok tt, s').
Proof.
  unfold _update_manifest.
  set (e := JObj [("timestamp", get_or_null "timestamp" metadata);
                  ("tags", or_else (get_or_null "tags" metadata) (JList []))]).
  destruct (_load_manifest s) as [[| | | | |m]|e0]; try discriminate.
  cbn [assign_run].
  destruct (get "runs" m) as [[| | | | |runs]|] eqn:Eruns; try discriminate.
  destruct (assign_run_again run_id e m runs Eruns) as (m1 & y & E1 & E2 & E3).
  cbn [_write_json]. unfold written. rewrite E1. intros H. injection H as <-.
  unfold _load_manifest, _read_json. cbn [with_manifest manifest_file].
  rewrite E2. cbn [_write_json]. unfold written. rewrite E3.
  reflexivity.
Qed.

(** X10.  Saving the same arrays and metadata again under the same run id leaves
    the store exactly as the first save left it: the same files, the same
    manifest. *)
Theorem save_idempotent run_id (arrays : ndarrays) metadata fmt s s' dir :
  save run_id arrays metadata fmt s = (Ok dir, s') ->
  save run_id arrays metadata fmt s' = (Ok dir, s').
Proof.
  intros H.
  assert (Hdir : dir = run_id)
    by (unfold save in H;
        destruct (mkdir_run run_id s) as [[?|?] ?]; [|discriminate];
        destruct (_save_arrays fmt arrays run_id _) as [[?|?] ?]; [|discriminate];
        destruct (_write_json _ _ _) as [[?|?] ?]; [|discriminate];
        destruct (_update_manifest run_id _ _) as [[?|?] ?]; [|discriminate];
        now injection H as <- _).
  subst dir.
  destruct (save_inv _ _ _ _ _ _ _ H) as (s1 & s2 & s3 & p & E1 & E2 & E3 & E4).
  destruct (save_arrays_ok _ _ _ _ _ _ E2) as (Hp & Hh2 & _).
  destruct (write_file_ok _ _ _ _ _ E3) as (Hmeta & Hother & Hh3).
  destruct (update_manifest_runs _ _ _ _ E4) as (Hruns & Hh4).
  assert (Hnode : forall name, node_at run_id name s' = node_at run_id name s3)
    by (intros name; unfold node_at, files_of; now rewrite Hruns).
  assert (Hh1 : same_host s s1).
  { unfold mkdir_run in E1.
    destruct (dict_get String.eqb run_id (runs_dir s)) as [[|fs]|];
      try discriminate; injection E1 as <-; split; reflexivity. }
  assert (Hhost : same_host s1 s').
  { destruct Hh2 as [A1 A2], Hh3 as [B1 B2], Hh4 as [C1 C2]. split; congruence. }
  destruct (node_at_inv _ _ _ _ (eq_trans (Hnode _) Hmeta)) as (fs' & Hf' & Hg').
  unfold save.
  assert (Em : mkdir_run run_id s' = (Ok tt, s')).
  { unfold mkdir_run. unfold files_of in Hf'.
    destruct (dict_get String.eqb run_id (runs_dir s')) as [[|fs'']|];
      try discriminate. reflexivity. }
  rewrite Em.
  rewrite (save_arrays_again _ _ _ _ _ _ E2 s' Hhost);
    [|rewrite Hnode; apply Hother; exact Hp].
  cbv zeta. fold (enriched run_id fmt p metadata).
  rewrite (write_json_run _ _ _ _ _ Hf').
  rewrite write_file_again; [|rewrite Hnode; exact Hmeta|reflexivity].
  now rewrite (update_manifest_again _ _ _ _ E4).
Qed.
End SaveAgain.

Lemma save_idempotent_witness :
  save "a" tt [("timestamp", JStr "2024-01-01"); ("tags", JList [JStr "x"])] "npz"
       store_with_a = (Ok "a", store_with_a).
Proof.
  apply (save_idempotent "a" tt
           [("timestamp", JStr "2024-01-01"); ("tags", JList [JStr "x"])]
           "npz" empty_store store_with_a "a").
  reflexivity.
Defined.

(** ** The sweep enumerator: counts, seeds, errors *)

Lemma nested_loops_length (axes : list (key * list value)) :
  List.length (nested_loops axes) = grid_size (map snd axes).
Proof.
  induction axes as [|[k vs] axes IH]; simpl; auto.
  rewrite <- IH. clear IH. induction vs as [|v vs IHv]; simpl; auto.
  now rewrite length_app, length_map, IHv.
Qed.

Lemma nested_loops_in (axes : list (key * list value)) (c : list (key * value)) :
  In c (nested_loops axes) <->
  Forall2 (fun kv ax => fst kv = fst ax /\ In (snd kv) (snd ax)) c axes.
Proof.
  revert c. induction axes as [|[k vs] axes IH]; intros c; simpl.
  - split.
    + intros [<-|[]]. constructor.
    + intros H. inversion H. now left.
  - rewrite in_flat_map. split.
    + intros (v & Hv & Hc). apply in_map_iff in Hc as (c' & <- & Hc').
      constructor; [simpl; auto|]. now apply IH.
    + intros H. inversion H as [|[k' v] ax c' axes' [Hk Hv] Hrest]; subst.
      simpl in *. subst k'. exists v. split; auto.
      apply in_map. now apply IH.
Qed.

Lemma nested_loops_NoDup (axes : list (key * list value)) :
  Forall (fun ax => NoDup (snd ax)) axes -> NoDup (nested_loops axes).
Proof.
  induction 1 as [|[k vs] axes Hvs _ IH]; simpl.
  - constructor; [intros []|constructor].
  - simpl in Hvs. induction Hvs as [|v vs Hv _ IHv]; simpl; [constructor|].
    apply NoDup_app; auto.
    + clear - IH. induction IH as [|c cs Hc _ IHc]; simpl; constructor; auto.
      intros Hin. apply in_map_iff in Hin as (c' & E & Hc').
      injection E as ->. auto.
    + intros c Hc Hc'. apply in_map_iff in Hc as (c1 & <- & _).
      apply in_flat_map in Hc' as (v' & Hv' & Hc').
      apply in_map_iff in Hc' as (c2 & E & _). injection E as -> _. auto.
Qed.

Lemma combine_axes (keys : list key) (pools : list (list value))
    (c : list (key * value)) :
  List.length keys = List.length pools ->
  Forall2 (fun kv ax => fst kv = fst ax /\ In (snd kv) (snd ax)) c
          (combine keys pools) <->
  map fst c = keys /\ Forall2 (fun kv pool => In (snd kv) pool) c pools.
Proof.
  revert pools c. induction keys as [|k ks IH]; intros [|p ps] c E;
    try discriminate; simpl.
  - split.
    + intros H. inversion H. split; constructor.
    + intros [_ H]. inversion H. constructor.
  - injection E as E. split.
    + intros H. inversion H as [|[k' v] ax c' l' [Hk Hv] Hrest]; subst.
      apply IH in Hrest as [<- Hf]; auto. simpl in *. subst k'.
      split; auto.
    + intros [Hk Hf]. inversion Hf as [|[k' v] p' c' ps' Hv Hrest]; subst.
      simpl in Hk. injection Hk as -> Hk. constructor; [simpl; auto|].
      apply IH; auto.
Qed.

(** X11.  [expand_grid] returns the Cartesian product of the axes, no more and no
    less: as many combinations as the product of the axis lengths; a
    dictionary is one of them exactly when it has the grid's keys in the
    grid's order and gives each a value of its axis; and none comes twice
    when no axis lists a value twice. *)
Theorem expand_grid_cartesian (d : list (key * value)) (pools : list (list value)) :
  keys_distinct (map fst d) = true ->
  mapM (fun kv => py_list (snd kv)) d = Some pools ->
  exists combos,
    expand_grid (VDict d) = Some (map VDict combos) /\
    List.length combos = grid_size pools /\
    (forall c, In c combos <->
               map fst c = map fst d /\
               Forall2 (fun kv pool => In (snd kv) pool) c pools) /\
    (Forall (fun pool => NoDup pool) pools -> NoDup combos).
Proof.
  intros Hk Hp. exists (nested_loops (combine (map fst d) pools)).
  assert (Hlen : List.length (map fst d) = List.length pools)
    by (rewrite length_map; symmetry; eapply mapM_length; eauto).
  assert (Hsnd : map snd (combine (map fst d) pools) = pools).
  { clear - Hlen. revert Hlen. generalize (map fst d) as ks.
    induction pools as [|p ps IH]; intros [|k ks] E; try discriminate; auto.
    simpl. f_equal. apply IH. now injection E. }
  split; [now apply expand_grid_nested|]. split; [|split].
  - now rewrite nested_loops_length, Hsnd.
  - intros c. rewrite nested_loops_in. now apply combine_axes.
  - intros Hnd. apply nested_loops_NoDup.
    rewrite <- Hsnd in Hnd.
    exact (proj1 (Forall_map snd (fun pool => NoDup pool) _) Hnd).
Qed.

Lemma expand_grid_cartesian_witness :
  exists combos,
    expand_grid (VDict [ (KStr "a", VList [VInt 1; VInt 2]);
                         (KStr "b", VStr "xy") ]) = Some (map VDict combos) /\
    List.length combos =
      grid_size [[VInt 1; VInt 2]; [VStr "x"; VStr "y"]] /\
    (forall c, In c combos <->
               map fst c = map fst [ (KStr "a", VList [VInt 1; VInt 2]);
                                     (KStr "b", VStr "xy") ] /\
               Forall2 (fun kv pool => In (snd kv) pool) c
                       [[VInt 1; VInt 2]; [VStr "x"; VStr "y"]]) /\
    (Forall (fun pool => NoDup pool) [[VInt 1; VInt 2]; [VStr "x"; VStr "y"]] ->
     NoDup combos).
Proof.
  apply (expand_grid_cartesian
           [ (KStr "a", VList [VInt 1; VInt 2]); (KStr "b", VStr "xy") ]
           [[VInt 1; VInt 2]; [VStr "x"; VStr "y"]]); reflexivity.
Defined.

Lemma grid_size_empty_axis (pools : list (list value)) :
  In [] pools -> grid_size pools = 0%nat.
Proof.
  induction pools as [|p ps IH]; simpl; [intros []|].
  intros [->|H]; [reflexivity|]. rewrite IH by exact H. apply Nat.mul_0_r.
Qed.

Lemma length_pairs {A B : Type} (combos : list A) (seeds : list B) :
  List.length (flat_map (fun c => map (fun seed => (c, seed)) seeds) combos) =
  (List.length combos * List.length seeds)%nat.
Proof.
  induction combos as [|c combos IH]; simpl; auto.
  now rewrite length_app, length_map, IH.
Qed.

(** X12.  A sweep over a grid with parameter axes and a list of seeds yields as
    many pairs as the product of the axis lengths times the number of
    seeds.  So one empty axis, or an empty list of seeds, makes the whole
    sweep empty. *)
Theorem iter_sweep_count (g d : list (key * value)) (pools : list (list value))
    (sv : value) (seeds : list value) :
  dict_get key_eqb (KStr "params") g = Some (VDict d) -> d <> [] ->
  keys_distinct (map fst d) = true ->
  mapM (fun kv => py_list (snd kv)) d = Some pools ->
  dict_get key_eqb (KStr "seeds") g = Some sv -> py_list sv = Some seeds ->
  exists sweep,
    iter_sweep (VDict g) = Some sweep /\
    List.length sweep = (grid_size pools * List.length seeds)%nat /\
    (In [] pools \/ seeds = [] -> sweep = []).
Proof.
  intros Hp Hd Hk Hpools Hs Hseeds.
  unfold iter_sweep. cbn [as_mapping]. rewrite Hp.
  replace (is_true (VDict d)) with true by (destruct d; [congruence|reflexivity]).
  rewrite (expand_grid_nested d pools Hk Hpools).
  unfold dict_mem. rewrite Hs, Hseeds.
  eexists. split; [reflexivity|].
  assert (Hlen : List.length
                   (flat_map (fun params => map (fun seed => (params, seed)) seeds)
                      (map VDict (nested_loops (combine (map fst d) pools)))) =
                 (grid_size pools * List.length seeds)%nat).
  { rewrite length_pairs, length_map, nested_loops_length. f_equal. f_equal.
    assert (E : List.length (map fst d) = List.length pools)
      by (rewrite length_map; symmetry; eapply mapM_length; eauto).
    clear - E. revert E. generalize (map fst d) as ks.
    induction pools as [|p ps IH]; intros [|k ks] E; try discriminate; auto.
    simpl. f_equal. apply IH. now injection E. }
  split; [exact Hlen|].
  intros H. apply length_zero_iff_nil. rewrite Hlen.
  destruct H as [H| ->]; [rewrite grid_size_empty_axis; auto|simpl; lia].
Qed.

Lemma iter_sweep_count_witness :
  exists sweep,
    iter_sweep (VDict [ (KStr "params",
                         VDict [ (KStr "a", VList [VInt 1; VInt 2]);
                                 (KStr "b", VList []) ]);
                        (KStr "seeds", VList [VInt 0; VInt 1]) ]) = Some sweep /\
    List.length sweep =
      (grid_size [[VInt 1; VInt 2]; []] * List.length [VInt 0; VInt 1])%nat /\
    (In [] [[VInt 1; VInt 2]; []] \/ [VInt 0; VInt 1] = [] -> sweep = []).
Proof.
  apply (iter_sweep_count
           [ (KStr "params",
              VDict [ (KStr "a", VList [VInt 1; VInt 2]); (KStr "b", VList []) ]);
             (KStr "seeds", VList [VInt 0; VInt 1]) ]
           [ (KStr "a", VList [VInt 1; VInt 2]); (KStr "b", VList []) ]
           [[VInt 1; VInt 2]; []]
           (VList [VInt 0; VInt 1]) [VInt 0; VInt 1]);
    try reflexivity.
  discriminate.
Defined.

(** Assigning a string key leaves the other string keys as they were. *)
Lemma key_get_set_other (a b : string) (v : value) (d : list (key * value)) :
  a <> b ->
  dict_get key_eqb (KStr a) (dict_set key_eqb (KStr b) v d) =
  dict_get key_eqb (KStr a) d.
Proof.
  intros Hne. apply String.eqb_neq in Hne.
  induction d as [|[k' v'] d IH]; simpl.
  - now rewrite Hne.
  - destruct k' as [s| | |]; simpl; try (now rewrite IH).
    destruct (String.eqb_spec b s) as [->|Hbs]; simpl.
    + now rewrite Hne.
    + now rewrite IH.
Qed.

Lemma key_get_set_same (b : string) (v : value) (d : list (key * value)) :
  dict_get key_eqb (KStr b) (dict_set key_eqb (KStr b) v d) = Some v.
Proof.
  induction d as [|[k' v'] d IH]; simpl.
  - now rewrite String.eqb_refl.
  - destruct k' as [s| | |]; simpl; auto.
    destruct (String.eqb b s) eqn:E; simpl; now rewrite E.
Qed.

(** X13.  When the grid has a [seeds] entry, its [seed] entry is not looked at:
    adding one, or changing it, leaves the sweep as it is. *)
Theorem iter_sweep_seeds_precedence (g : list (key * value)) (x : value) :
  dict_mem key_eqb (KStr "seeds") g = true ->
  iter_sweep (VDict (dict_set key_eqb (KStr "seed") x g)) = iter_sweep (VDict g).
Proof.
  intros H. unfold iter_sweep, dict_mem in *. cbn [as_mapping] in *.
  rewrite !key_get_set_other by discriminate.
  destruct (dict_get key_eqb (KStr "seeds") g); [reflexivity|discriminate].
Qed.

Lemma iter_sweep_seeds_precedence_witness :
  iter_sweep (VDict (dict_set key_eqb (KStr "seed") (VInt 7)
                       [(KStr "seeds", VList [VInt 1; VInt 2])])) =
  iter_sweep (VDict [(KStr "seeds", VList [VInt 1; VInt 2])]).
Proof.
  apply (iter_sweep_seeds_precedence [(KStr "seeds", VList [VInt 1; VInt 2])]
           (VInt 7)).
  reflexivity.
Defined.

(** X14.  Without [seeds], a [seed] entry stands for the one seed of the sweep,
    taken as it is (a list is not iterated): the sweep is the one the grid
    gives without it, with the default seed 0 replaced by the entry. *)
Theorem iter_sweep_single_seed (g : list (key * value)) (sv : value) :
  dict_mem key_eqb (KStr "seeds") g = false ->
  dict_mem key_eqb (KStr "seed") g = false ->
  iter_sweep (VDict (dict_set key_eqb (KStr "seed") sv g)) =
  option_map (map (fun ps => (fst ps, sv))) (iter_sweep (VDict g)).
Proof.
  intros H1 H2. unfold iter_sweep, dict_mem in *. cbn [as_mapping] in *.
  rewrite !key_get_set_other by discriminate. rewrite key_get_set_same.
  destruct (dict_get key_eqb (KStr "seeds") g); [discriminate|].
  destruct (dict_get key_eqb (KStr "seed") g); [discriminate|].
  destruct (if is_true _ then _ else _) as [combos|]; [|reflexivity].
  simpl. f_equal. induction combos as [|c combos IH]; simpl; auto.
  now rewrite IH.
Qed.

Lemma iter_sweep_single_seed_witness :
  iter_sweep (VDict (dict_set key_eqb (KStr "seed") (VList [VInt 1; VInt 2])
                       [(KStr "params", VDict [(KStr "a", VList [VInt 5])])])) =
  option_map (map (fun ps => (fst ps, VList [VInt 1; VInt 2])))
    (iter_sweep (VDict [(KStr "params", VDict [(KStr "a", VList [VInt 5])])])).
Proof.
  apply (iter_sweep_single_seed
           [(KStr "params", VDict [(KStr "a", VList [VInt 5])])]
           (VList [VInt 1; VInt 2])); reflexivity.
Defined.

Lemma mapM_None_In {A B : Type} (f : A -> option B) (l : list A) (x : A) :
  In x l -> f x = None -> mapM f l = None.
Proof.
  induction l as [|y l IH]; simpl; [intros []|].
  intros [->|H] Hx.
  - now rewrite Hx.
  - rewrite IH; auto. now destruct (f y).
Qed.

(** X15.  What makes a sweep raise: a [seeds] entry that cannot be iterated, a
    [params] entry that is not empty and not a dictionary (nor another
    mapping), or an axis that cannot be iterated. *)
Theorem iter_sweep_raises (g : list (key * value)) :
  (exists sv, dict_get key_eqb (KStr "seeds") g = Some sv /\ py_list sv = None) \/
  (exists p, dict_get key_eqb (KStr "params") g = Some p /\ is_true p = true /\
             as_mapping p = None) \/
  (exists d k axis,
     dict_get key_eqb (KStr "params") g = Some (VDict d) /\
     keys_distinct (map fst d) = true /\
     In (k, axis) d /\ py_list axis = None) ->
  iter_sweep (VDict g) = None.
Proof.
  unfold iter_sweep, dict_mem. cbn [as_mapping].
  intros [(sv & Hs & Hsv)|[(p & Hp & Ht & Hd)|(d & k & axis & Hp & Hk & Hin & Hax)]].
  - rewrite Hs, Hsv. now destruct (if is_true _ then _ else _).
  - rewrite Hp, Ht. unfold expand_grid. now rewrite Hd.
  - rewrite Hp.
    replace (is_true (VDict d)) with true by (destruct d; [destruct Hin|reflexivity]).
    unfold expand_grid. cbn [as_mapping]. rewrite grid_axes by exact Hk.
    now rewrite (mapM_None_In _ d (k, axis) Hin Hax).
Qed.

Lemma iter_sweep_raises_witness :
  iter_sweep (VDict [ (KStr "params", VDict [(KStr "a", VInt 3)]) ]) = None.
Proof.
  apply (iter_sweep_raises [ (KStr "params", VDict [(KStr "a", VInt 3)]) ]).
  right. right. exists [(KStr "a", VInt 3)], (KStr "a"), (VInt 3).
  repeat split; simpl; auto.
Defined.

(** ** Parameter files, simulation results, metadata *)

Lemma lower_char_idem (c : ascii) : lower_char (lower_char c) = lower_char c.
Proof. destruct c as [[] [] [] [] [] [] [] []]; reflexivity. Qed.

Lemma lower_idem (s : string) : lower (lower s) = lower s.
Proof. induction s as [|c s IH]; simpl; auto. now rewrite lower_char_idem, IH. Qed.

(** X16.  What [load_params_file] raises before it opens the file: [ValueError]
    for a suffix other than [.json], [.yml], [.yaml], and [RuntimeError] for
    a YAML suffix when PyYAML is missing; both whether or not the file
    exists.  The suffix counts without its case. *)
Theorem load_params_file_errors (yaml_installed : bool) (suffix : string)
    (file : option (option value)) :
  (lower suffix <> ".json" -> lower suffix <> ".yml" -> lower suffix <> ".yaml" ->
   load_params_file yaml_installed suffix file = Raise ValueError) /\
  (lower suffix = ".yml" \/ lower suffix = ".yaml" -> yaml_installed = false ->
   load_params_file yaml_installed suffix file = Raise RuntimeError) /\
  load_params_file yaml_installed (lower suffix) file =
  load_params_file yaml_installed suffix file.
Proof.
  unfold load_params_file. repeat split.
  - intros H1 H2 H3. apply String.eqb_neq in H1, H2, H3. now rewrite H1, H2, H3.
  - intros [H|H] ->; rewrite H; reflexivity.
  - now rewrite lower_idem.
Qed.

Lemma load_params_file_errors_witness :
  load_params_file true ".TXT" None = Raise ValueError /\
  load_params_file false ".YAML" None = Raise RuntimeError.
Proof.
  split.
  - apply (proj1 (load_params_file_errors true ".TXT" None)); discriminate.
  - apply (proj1 (proj2 (load_params_file_errors false ".YAML" None)));
      [right|]; reflexivity.
Defined.

Lemma falsy_or_else (v : value) :
  is_true (if is_true v then v else VDict []) = false ->
  (if is_true v then v else VDict []) = VDict [].
Proof. destruct (is_true v) eqn:E; [congruence|reflexivity]. Qed.

(** X17.  The mapping [_load_mapping] returns is never [None] or another empty
    value than [{}]: a file that parses to [null], to [false], to zero or to
    an empty string, list or mapping gives [{}], as does a path that was not
    given.  A sweep over such a grid yields the one pair of no parameters
    and seed 0. *)
Theorem load_mapping_never_falsy (yaml_installed : bool)
    (suffix_of : string -> string) (files : string -> option (option value))
    (path : option string) (g : value) :
  _load_mapping yaml_installed suffix_of files path = Ok g ->
  is_true g = false ->
  g = VDict [] /\ iter_sweep g = Some [(VDict [], VInt 0)].
Proof.
  intros H Hf.
  enough (E : g = VDict []) by (subst g; split; reflexivity).
  unfold _load_mapping in H.
  destruct path as [p|]; [|now injection H as <-].
  destruct (String.eqb p ""); [now injection H as <-|].
  unfold load_params_file in H.
  destruct (String.eqb (lower (suffix_of p)) ".json").
  { destruct (files p) as [[v|]|]; try discriminate.
    injection H as <-. now apply falsy_or_else. }
  destruct (String.eqb _ ".yml" || String.eqb _ ".yaml"); [|discriminate].
  destruct (negb yaml_installed); [discriminate|].
  destruct (files p) as [[v|]|]; try discriminate.
  injection H as <-. now apply falsy_or_else.
Qed.

Lemma load_mapping_never_falsy_witness :
  VDict [] = VDict [] /\ iter_sweep (VDict []) = Some [(VDict [], VInt 0)].
Proof.
  apply (load_mapping_never_falsy true (fun _ => ".json")
           (fun _ => Some (Some VNone)) (Some "grid.json") (VDict []));
    reflexivity.
Defined.

(** X18.  [_normalize_result] accepts a dictionary, which it pairs with an empty
    metadata dictionary, and a tuple of exactly two dictionaries; for
    anything else (a list of two dictionaries, a tuple of three) it raises
    [TypeError]. *)
Theorem normalize_result_ok (r : value) :
  (forall a e, _normalize_result r = Ok (a, e) <->
               (r = VDict a /\ e = []) \/ r = VTuple [VDict a; VDict e]) /\
  ((exists ae, _normalize_result r = Ok ae) \/
   _normalize_result r = Raise TypeError).
Proof.
  split.
  - intros a e. split.
    + unfold _normalize_result. intros H.
      destruct r as [ | | | | | |l| |d| ]; try discriminate.
      * destruct l as [|x [|y [|z l]]]; try discriminate.
        destruct x; try discriminate. destruct y; try discriminate.
        injection H as <- <-. now right.
      * injection H as <- <-. now left.
    + intros [[-> ->]| ->]; reflexivity.
  - unfold _normalize_result.
    destruct r as [ | | | | | |l| |d| ]; eauto.
    destruct l as [|x [|y [|z l]]]; eauto.
    destruct x; eauto. destruct y; eauto.
Qed.

Lemma normalize_result_ok_witness :
  _normalize_result (VTuple [VDict [(KStr "x", VInt 1)]; VDict []]) =
  Ok ([(KStr "x", VInt 1)], []).
Proof.
  apply (proj1 (normalize_result_ok
                  (VTuple [VDict [(KStr "x", VInt 1)]; VDict []]))).
  right. reflexivity.
Defined.

(** *** [build_metadata] *)

Lemma sorted_set_sorted (l : list string) :
  StronglySorted (fun a b => String.ltb a b = true) (sorted_set l).
Proof.
  unfold sorted_set.
  assert (Hs : StronglySorted (not_after (fun x : string => x))
                 (sorted_t String.ltb (nodup string_dec l)))
    by apply (sorted_t_sorted (fun x : string => x)).
  assert (Hn : NoDup (sorted_t String.ltb (nodup string_dec l)))
    by (eapply Permutation_NoDup; [apply sorted_t_perm|apply NoDup_nodup]).
  induction Hs as [|x t Ht IH Hx]; constructor.
  - apply IH. now inversion Hn.
  - inversion Hn as [|? ? Hnx _]; subst.
    rewrite Forall_forall in *. intros y Hy.
    specialize (Hx y Hy). unfold not_after in Hx.
    destruct (ltb_total x y) as [->|[H|H]]; [contradiction|exact H|congruence].
Qed.

Lemma sorted_set_in (l : list string) (t : string) :
  In t (sorted_set l) <-> In t l.
Proof.
  unfold sorted_set. rewrite <- (nodup_In string_dec l t). split.
  - apply Permutation_in. symmetry. apply sorted_t_perm.
  - apply Permutation_in. apply sorted_t_perm.
Qed.

Lemma strictly_sorted_ext (r r' : list string) :
  StronglySorted (fun a b => String.ltb a b = true) r ->
  StronglySorted (fun a b => String.ltb a b = true) r' ->
  (forall t, In t r <-> In t r') -> r = r'.
Proof.
  intros Hr. revert r'. induction Hr as [|x t Ht IH Hx]; intros r' Hr' E.
  - destruct r' as [|y t']; auto. destruct (proj2 (E y)). now left.
  - destruct r' as [|y t']; [destruct (proj1 (E x)); now left|].
    inversion Hr' as [|? ? Ht' Hy]; subst.
    rewrite Forall_forall in Hx, Hy.
    assert (Exy : x = y).
    { destruct (proj1 (E x) (or_introl eq_refl)) as [H|H]; auto.
      destruct (proj2 (E y) (or_introl eq_refl)) as [H'|H']; auto.
      pose proof (ltb_asym _ _ (Hx _ H')) as A. rewrite (Hy _ H) in A.
      discriminate. }
    subst y. f_equal. apply IH; auto. intros u. split; intros Hu.
    + destruct (proj1 (E u) (or_intror Hu)) as [<-|H]; auto.
      pose proof (Hx _ Hu) as A. rewrite ltb_irrefl in A. discriminate.
    + destruct (proj2 (E u) (or_intror Hu)) as [<-|H]; auto.
      pose proof (Hy _ Hu) as A. rewrite ltb_irrefl in A. discriminate.
Qed.

(** X19.  The [tags] field of the metadata lists the tags given in strictly
    increasing order: each once, none missing, none added.  The metadata
    depends on the set of tags only, not on their order or on repetitions,
    nor on the order in which the set is iterated. *)
Theorem build_metadata_tags (now : string) (params : json) (seed : Z)
    (code_version : option string) (env : json) (l : list string)
    (plot_config : option json) :
  (exists ts,
     get "tags" (build_metadata now params seed code_version env (TagsIter l)
                   plot_config None) = Some (JList (map JStr ts)) /\
     StronglySorted (fun a b => String.ltb a b = true) ts /\
     forall t, In t ts <-> In t l) /\
  (forall l' extra,
     (forall t, In t l' <-> In t l) ->
     build_metadata now params seed code_version env (TagsIter l') plot_config extra =
     build_metadata now params seed code_version env (TagsIter l) plot_config extra).
Proof.
  split.
  - exists (sorted_set l). split; [|split].
    + unfold build_metadata. destruct plot_config; reflexivity.
    + apply sorted_set_sorted.
    + apply sorted_set_in.
  - intros l' extra E.
    assert (Es : sorted_set l' = sorted_set l).
    { apply strictly_sorted_ext; try apply sorted_set_sorted.
      intros t. now rewrite !sorted_set_in. }
    unfold build_metadata. now rewrite Es.
Qed.

Lemma update_get (k : string) (extra d : pydict) :
  distinct (map fst extra) = true ->
  get k (update d extra) =
  match get k extra with Some v => Some v | None => get k d end.
Proof.
  unfold update, get, set. revert d.
  induction extra as [|[k1 v1] extra IH]; intros d Hd; simpl in *; auto.
  apply andb_true_iff in Hd as [Hk Hd]. rewrite IH by exact Hd.
  destruct (String.eqb_spec k k1) as [->|Hne].
  - rewrite get_set_same.
    destruct (dict_get String.eqb k1 extra) as [v|] eqn:E; auto.
    apply negb_true_iff in Hk.
    assert (existsb (String.eqb k1) (map fst extra) = true); [|congruence].
    apply existsb_exists. exists k1. split; [|apply String.eqb_refl].
    clear - E. induction extra as [|[k' v'] extra IH]; simpl in *; [discriminate|].
    destruct (String.eqb_spec k1 k') as [->|]; auto.
  - now rewrite get_set_other.
Qed.

(** X20.  The fields of [extra] are written over the metadata: a key of [extra]
    has the value [extra] gives it, also [timestamp], [tags] and the other
    fields [build_metadata] sets itself; every other key is as without
    [extra]. *)
Theorem build_metadata_extra (now : string) (params : json) (seed : Z)
    (code_version : option string) (env : json) (tags : tags_arg)
    (plot_config : option json) (extra : pydict) (k : string) :
  distinct (map fst extra) = true ->
  get k (build_metadata now params seed code_version env tags plot_config
           (Some extra)) =
  match get k extra with
  | Some v => Some v
  | None => get k (build_metadata now params seed code_version env tags
                     plot_config None)
  end.
Proof.
  intros Hd. unfold build_metadata.
  destruct extra as [|kv more]; [reflexivity|].
  now apply update_get.
Qed.

Lemma build_metadata_extra_witness :
  get "timestamp"
      (build_metadata "2024-01-01" (JObj []) 0 None (JObj []) TagsNone None
         (Some [("timestamp", JNull); ("loss", JInt 3)])) =
  match get "timestamp" [("timestamp", JNull); ("loss", JInt 3)] with
  | Some v => Some v
  | None => get "timestamp"
              (build_metadata "2024-01-01" (JObj []) 0 None (JObj []) TagsNone
                 None None)
  end.
Proof.
  apply (build_metadata_extra "2024-01-01" (JObj []) 0 None (JObj []) TagsNone
           None [("timestamp", JNull); ("loss", JInt 3)] "timestamp").
  reflexivity.
Defined.

Lemma build_metadata_tags_witness :
  build_metadata "2024-01-01" (JObj []) 0 None (JObj []) (TagsIter ["a"; "b"])
                 None None =
  build_metadata "2024-01-01" (JObj []) 0 None (JObj []) (TagsIter ["b"; "a"; "b"])
                 None None.
Proof.
  apply (proj2 (build_metadata_tags "2024-01-01" (JObj []) 0 None (JObj [])
                  ["b"; "a"; "b"] None) ["a"; "b"] None).
  intros t. simpl. tauto.
Defined.

(** ** Normal forms and identifiers *)

Lemma dict_set_keys_NoDup {V : Type} (k : string) (v : V) (d : list (string * V)) :
  NoDup (map fst d) -> NoDup (map fst (dict_set String.eqb k v d)).
Proof.
  induction d as [|[k' v'] d IH]; simpl; intros H.
  - constructor; [intros []|constructor].
  - inversion H as [|? ? Hk Hd]; subst.
    destruct (String.eqb_spec k k') as [->|Hne]; simpl; [now constructor|].
    constructor; auto. intros Hin. apply Hk.
    clear - Hin Hne. induction d as [|[k1 v1] d IH]; simpl in *.
    + destruct Hin as [->|[]]. congruence.
    + destruct (String.eqb_spec k k1) as [->|Hne1]; simpl in *; tauto.
Qed.

Lemma dict_set_Forall {V : Type} (P : V -> Prop) (k : string) (v : V)
    (d : list (string * V)) :
  Forall (fun kv => P (snd kv)) d -> P v ->
  Forall (fun kv => P (snd kv)) (dict_set String.eqb k v d).
Proof.
  induction 1 as [|[k' v'] d Hk Hd IH]; simpl; intros Hv.
  - now constructor.
  - destruct (String.eqb k k'); constructor; simpl in *; auto.
Qed.

Lemma dict_of_items_wf {V : Type} (P : V -> Prop) (items : list (string * V)) :
  Forall (fun kv => P (snd kv)) items ->
  NoDup (map fst (dict_of_items String.eqb items)) /\
  Forall (fun kv => P (snd kv)) (dict_of_items String.eqb items).
Proof.
  unfold dict_of_items.
  enough (H : forall acc,
            NoDup (map fst acc) -> Forall (fun kv => P (snd kv)) acc ->
            Forall (fun kv => P (snd kv)) items ->
            NoDup (map fst (fold_left
                     (fun acc kv => dict_set String.eqb (fst kv) (snd kv) acc)
                     items acc)) /\
            Forall (fun kv => P (snd kv))
                   (fold_left
                     (fun acc kv => dict_set String.eqb (fst kv) (snd kv) acc)
                     items acc))
    by (intros; apply H; auto; constructor).
  induction items as [|[k v] items IH]; simpl; intros acc Hn Ha Hi; auto.
  inversion Hi; subst. apply IH; auto.
  - now apply dict_set_keys_NoDup.
  - now apply dict_set_Forall.
Qed.

Lemma forallb_Forall {A : Type} (f : A -> bool) (l : list A) :
  forallb f l = true <-> Forall (fun x => f x = true) l.
Proof. rewrite forallb_forall, Forall_forall. reflexivity. Qed.

(** In what [_normalize] returns no object has two fields of one key. *)
Lemma normalize_wf (v : value) : forall j, _normalize v = Some j -> wf_json j = true.
Proof.
  assert (Hlist : forall l,
            Forall (fun x => forall j, _normalize x = Some j -> wf_json j = true) l ->
            forall js, mapM _normalize l = Some js ->
                       Forall (fun j => wf_json j = true) js).
  { intros l IH js H. apply mapM_Some in H.
    induction H as [|x j l js Hx _ IHl]; constructor; inversion IH; subst; auto. }
  induction v as [|b|z|s|s|l IH|l IH|l IH|d IH|o i m] using value_rect'; intros j H;
    try (injection H as <-; reflexivity).
  - rewrite normalize_list in H.
    destruct (mapM _normalize l) as [js|] eqn:E; [|discriminate].
    injection H as <-. simpl. apply forallb_Forall. eauto.
  - rewrite normalize_tuple in H.
    destruct (mapM _normalize l) as [js|] eqn:E; [|discriminate].
    injection H as <-. simpl. apply forallb_Forall. eauto.
  - rewrite normalize_set in H.
    destruct (mapM _normalize l) as [js|] eqn:E; [|discriminate].
    destruct (sorted py_lt js) as [js'|] eqn:Es; [|discriminate].
    injection H as <-. simpl. apply forallb_Forall.
    eapply Permutation_Forall; [eapply sorted_perm; eauto|]. eauto.
  - rewrite normalize_dict in H.
    destruct (mapM norm_item d) as [items|] eqn:E; [|discriminate].
    injection H as <-. simpl.
    assert (Hi : Forall (fun kv => wf_json (snd kv) = true) items).
    { apply mapM_Some in E. clear - E IH.
      induction E as [|[k x] [k' j] d items Hx _ IHd]; constructor;
        inversion IH; subst; auto.
      unfold norm_item in Hx. simpl in *.
      destruct (_normalize x) as [j'|] eqn:Ej; [|discriminate].
      injection Hx as _ <-. auto. }
    destruct (dict_of_items_wf (fun j => wf_json j = true) items Hi) as [Hn Hf].
    apply andb_true_iff. split; [now apply distinct_NoDup|].
    now apply forallb_Forall.
Qed.

(** A document read from JSON whose objects have distinct keys is its own
    normal form. *)
Lemma normalize_json (j : json) :
  wf_json j = true -> _normalize (value_of_json j) = Some j.
Proof.
  induction j as [|b|z|s|l IH|d IH] using json_rect'; intros Hwf; try reflexivity.
  - cbn [value_of_json]. rewrite normalize_list.
    enough (E : mapM _normalize (map value_of_json l) = Some l) by now rewrite E.
    simpl in Hwf. apply forallb_Forall in Hwf.
    induction IH as [|x l Hx _ IHl]; simpl; auto.
    inversion Hwf; subst. now rewrite Hx, IHl.
  - cbn [value_of_json]. rewrite normalize_dict.
    simpl in Hwf. apply andb_true_iff in Hwf as [Hd Hf].
    apply forallb_Forall in Hf. apply distinct_NoDup in Hd.
    enough (E : mapM norm_item
                  (map (fun kv => (KStr (fst kv), value_of_json (snd kv))) d) = Some d)
      by (rewrite E; simpl; now rewrite dict_of_items_distinct).
    clear Hd. induction IH as [|[k x] d Hx _ IHd]; simpl; auto.
    inversion Hf; subst. unfold norm_item at 1. simpl in *.
    now rewrite Hx, IHd.
Qed.

Lemma wf_sort_keys (j : json) : wf_json j = true -> wf_json (sort_keys j) = true.
Proof.
  induction j as [|b|z|s|l IH|d IH] using json_rect'; intros Hwf; auto.
  - simpl in *. apply forallb_Forall. apply forallb_Forall in Hwf.
    apply Forall_map. rewrite Forall_forall in *. auto.
  - simpl in *. apply andb_true_iff in Hwf as [Hd Hf].
    apply forallb_Forall in Hf. apply distinct_NoDup in Hd.
    pose proof (sorted_t_perm key_ltb
                  (map (fun kv => (fst kv, sort_keys (snd kv))) d)) as Hp.
    apply andb_true_iff. split.
    + apply distinct_NoDup.
      eapply Permutation_NoDup; [apply Permutation_map, Hp|].
      now rewrite map_map, (map_ext _ fst) by reflexivity.
    + apply forallb_Forall. eapply Permutation_Forall; [exact Hp|].
      apply Forall_map. rewrite Forall_forall in *. simpl. auto.
Qed.

(** X21.  Normalizing twice is normalizing once: in what [_normalize] returns no
    object has two fields of one key, and [_normalize] returns it
    unchanged. *)
Theorem normalize_idempotent (v : value) (j : json) :
  _normalize v = Some j ->
  wf_json j = true /\ _normalize (value_of_json j) = Some j.
Proof.
  intros H. pose proof (normalize_wf v j H) as Hwf.
  split; [exact Hwf|now apply normalize_json].
Qed.

Lemma normalize_idempotent_witness :
  wf_json (JObj [("1", JStr "b")]) = true /\
  _normalize (value_of_json (JObj [("1", JStr "b")])) = Some (JObj [("1", JStr "b")]).
Proof.
  apply (normalize_idempotent
           (VDict [(KInt 1, VStr "a"); (KStr "1", VStr "b")])).
  reflexivity.
Defined.

(** X22.  The identifier survives the trip through JSON: the normalized
    specification hashes to the identifier of the specification, and so does
    the document read back after it was written with sorted keys, as
    [_write_json] writes the metadata. *)
Theorem hash_spec_json_round_trip (v : value) (j : json) :
  _normalize v = Some j ->
  hash_spec (value_of_json j) = hash_spec v /\
  hash_spec (value_of_json (sort_keys j)) = hash_spec v.
Proof.
  intros H. pose proof (normalize_wf v j H) as Hwf.
  unfold hash_spec.
  rewrite H, (normalize_json j Hwf), (normalize_json _ (wf_sort_keys j Hwf)).
  unfold dumps. now rewrite sort_keys_idem.
Qed.

Lemma hash_spec_json_round_trip_witness :
  hash_spec (value_of_json (JObj [("b", JList [JInt 1; JInt 2]); ("a", JStr "p")])) =
  hash_spec (VDict [(KStr "b", VSet [VInt 2; VInt 1]); (KStr "a", VPath "p")]) /\
  hash_spec (value_of_json
               (sort_keys (JObj [("b", JList [JInt 1; JInt 2]); ("a", JStr "p")]))) =
  hash_spec (VDict [(KStr "b", VSet [VInt 2; VInt 1]); (KStr "a", VPath "p")]).
Proof.
  apply (hash_spec_json_round_trip
           (VDict [(KStr "b", VSet [VInt 2; VInt 1]); (KStr "a", VPath "p")])).
  reflexivity.
Defined.

(** X24.  A set of two elements whose normal forms [<] cannot compare, such as a
    number and a string, makes [_normalize] and so [hash_spec] raise, in
    whichever order the set is iterated. *)
Theorem hash_spec_unorderable_set (a b : value) (x y : json) :
  _normalize a = Some x -> _normalize b = Some y ->
  py_lt x y = None -> py_lt y x = None ->
  hash_spec (VSet [a; b]) = None /\ hash_spec (VSet [b; a]) = None.
Proof.
  intros Ha Hb Hxy Hyx. unfold hash_spec.
  rewrite !normalize_set. cbn [mapM]. rewrite Ha, Hb.
  unfold sorted. cbn [fold_left insort]. now rewrite Hxy, Hyx.
Qed.

Lemma hash_spec_unorderable_set_witness :
  hash_spec (VSet [VInt 1; VStr "a"]) = None /\
  hash_spec (VSet [VStr "a"; VInt 1]) = None.
Proof.
  apply (hash_spec_unorderable_set (VInt 1) (VStr "a") (JInt 1) (JStr "a"));
    reflexivity.
Defined.

(** ** The short identifier *)

Lemma escape_char_plain (c : ascii) :
  plain_char c = true -> escape_char false c = escape_char true c.
Proof.
  unfold plain_char, escape_char. cbv zeta. intros ->. reflexivity.
Qed.

Lemma escape_plain (s : string) :
  plain_str s = true -> escape false s = escape true s.
Proof.
  induction s as [|c s IH]; simpl; auto. intros H.
  apply andb_true_iff in H as [Hc Hs]. now rewrite escape_char_plain, IH.
Qed.

Lemma encode_plain (j : json) : plain j = true -> encode false j = encode true j.
Proof.
  induction j as [|b|z|s|l IH|d IH] using json_rect'; intros H; auto.
  - simpl in *. unfold encode_str. now rewrite escape_plain.
  - cbn [encode]. do 3 f_equal. simpl in H. apply forallb_Forall in H.
    apply map_ext_Forall. rewrite Forall_forall in *. auto.
  - cbn [encode]. do 3 f_equal. simpl in H. apply forallb_Forall in H.
    apply map_ext_Forall. rewrite Forall_forall in *. intros [k v] Hin.
    specialize (IH _ Hin). specialize (H _ Hin). simpl in *.
    apply andb_true_iff in H as [Hk Hv].
    unfold encode_str. now rewrite escape_plain, IH.
Qed.

Lemma plain_sort_keys (j : json) : plain j = true -> plain (sort_keys j) = true.
Proof.
  induction j as [|b|z|s|l IH|d IH] using json_rect'; intros H; auto.
  - simpl in *. apply forallb_Forall. apply forallb_Forall in H.
    apply Forall_map. rewrite Forall_forall in *. auto.
  - simpl in *. apply forallb_Forall. apply forallb_Forall in H.
    eapply Permutation_Forall; [apply sorted_t_perm|].
    apply Forall_map. rewrite Forall_forall in *. intros kv Hin.
    specialize (IH _ Hin). specialize (H _ Hin). simpl in *.
    apply andb_true_iff in H as [Hk Hv]. now rewrite Hk, IH.
Qed.

(** X25.  [make_run_id] returns 12 characters of [0-9a-f].  For a specification
    that is a JSON document already, with ASCII strings, they are the first
    12 characters of the identifier [hash_spec] gives it. *)
Theorem make_run_id_prefix (spec : json) :
  (String.length (make_run_id spec) = 12%nat /\
   Forall (fun c => is_lower_hex c = true)
          (list_ascii_of_string (make_run_id spec))) /\
  (plain spec = true -> wf_json spec = true ->
   exists h, hash_spec (value_of_json spec) = Some h /\
             make_run_id spec = String.substring 0 12 h).
Proof.
  split; [split|].
  - unfold make_run_id, _canonical_json. apply substring_length.
    pose proof (proj1 (hexdigest_shape (dumps false spec))) as H.
    unfold SHA256.hexdigest in H. rewrite H. lia.
  - change (make_run_id spec)
      with (String.substring 0 12 (SHA256.hexdigest (dumps false spec))).
    pose proof (proj2 (hexdigest_shape (dumps false spec))) as H.
    revert H. generalize (SHA256.hexdigest (dumps false spec)) as h.
    generalize 12%nat as n. intros n h. revert n.
    induction h as [|c h IH]; intros [|n] H; simpl; try constructor.
    + now inversion H.
    + apply IH. now inversion H.
  - intros Hp Hwf. unfold hash_spec. rewrite (normalize_json spec Hwf).
    eexists. split; [reflexivity|].
    change (make_run_id spec)
      with (String.substring 0 12 (SHA256.hexdigest (dumps false spec))).
    unfold dumps. now rewrite (encode_plain _ (plain_sort_keys spec Hp)).
Qed.

Lemma make_run_id_prefix_witness :
  exists h,
    hash_spec (value_of_json (JObj [("name", JStr "sim"); ("seed", JInt 3)])) =
      Some h /\
    make_run_id (JObj [("name", JStr "sim"); ("seed", JInt 3)]) =
      String.substring 0 12 h.
Proof.
  apply (proj2 (make_run_id_prefix (JObj [("name", JStr "sim"); ("seed", JInt 3)])));
    reflexivity.
Defined.

(** ** A manifest that cannot be read *)

Section ManifestBroken.
Context {ndarrays : Type} {named : Named ndarrays}.
Implicit Types (s : @store ndarrays).

Lemma load_written run_id (arrays : ndarrays) metadata fmt s1 s2 s3 p :
  _save_arrays fmt arrays run_id s1 = (Ok p, s2) ->
  write_file run_id "metadata.json"
    (TextFile (written (JObj (enriched run_id fmt p metadata)))) s2 = (Ok tt, s3) ->
  load run_id s3 =
  Ok (arrays, sort_keys (JObj (enriched run_id fmt p metadata))).
Proof.
  intros E2 E3.
  destruct (save_arrays_ok _ _ _ _ _ _ E2) as (Hp & Hh2 & Hload).
  destruct (write_file_ok _ _ _ _ _ E3) as (Hmeta & Hother & Hh3).
  unfold load. rewrite (read_json_at _ _ _ _ Hmeta).
  cbn [read_json_node written bind].
  cbn [sort_keys subscript]. rewrite !get_sorted_keys.
  unfold enriched at 1, set, get. rewrite get_set_same. cbn [option_map sort_keys bind].
  unfold enriched at 1, set. rewrite get_set_other by discriminate.
  rewrite get_set_same. cbn [option_map sort_keys bind].
  rewrite Hload; auto.
Qed.

Lemma no_directory_raises run_id s : no_directory run_id s <> JSONDecodeError.
Proof.
  unfold no_directory.
  destruct (dict_get String.eqb run_id (runs_dir s)) as [[|fs]|]; discriminate.
Qed.

Lemma write_file_raises run_id name (n : @node ndarrays) s e s' :
  write_file run_id name n s = (Raise e, s') -> e <> JSONDecodeError.
Proof.
  unfold write_file. destruct (files_of run_id s) as [fs|].
  - destruct (dict_get String.eqb name fs) as [old|];
      [destruct (is_directory old)|]; intros H; try discriminate;
      injection H as <- _; discriminate.
  - intros H. injection H as <- _. apply no_directory_raises.
Qed.

Lemma save_arrays_raises fmt (arrays : ndarrays) run_id s e s' :
  _save_arrays fmt arrays run_id s = (Raise e, s') -> e <> JSONDecodeError.
Proof.
  unfold _save_arrays.
  destruct (String.eqb fmt "npz").
  { destruct (existsb (String.eqb "file") (keys arrays));
      [intros H; injection H as <- _; discriminate|].
    destruct (write_file _ _ _ s) as [[u|e1] s1] eqn:E; intros H; try discriminate.
    injection H as <- _. eapply write_file_raises; eauto. }
  destruct (String.eqb fmt "zarr").
  { destruct (negb (zarr_available s));
      [intros H; injection H as <- _; discriminate|].
    destruct (files_of run_id s) as [fs|];
      [|intros H; injection H as <- _; apply no_directory_raises].
    destruct (dict_get String.eqb "arrays.zarr" fs) as [old|];
      [destruct (is_directory old)|]; intros H; try discriminate.
    injection H as <- _. discriminate. }
  destruct (String.eqb fmt "hdf5");
    [|intros H; injection H as <- _; discriminate].
  destruct (negb (h5py_available s));
    [intros H; injection H as <- _; discriminate|].
  destruct (write_file _ _ _ s) as [[u|e1] s1] eqn:E; intros H; try discriminate.
  injection H as <- _. eapply write_file_raises; eauto.
Qed.

(** X26.  With a manifest file that does not parse, [save] never returns, and
    the manifest stays as it is, so that every listing raises too.  The
    save is not undone: when it got as far as the manifest (it raised the
    decoder's error), the run directory holds the arrays and the metadata,
    and [load] returns them. *)
Theorem save_unreadable_manifest run_id (arrays : ndarrays) metadata fmt s r s' :
  manifest_file s = Some None ->
  save run_id arrays metadata fmt s = (r, s') ->
  (forall dir, r <> Ok dir) /\
  manifest_file s' = Some None /\
  list_runs s' = Raise JSONDecodeError /\
  (r = Raise JSONDecodeError ->
   exists p, load run_id s' =
             Ok (arrays, sort_keys (JObj (enriched run_id fmt p metadata)))).
Proof.
  intros Hm. unfold save.
  assert (Hlist : forall t : @store ndarrays,
                    manifest_file t = Some None ->
                    list_runs t = Raise JSONDecodeError).
  { intros t Ht. unfold list_runs, _load_manifest, _read_json. now rewrite Ht. }
  destruct (mkdir_run run_id s) as [[[]|e1] s1] eqn:E1.
  2:{ intros H. injection H as <- <-.
      pose proof (mkdir_run_manifest _ _ _ _ E1) as M. rewrite Hm in M.
      repeat split; auto; try discriminate.
      unfold mkdir_run in E1.
      destruct (dict_get String.eqb run_id (runs_dir s)) as [[|fs]|];
        try discriminate. injection E1 as <- _. discriminate. }
  pose proof (mkdir_run_manifest _ _ _ _ E1) as M1.
  destruct (_save_arrays fmt arrays run_id s1) as [[p|e2] s2] eqn:E2.
  2:{ intros H. injection H as <- <-.
      pose proof (save_arrays_manifest _ _ _ _ _ _ E2) as M.
      rewrite M1, Hm in M. repeat split; auto; try discriminate.
      intros H. injection H as ->. now apply save_arrays_raises in E2. }
  pose proof (save_arrays_manifest _ _ _ _ _ _ E2) as M2.
  cbv zeta. fold (enriched run_id fmt p metadata).
  destruct (save_arrays_files _ _ _ _ _ _ E2) as [fs Hfs].
  rewrite (write_json_run _ _ _ _ _ Hfs).
  destruct (write_file run_id "metadata.json" _ s2) as [[[]|e3] s3] eqn:E3.
  2:{ intros H. injection H as <- <-.
      pose proof (write_file_manifest _ _ _ _ _ _ E3) as M.
      rewrite M2, M1, Hm in M. repeat split; auto; try discriminate.
      intros H. injection H as ->. now apply write_file_raises in E3. }
  pose proof (write_file_manifest _ _ _ _ _ _ E3) as M3.
  rewrite M2, M1, Hm in M3.
  unfold _update_manifest, _load_manifest, _read_json. rewrite M3.
  intros H. injection H as <- <-.
  repeat split; auto; try discriminate.
  intros _. exists p. eapply load_written; eauto.
Qed.
End ManifestBroken.

Lemma save_unreadable_manifest_witness :
  exists p,
    load "a" (snd (save "a" tt [("seed", JInt 1)] "npz"
                     (mkStore false false (Some None) []))) =
    Ok (tt, sort_keys (JObj (enriched "a" "npz" p [("seed", JInt 1)]))).
Proof.
  apply (save_unreadable_manifest "a" tt [("seed", JInt 1)] "npz"
           (mkStore false false (Some None) [])
           (Raise JSONDecodeError)
           (snd (save "a" tt [("seed", JInt 1)] "npz"
                   (mkStore false false (Some None) []))));
    reflexivity.
Defined.
